(** * Rebinning of detector frames: channel topology, block aggregation
      and the rebinning run.

    Shallow embedding of [labelling-2d/rebin_frames.py]
    ([AnodesChannelGrouping], [FrameRebinner], [HDF5FrameProcessor]) and of
    [RebinnedChannelPlotter.determine_anode_plane] and
    [RebinnedChannelPlotter.get_channel_data] from
    [labelling-2d/plot_rebinned_channels.py].

    Conventions of the embedding:
    - Python [int]s are [Z]; [//] and [%] are [Z.div] and [Z.modulo]
      (both round towards minus infinity, as Python does).
    - A numpy array is its shape together with its row-major (C order)
      buffer.  A frame is an array of a signed integer dtype ([int8] to
      [int64]); a cell is held as the integer it denotes ([Z]) and the
      arithmetic of numpy is written out with its wrap-around: [A + B] is
      computed in the dtype of the frames, [np.sum] accumulates in
      [int64].  Addition modulo 2^64 is associative and commutative, so
      the order in which [np.sum] visits the cells plays no role.
      Unsigned frames (accumulated in [uint64]) and floating point
      frames (whose sums round, and depend on the order of summation)
      are not embedded: the statements on cell values are stated for
      frames of a signed integer dtype.
    - The datasets that [get_channel_data] reads are arrays of any rank.
    - A Python [dict] is an association list in insertion order.
    - Exceptions are the values of [exn]; prints are events of a log. *)

From Stdlib Require Import String Ascii.
From Stdlib Require Import ZArith List Lia Bool Arith DecimalString.
From Stdlib Require Import Sorting.Sorted Sorting.Permutation.
Import ListNotations.
Local Open Scope Z_scope.

(* ================================================================= *)
(** ** Python and numpy primitives *)

(** [np.arange(a, b)]: the integers of the half-open interval. *)
Definition arange (a b : Z) : list Z :=
  map (fun k => a + Z.of_nat k) (seq 0 (Z.to_nat (b - a))).

(** [np.sort] on a one-dimensional integer array (ascending). *)
Fixpoint insert_asc (x : Z) (l : list Z) : list Z :=
  match l with
  | [] => [x]
  | y :: t => if x <=? y then x :: l else y :: insert_asc x t
  end.

Definition np_sort (l : list Z) : list Z := fold_right insert_asc [] l.

(** A dictionary with keys of type [K]: association list, insertion order. *)
Section Dict.
Context {K V : Type} (eqb : K -> K -> bool).

Fixpoint dict_get (k : K) (d : list (K * V)) : option V :=
  match d with
  | [] => None
  | (k', v) :: t => if eqb k k' then Some v else dict_get k t
  end.

(** [d[k] = v]: an existing key keeps its position. *)
Fixpoint dict_set (k : K) (v : V) (d : list (K * V)) : list (K * V) :=
  match d with
  | [] => [(k, v)]
  | (k', v') :: t =>
      if eqb k k' then (k', v) :: t else (k', v') :: dict_set k v t
  end.

Definition dict_mem (k : K) (d : list (K * V)) : bool :=
  match dict_get k d with Some _ => true | None => false end.

(** [{**d1, **d2}] *)
Definition dict_merge (d1 d2 : list (K * V)) : list (K * V) :=
  fold_left (fun acc kv => dict_set (fst kv) (snd kv) acc) d2 d1.
End Dict.

(* ================================================================= *)
(** ** ChannelTopology *)

(** [AnodesChannelGrouping.get_anode_channels] *)
Definition get_anode_channels (n : Z) : list Z :=
  let crp := (n - n mod 2) / 2 in
  let cru0 := arange 0 476 ++ arange 952 1428 ++ arange 1904 2488 in
  let cru1 := arange 476 952 ++ arange 1428 1904 ++ arange 2488 3072 in
  let channels := if n mod 2 =? 0 then cru0 else cru1 in
  map (fun c => c + 3072 * crp) channels.

(** [AnodesChannelGrouping.get_anode_planes]: the dictionary
    [{0: sort(u), 1: sort(v), 2: sort(w)}]. *)
Definition get_anode_planes (anode_id : Z) : list (Z * list Z) :=
  let crp := anode_id / 2 in
  let cru_idx := anode_id mod 2 in
  let base_offset := 3072 * crp in
  let shift := map (fun c => c + base_offset) in
  let '(u, v, w) :=
    if cru_idx =? 0
    then (shift (arange 0 476), shift (arange 952 1428),
          shift (arange 1904 2488))
    else (shift (arange 476 951), shift (arange 1428 1903),
          shift (arange 2488 3071)) in
  [(0, np_sort u); (1, np_sort v); (2, np_sort w)].

(** [RebinnedChannelPlotter.determine_anode_plane] *)
Definition determine_anode_plane (channel : Z) : Z * Z * Z :=
  let crp := channel / 3072 in
  let ch_in_crp := channel mod 3072 in
  let '(cru, plane_in_cru, ch_idx) :=
    if ch_in_crp <? 476 then (0, 0, ch_in_crp)
    else if ch_in_crp <? 952 then (1, 0, ch_in_crp - 476)
    else if ch_in_crp <? 1428 then (0, 1, ch_in_crp - 952)
    else if ch_in_crp <? 1904 then (1, 1, ch_in_crp - 1428)
    else if ch_in_crp <? 2488 then (0, 2, ch_in_crp - 1904)
    else (1, 2, ch_in_crp - 2488) in
  let anode_id := crp * 2 + cru in
  let plane_id := plane_in_cru in
  (anode_id, plane_id, ch_idx).

(** All channels of the three plane arrays of an anode. *)
Definition plane_union (anode_id : Z) : list Z :=
  flat_map snd (get_anode_planes anode_id).

(* ================================================================= *)
(** ** Exceptions and arrays *)

Inductive exn : Type :=
| ZeroDivisionError
| ValueError
| IndexError
| KeyError (key : string).

Inductive result (A : Type) : Type :=
| Ok (a : A)
| Raise (e : exn).
Arguments Ok {A} a.
Arguments Raise {A} e.

Definition rbind {A B} (m : result A) (f : A -> result B) : result B :=
  match m with
  | Ok a => f a
  | Raise e => Raise e
  end.

Notation "x <- m ;; k" := (rbind m (fun x => k))
  (at level 61, m at next level, right associativity).
Notation "' p <- m ;; k" := (rbind m (fun x => let 'p := x in k))
  (at level 61, p pattern, m at next level, right associativity).

(** A [for] loop whose body may raise; [s] is the state the loop updates. *)
Fixpoint for_each {A S} (l : list A) (body : S -> A -> result S) (s : S)
  : result S :=
  match l with
  | [] => Ok s
  | a :: t => s' <- body s a ;; for_each t body s'
  end.

(** Python's [a // b]. *)
Definition floordiv (a b : Z) : result Z :=
  if b =? 0 then Raise ZeroDivisionError else Ok (a / b).

(** Two- and three-dimensional arrays: shape and row-major buffer. *)
Record ndarray2 : Type := mk2 { dim0 : nat; dim1 : nat; buf2 : list Z }.
Record ndarray3 : Type :=
  mk3 { d3_0 : nat; d3_1 : nat; d3_2 : nat; buf3 : list Z }.

Definition wf2 (a : ndarray2) : Prop :=
  length (buf2 a) = (dim0 a * dim1 a)%nat.

Definition shape2 (a : ndarray2) : nat * nat := (dim0 a, dim1 a).

Definition shape2_eqb (s t : nat * nat) : bool :=
  Nat.eqb (fst s) (fst t) && Nat.eqb (snd s) (snd t).

(** The buffer whose cell [(i, j)] is [f i j]. *)
Definition tabulate2 (n0 n1 : nat) (f : nat -> nat -> Z) : list Z :=
  flat_map (fun i => map (f i) (seq 0 n1)) (seq 0 n0).

(** The cell [(i, j)] of the buffer, for indices inside the shape. *)
Definition get2 (a : ndarray2) (i j : nat) : Z :=
  nth (i * dim1 a + j) (buf2 a) 0.

Definition zsum (l : list Z) : Z := fold_right Z.add 0 l.

(** An index of Python along an axis of length [n]: negative indices count
    from the end, anything outside raises. *)
Definition norm_index (n : nat) (i : Z) : result nat :=
  if (0 <=? i) && (i <? Z.of_nat n) then Ok (Z.to_nat i)
  else if (- Z.of_nat n <=? i) && (i <? 0) then Ok (Z.to_nat (i + Z.of_nat n))
  else Raise IndexError.

(** [a[i, j]] *)
Definition getitem2 (a : ndarray2) (i j : Z) : result Z :=
  i' <- norm_index (dim0 a) i ;;
  j' <- norm_index (dim1 a) j ;;
  Ok (get2 a i' j').

Fixpoint list_update (l : list Z) (k : nat) (v : Z) : list Z :=
  match l, k with
  | [], _ => []
  | _ :: t, O => v :: t
  | x :: t, S k' => x :: list_update t k' v
  end.

(** [a[i, j] = v] *)
Definition setitem2 (a : ndarray2) (i j : Z) (v : Z) : result ndarray2 :=
  i' <- norm_index (dim0 a) i ;;
  j' <- norm_index (dim1 a) j ;;
  Ok (mk2 (dim0 a) (dim1 a) (list_update (buf2 a) (i' * dim1 a + j') v)).

(** [np.zeros((d0, d1))] *)
Definition np_zeros (d0 d1 : Z) : result ndarray2 :=
  if (d0 <? 0) || (d1 <? 0) then Raise ValueError
  else Ok (mk2 (Z.to_nat d0) (Z.to_nat d1)
               (repeat 0 (Z.to_nat d0 * Z.to_nat d1))).

(** The end of the slice [[:stop]] along an axis of length [n]. *)
Definition slice_stop (n : nat) (stop : Z) : nat :=
  if stop <? 0 then Z.to_nat (Z.max 0 (Z.of_nat n + stop))
  else Z.to_nat (Z.min stop (Z.of_nat n)).

(** [a[:stop, :]] *)
Definition slice_rows (a : ndarray2) (stop : Z) : ndarray2 :=
  let m := slice_stop (dim0 a) stop in
  mk2 m (dim1 a) (tabulate2 m (dim1 a) (get2 a)).

(** [a[:, :stop]] *)
Definition slice_cols (a : ndarray2) (stop : Z) : ndarray2 :=
  let m := slice_stop (dim1 a) stop in
  mk2 (dim0 a) m (tabulate2 (dim0 a) m (get2 a)).

(** [a[rows, :]] for an index array [rows]. *)
Definition take_rows (a : ndarray2) (rows : list Z) : result ndarray2 :=
  idx <- for_each rows
           (fun acc r => r' <- norm_index (dim0 a) r ;; Ok (acc ++ [r'])) [] ;;
  Ok (mk2 (length idx) (dim1 a)
          (tabulate2 (length idx) (dim1 a)
                     (fun i j => get2 a (nth i idx 0%nat) j))).

(** [a.reshape(e0, e1, e2)]: the buffer is kept; at most one dimension may
    be negative (it is then inferred from the size), and the sizes must
    agree. *)
Definition reshape3 (a : ndarray2) (e0 e1 e2 : Z) : result ndarray3 :=
  let size := Z.of_nat (dim0 a * dim1 a) in
  let neg := filter (fun e => e <? 0) [e0; e1; e2] in
  let known := fold_right Z.mul 1 (filter (fun e => 0 <=? e) [e0; e1; e2]) in
  match neg with
  | [] =>
      if known =? size
      then Ok (mk3 (Z.to_nat e0) (Z.to_nat e1) (Z.to_nat e2) (buf2 a))
      else Raise ValueError
  | [_] =>
      if (known =? 0) || negb (size mod known =? 0) then Raise ValueError
      else
        let fix_dim e := Z.to_nat (if e <? 0 then size / known else e) in
        Ok (mk3 (fix_dim e0) (fix_dim e1) (fix_dim e2) (buf2 a))
  | _ => Raise ValueError
  end.

Definition get3 (a : ndarray3) (i j k : nat) : Z :=
  nth ((i * d3_1 a + j) * d3_2 a + k) (buf3 a) 0.

(** The signed integer dtypes.  A frame of this embedding is an array of
    one of them, and a cell is held as the integer it denotes; numpy
    computes in the dtype, wrapping around on overflow. *)
Inductive int_dtype : Type := Int8 | Int16 | Int32 | Int64.

(** Half the number of values of a dtype: 2^7, 2^15, 2^31, 2^63. *)
Definition half_range (d : int_dtype) : Z :=
  match d with
  | Int8 => 128
  | Int16 => 32768
  | Int32 => 2147483648
  | Int64 => 9223372036854775808
  end.

(** The values of a dtype. *)
Definition in_dtype (d : int_dtype) (z : Z) : Prop :=
  - half_range d <= z < half_range d.

(** The value of the dtype that an integer wraps around to (two's
    complement). *)
Definition wrap (d : int_dtype) (z : Z) : Z :=
  (z + half_range d) mod (2 * half_range d) - half_range d.

(** An array whose cells are values of the dtype. *)
Definition frame_of (d : int_dtype) (a : ndarray2) : Prop :=
  Forall (in_dtype d) (buf2 a).

(** The addition of two [int64] values. *)
Definition int64_add (a b : Z) : Z := wrap Int64 (a + b).

(** [np.sum] over one run of cells of a signed integer dtype: the cells
    are accumulated in [int64], one after the other, every addition
    wrapping around.  (The accumulator is the first cell before the second
    is added: adding the first cell to the initial 0 changes nothing.) *)
Definition np_sum (l : list Z) : Z :=
  match l with
  | [] => 0
  | x :: t => fold_left int64_add t x
  end.

(** [np.sum(a, axis=1)] and [np.sum(a, axis=2)] of a three-dimensional
    array. *)
Definition sum_axis1 (a : ndarray3) : ndarray2 :=
  mk2 (d3_0 a) (d3_2 a)
      (tabulate2 (d3_0 a) (d3_2 a)
         (fun i k => np_sum (map (fun j => get3 a i j k) (seq 0 (d3_1 a))))).

Definition sum_axis2 (a : ndarray3) : ndarray2 :=
  mk2 (d3_0 a) (d3_1 a)
      (tabulate2 (d3_0 a) (d3_1 a)
         (fun i j => np_sum (map (fun k => get3 a i j k) (seq 0 (d3_2 a))))).

(* ================================================================= *)
(** ** BlockAggregator *)

(** [FrameRebinner.rebin_sum] *)
Definition rebin_sum (data : ndarray2) (rebin_time rebin_channel : Z)
  : result ndarray2 :=
  let n_ch := Z.of_nat (dim0 data) in
  let n_ticks := Z.of_nat (dim1 data) in
  n_ch_new <- floordiv n_ch rebin_channel ;;
  n_ticks_new <- floordiv n_ticks rebin_time ;;
  data_ch <- reshape3 (slice_rows data (n_ch_new * rebin_channel))
                      n_ch_new rebin_channel n_ticks ;;
  let data_ch := sum_axis1 data_ch in
  data_rebin <- reshape3 (slice_cols data_ch (n_ticks_new * rebin_time))
                         n_ch_new n_ticks_new rebin_time ;;
  let data_rebin := sum_axis2 data_rebin in
  Ok data_rebin.

(** [contributions.sort(key=lambda x: x[0], reverse=True)]: the stable sort
    by charge, largest first (equal charges keep their order). *)
Fixpoint insert_desc (x : Z * Z) (l : list (Z * Z)) : list (Z * Z) :=
  match l with
  | [] => [x]
  | y :: t => if fst y <=? fst x then x :: l else y :: insert_desc x t
  end.

Definition sort_desc (l : list (Z * Z)) : list (Z * Z) :=
  fold_right insert_desc [] l.

(** The two [if charge > 0: contributions.append(...)] of one cell. *)
Definition collect_cell (data_1st data_2nd charge_1st charge_2nd : ndarray2)
    (contributions : list (Z * Z)) (ch tick : Z) : result (list (Z * Z)) :=
  q1 <- getitem2 charge_1st ch tick ;;
  contributions <-
    (if q1 >? 0
     then l1 <- getitem2 data_1st ch tick ;; Ok (contributions ++ [(q1, l1)])
     else Ok contributions) ;;
  q2 <- getitem2 charge_2nd ch tick ;;
  if q2 >? 0
  then l2 <- getitem2 data_2nd ch tick ;; Ok (contributions ++ [(q2, l2)])
  else Ok contributions.

(** The body of the [i_tick] loop: one output bin. *)
Definition rebin_bin (data_1st data_2nd charge_1st charge_2nd : ndarray2)
    (rebin_time rebin_channel n_ch n_ticks : Z)
    (i_ch : Z) (outs : ndarray2 * ndarray2) (i_tick : Z)
  : result (ndarray2 * ndarray2) :=
  let ch_start := i_ch * rebin_channel in
  let ch_end := Z.min (ch_start + rebin_channel) n_ch in
  let tick_start := i_tick * rebin_time in
  let tick_end := Z.min (tick_start + rebin_time) n_ticks in
  contributions <-
    for_each (arange ch_start ch_end)
      (fun acc ch =>
         for_each (arange tick_start tick_end)
           (fun acc tick =>
              collect_cell data_1st data_2nd charge_1st charge_2nd
                           acc ch tick) acc) [] ;;
  if (0 <? length contributions)%nat then
    let contributions := sort_desc contributions in
    out_1st <- setitem2 (fst outs) i_ch i_tick
                        (snd (nth 0 contributions (0, 0))) ;;
    if (1 <? length contributions)%nat then
      out_2nd <- setitem2 (snd outs) i_ch i_tick
                          (snd (nth 1 contributions (0, 0))) ;;
      Ok (out_1st, out_2nd)
    else Ok (out_1st, snd outs)
  else Ok outs.

(** [FrameRebinner.rebin_track_first_second] *)
Definition rebin_track_first_second
    (data_1st data_2nd charge_1st charge_2nd : ndarray2)
    (rebin_time rebin_channel : Z) : result (ndarray2 * ndarray2) :=
  let n_ch := Z.of_nat (dim0 data_1st) in
  let n_ticks := Z.of_nat (dim1 data_1st) in
  n_ch_new <- floordiv n_ch rebin_channel ;;
  n_ticks_new <- floordiv n_ticks rebin_time ;;
  out_1st <- np_zeros n_ch_new n_ticks_new ;;
  out_2nd <- np_zeros n_ch_new n_ticks_new ;;
  for_each (arange 0 n_ch_new)
    (fun outs i_ch =>
       for_each (arange 0 n_ticks_new)
         (rebin_bin data_1st data_2nd charge_1st charge_2nd
                    rebin_time rebin_channel n_ch n_ticks i_ch) outs)
    (out_1st, out_2nd).

(* ================================================================= *)
(** ** RebinPipeline: strings, files and the log *)

Local Open Scope string_scope.

(** [str.lower()] on ASCII text. *)
Definition lower_ascii (c : ascii) : ascii :=
  let n := nat_of_ascii c in
  if (65 <=? n)%nat && (n <=? 90)%nat then ascii_of_nat (n + 32) else c.

Fixpoint lower (s : string) : string :=
  match s with
  | EmptyString => EmptyString
  | String c t => String (lower_ascii c) (lower t)
  end.

(** [sub in s] *)
Definition contains (sub s : string) : bool :=
  match index 0 sub s with Some _ => true | None => false end.

(** [s.replace(old, new, 1)] *)
Definition replace_first (old new s : string) : string :=
  match index 0 old s with
  | Some i =>
      substring 0 i s ++ new ++
      substring (i + String.length old)
                (String.length s - (i + String.length old)) s
  | None => s
  end.

(** [str(z)] *)
Definition str (z : Z) : string := NilZero.string_of_int (Z.to_int z).

(** [sorted] on a list of strings. *)
Fixpoint insert_str (x : string) (l : list string) : list string :=
  match l with
  | [] => [x]
  | y :: t => if String.leb x y then x :: l else y :: insert_str x t
  end.

Definition sorted_str (l : list string) : list string :=
  fold_right insert_str [] l.

Definition frames : Type := list (string * ndarray2).

(** An HDF5 file as [process] reads it: the members of the group [/1] in
    the order [keys()] lists them, or [None] when the file has no such
    group.  Every member is a two-dimensional dataset. *)
Record h5file : Type := mk_h5 { group1 : option frames }.

(** What [process] prints, one event per [print]. *)
Inductive event : Type :=
| MsgLoading
| MsgLoaded (key clean_key : string)
| MsgLoadedFrames (file : string) (names : list string)
| MsgShapeError (name : string) (shape expected : nat * nat)
| MsgDimMismatch
| MsgFrameDims (n_channels n_ticks : nat)
| MsgRebinning (rebin_time rebin_channel : Z)
| MsgProcessing (anode_id plane_id : Z) (n_plane_channels : nat)
| MsgSaving
| MsgSaved (n : nat)
| MsgOutputDatasets (names : list string).

(** A computation that prints and may raise: the events printed so far
    and the result. *)
Definition io (A : Type) : Type := list event * result A.

Definition io_ret {A} (a : A) : io A := ([], Ok a).

Definition io_bind {A B} (m : io A) (f : A -> io B) : io B :=
  match m with
  | (l, Ok a) => let (l', r) := f a in (List.app l l', r)
  | (l, Raise e) => (l, Raise e)
  end.

Definition print (e : event) : io unit := ([e], Ok tt).

Definition lift {A} (r : result A) : io A := ([], r).

Notation "x <~ m ;; k" := (io_bind m (fun x => k))
  (at level 61, m at next level, right associativity).
Notation "m ;;; k" := (io_bind m (fun _ => k))
  (at level 61, right associativity).

Fixpoint io_for_each {A S} (l : list A) (body : S -> A -> io S) (s : S)
  : io S :=
  match l with
  | [] => io_ret s
  | a :: t => s' <~ body s a ;; io_for_each t body s'
  end.

(** [d[k]] on a dictionary keyed by strings. *)
Definition frame_lookup (k : string) (d : frames) : result ndarray2 :=
  match dict_get String.eqb k d with
  | Some a => Ok a
  | None => Raise (KeyError k)
  end.

(** The result of a run that returns: the value [process] returns and the
    datasets it created in the output file ([None]: the file was not
    opened).  The output file is opened after the anode loop only, so a
    run that raises writes nothing. *)
Record run : Type := mk_run { returned : bool; written : option frames }.

(** The body of the loading loop of [process]: one member of [/1]. *)
Definition load_member (fr : frames) (m : string * ndarray2) : io frames :=
  let key := fst m in
  if contains "frame" (lower key) then
    let clean_key :=
      if prefix "frame_" key then replace_first "frame_" EmptyString key else key in
    let fr := dict_set String.eqb clean_key (snd m) fr in
    (if negb (String.eqb clean_key key)
     then print (MsgLoaded key clean_key) else io_ret tt) ;;;
    io_ret fr
  else io_ret fr.

(** The loading loop of [process] over one input file. *)
Definition load_frames (f : h5file) : io frames :=
  match group1 f with
  | None => io_ret []
  | Some members => io_for_each members load_member []
  end.

(** The loop of [HDF5FrameProcessor.verify_dimensions]. *)
Fixpoint verify_loop (first_shape : option (nat * nat)) (items : frames)
  : io bool :=
  match items with
  | [] => io_ret true
  | (name, data) :: rest =>
      match first_shape with
      | None => verify_loop (Some (shape2 data)) rest
      | Some fs =>
          if negb (shape2_eqb (shape2 data) fs)
          then print (MsgShapeError name (shape2 data) fs) ;;; io_ret false
          else verify_loop first_shape rest
      end
  end.

(** [HDF5FrameProcessor.verify_dimensions] *)
Definition verify_dimensions (fr : frames) : io bool :=
  match fr with
  | [] => io_ret true
  | _ => verify_loop None fr
  end.

(** [AnodesChannelGrouping.get_all_anodes_channels] *)
Definition get_all_anodes_channels : list (Z * list Z) :=
  map (fun n => (n, get_anode_channels n)) (arange 0 8).

(** The label kinds [process] handles; the source has one copy of the
    block [handle_kind] for each, in this order. *)
Definition label_kinds : list string :=
  ["orig_trackid"; "orig_pid"; "current_pid"].

Section Unit.
Variables (frames_rec frames_tru : frames).
Variables (rebin_time rebin_channel : Z).
Variables (plane_channels : list Z) (plane_key : string).

(** [if 'frame_gauss' in frames_rec: ...] *)
Definition handle_gauss (rebinned_data : frames) : result frames :=
  if dict_mem String.eqb "frame_gauss" frames_rec then
    whole <- frame_lookup "frame_gauss" frames_rec ;;
    data <- take_rows whole plane_channels ;;
    rebinned <- rebin_sum data rebin_time rebin_channel ;;
    Ok (dict_set String.eqb (plane_key ++ "_gauss") rebinned rebinned_data)
  else Ok rebinned_data.

(** [if '<kind>_1st' in frames_tru: ...]; the set [processed_frames] the
    source fills here is never read and is left out. *)
Definition handle_kind (rebinned_data : frames) (kind : string)
  : result frames :=
  if dict_mem String.eqb (kind ++ "_1st") frames_tru then
    whole <- frame_lookup "charge_1st" frames_tru ;;
    charge_1st <- take_rows whole plane_channels ;;
    whole <- frame_lookup "charge_2nd" frames_tru ;;
    charge_2nd <- take_rows whole plane_channels ;;
    whole <- frame_lookup (kind ++ "_1st") frames_tru ;;
    data_1st <- take_rows whole plane_channels ;;
    whole <- frame_lookup (kind ++ "_2nd") frames_tru ;;
    data_2nd <- take_rows whole plane_channels ;;
    outs <- rebin_track_first_second data_1st data_2nd
              charge_1st charge_2nd rebin_time rebin_channel ;;
    let rebinned_data :=
      dict_set String.eqb (plane_key ++ "_" ++ kind ++ "_1st")
               (fst outs) rebinned_data in
    Ok (dict_set String.eqb (plane_key ++ "_" ++ kind ++ "_2nd")
                 (snd outs) rebinned_data)
  else Ok rebinned_data.

(** [if 'charge_1st' in frames_tru: ...] *)
Definition handle_charge (rebinned_data : frames) : result frames :=
  if dict_mem String.eqb "charge_1st" frames_tru then
    whole <- frame_lookup "charge_1st" frames_tru ;;
    charge_1st <- take_rows whole plane_channels ;;
    whole <- frame_lookup "charge_2nd" frames_tru ;;
    charge_2nd <- take_rows whole plane_channels ;;
    rebinned_1st <- rebin_sum charge_1st rebin_time rebin_channel ;;
    rebinned_2nd <- rebin_sum charge_2nd rebin_time rebin_channel ;;
    let rebinned_data :=
      dict_set String.eqb (plane_key ++ "_charge_1st")
               rebinned_1st rebinned_data in
    Ok (dict_set String.eqb (plane_key ++ "_charge_2nd")
                 rebinned_2nd rebinned_data)
  else Ok rebinned_data.

(** The aggregations of one (anode, plane) unit, for the label kinds
    [kinds]. *)
Definition aggregate_plane (kinds : list string) (rebinned_data : frames)
  : result frames :=
  rebinned_data <- handle_gauss rebinned_data ;;
  rebinned_data <- for_each kinds handle_kind rebinned_data ;;
  handle_charge rebinned_data.
End Unit.

Section Process.
Variables (rec_file tru_file : h5file).
Variables (rebin_time rebin_channel : Z).

(** The body of the [plane_id] loop. *)
Definition process_plane (kinds : list string) (frames_rec frames_tru : frames)
    (anode_id : Z) (planes : list (Z * list Z))
    (rebinned_data : frames) (plane_id : Z) : io frames :=
  plane_channels <~
    lift (match dict_get Z.eqb plane_id planes with
          | Some c => Ok c
          | None => Raise (KeyError (str plane_id))
          end) ;;
  print (MsgProcessing anode_id plane_id (length plane_channels)) ;;;
  let plane_key := "anode" ++ str anode_id ++ "_plane" ++ str plane_id in
  lift (aggregate_plane frames_rec frames_tru rebin_time rebin_channel
                        plane_channels plane_key kinds rebinned_data).

(** The [anode_id] loop. *)
Definition process_anodes (kinds : list string) (frames_rec frames_tru : frames)
  : io frames :=
  io_for_each (arange 0 8)
    (fun rebinned_data anode_id =>
       let planes := get_anode_planes anode_id in
       io_for_each (arange 0 3)
         (process_plane kinds frames_rec frames_tru anode_id planes)
         rebinned_data) [].

(** [HDF5FrameProcessor.process] from the point where both files are
    loaded, for the label kinds [kinds]. *)
Definition process_frames (kinds : list string)
    (frames_rec frames_tru : frames) : io run :=
  print (MsgLoadedFrames "g4-rec.h5" (map fst frames_rec)) ;;;
  print (MsgLoadedFrames "g4-tru.h5" (map fst frames_tru)) ;;;
  let all_frames := dict_merge String.eqb frames_rec frames_tru in
  ok <~ verify_dimensions all_frames ;;
  if negb ok then
    print MsgDimMismatch ;;; io_ret (mk_run false None)
  else
    first <~ lift (match map snd all_frames with
                   | a :: _ => Ok a
                   | [] => Raise IndexError
                   end) ;;
    print (MsgFrameDims (dim0 first) (dim1 first)) ;;;
    let anode_grouping := get_all_anodes_channels in
    print (MsgRebinning rebin_time rebin_channel) ;;;
    rebinned_data <~ process_anodes kinds frames_rec frames_tru ;;
    print MsgSaving ;;;
    let output_key key :=
      if prefix "frame_" key then key else "frame_" ++ key in
    let datasets :=
      map (fun kd => (output_key (fst kd), snd kd)) rebinned_data in
    print (MsgSaved (length rebinned_data)) ;;;
    print (MsgOutputDatasets
             (sorted_str (map output_key (map fst rebinned_data)))) ;;;
    io_ret (mk_run true (Some datasets)).

(** [HDF5FrameProcessor.process], for the label kinds [kinds]. *)
Definition process_kinds (kinds : list string) : io run :=
  print MsgLoading ;;;
  frames_rec <~ load_frames rec_file ;;
  frames_tru <~ load_frames tru_file ;;
  process_frames kinds frames_rec frames_tru.

Definition process : io run := process_kinds label_kinds.
End Process.

(** The frames [process] has loaded from a file. *)
Definition loaded_frames (f : h5file) : frames :=
  match snd (load_frames f) with
  | Ok fr => fr
  | Raise _ => []
  end.

Local Close Scope string_scope.

(* ================================================================= *)
(** ** RebinnedChannelPlotter.get_channel_data *)

Local Open Scope string_scope.

(** The frame types [get_channel_data] looks for, in its order. *)
Definition frame_types : list string :=
  ["gauss";
   "orig_trackid_1st"; "orig_pid_1st"; "current_pid_1st"; "charge_1st";
   "orig_trackid_2nd"; "orig_pid_2nd"; "current_pid_2nd"; "charge_2nd"].

(** The two names tried for a frame type, in the order they are tried. *)
Definition possible_keys (anode_id plane_id : Z) (frame_type : string)
  : list string :=
  ["frame_anode" ++ str anode_id ++ "_plane" ++ str plane_id ++ "_"
     ++ frame_type;
   "anode" ++ str anode_id ++ "_plane" ++ str plane_id ++ "_" ++ frame_type].

(** A dataset of the rebinned file as [np.array(self.h5f[key])] gives
    it: an array of any rank, its shape together with its cells in C
    order.  A scalar dataset has the empty shape. *)
Record ndarray : Type := mk_nd { nd_shape : list nat; nd_buf : list Z }.

(** The number of cells of an array of shape [shape]. *)
Definition nd_size (shape : list nat) : nat := fold_right Nat.mul 1%nat shape.

(** The rebinned file as the plotter reads it: the names of its root
    level, each with its dataset. *)
Definition h5root : Type := list (string * ndarray).

(** A two-dimensional array as a dataset, and the file holding the
    datasets that [process] creates. *)
Definition nd_of2 (a : ndarray2) : ndarray :=
  mk_nd [dim0 a; dim1 a] (buf2 a).

Definition h5root_of (ds : frames) : h5root :=
  map (fun kd => (fst kd, nd_of2 (snd kd))) ds.

(** The warning printed for a channel index outside a dataset. *)
Record bounds_warning : Type :=
  mk_warning { warn_key : string; warn_idx : Z; warn_shape : list nat }.

(** [self.h5f[key]] *)
Definition h5_lookup (k : string) (h5f : h5root) : result ndarray :=
  match dict_get String.eqb k h5f with
  | Some a => Ok a
  | None => Raise (KeyError k)
  end.

(** [a.shape[0]]: the empty tuple of a scalar has no first member. *)
Definition shape0 (a : ndarray) : result nat :=
  match nd_shape a with
  | [] => Raise IndexError
  | n0 :: _ => Ok n0
  end.

(** [a[i, :]]: two indices need an array of two axes at least; the
    result is the sub-array at index [i] of the first axis. *)
Definition take_row (a : ndarray) (i : Z) : result ndarray :=
  match nd_shape a with
  | n0 :: n1 :: rest =>
      i' <- norm_index n0 i ;;
      Ok (mk_nd (n1 :: rest)
                (firstn (nd_size (n1 :: rest))
                        (skipn (i' * nd_size (n1 :: rest)) (nd_buf a))))
  | _ => Raise IndexError
  end.

(** The loop over [possible_keys]: the first name present in the file
    decides, and the loop is left with [break] in both branches. *)
Fixpoint try_keys (h5f : h5root) (ch_idx : Z) (keys : list string)
  : result (option ndarray * list bounds_warning) :=
  match keys with
  | [] => Ok (None, [])
  | key :: rest =>
      if dict_mem String.eqb key h5f then
        frame_data <- h5_lookup key h5f ;;
        n0 <- shape0 frame_data ;;
        if (ch_idx <? Z.of_nat n0)%Z then
          row <- take_row frame_data ch_idx ;;
          Ok (Some row, [])
        else Ok (None, [mk_warning key ch_idx (nd_shape frame_data)])
      else try_keys h5f ch_idx rest
  end.

(** What [get_channel_data] returns, with the warnings it printed. *)
Record channel_data : Type :=
  mk_channel_data {
      cd_data : list (string * ndarray);
      cd_anode : Z;
      cd_plane : Z;
      cd_idx : Z;
      cd_warnings : list bounds_warning }.

(** [RebinnedChannelPlotter.get_channel_data] *)
Definition get_channel_data (h5f : h5root) (channel : Z)
  : result channel_data :=
  let '(anode_id, plane_id, ch_idx) := determine_anode_plane channel in
  st <- for_each frame_types
          (fun (st : list (string * ndarray) * list bounds_warning)
               frame_type =>
             r <- try_keys h5f ch_idx
                    (possible_keys anode_id plane_id frame_type) ;;
             match fst r with
             | Some row =>
                 Ok (dict_set String.eqb frame_type row (fst st),
                     List.app (snd st) (snd r))
             | None => Ok (fst st, List.app (snd st) (snd r))
             end)
          ([], []) ;;
  Ok (mk_channel_data (fst st) anode_id plane_id ch_idx (snd st)).

(** The first of the names [keys] present in the file, with its
    dataset: the name at which the loop over [possible_keys] stops. *)
Fixpoint first_present (h5f : h5root) (keys : list string)
  : option (string * ndarray) :=
  match keys with
  | [] => None
  | key :: rest =>
      match dict_get String.eqb key h5f with
      | Some frame_data => Some (key, frame_data)
      | None => first_present h5f rest
      end
  end.

(** A dataset from which the row [ch_idx] can be asked for: not a
    scalar, and not a one-dimensional dataset longer than [ch_idx]. *)
Definition row_readable (ch_idx : Z) (a : ndarray) : bool :=
  match nd_shape a with
  | [] => false
  | [n0] => negb (ch_idx <? Z.of_nat n0)%Z
  | _ => true
  end.

Definition key_readable (h5f : h5root) (ch_idx : Z) (keys : list string)
  : bool :=
  match first_present h5f keys with
  | None => true
  | Some (_, frame_data) => row_readable ch_idx frame_data
  end.

(** What the loop over [possible_keys] leaves for one frame type when the
    dataset found is readable: the sub-array [ch_idx] of the dataset
    when its first axis is that long, a warning when it is not, nothing
    when no name is present. *)
Definition key_outcome (h5f : h5root) (ch_idx : Z) (keys : list string)
  : option ndarray * list bounds_warning :=
  match first_present h5f keys with
  | None => (None, [])
  | Some (key, frame_data) =>
      if (ch_idx <? Z.of_nat (hd 0%nat (nd_shape frame_data)))%Z
      then (Some (mk_nd (tl (nd_shape frame_data))
                        (firstn (nd_size (tl (nd_shape frame_data)))
                                (skipn (Z.to_nat ch_idx
                                        * nd_size (tl (nd_shape frame_data)))
                                       (nd_buf frame_data)))), [])
      else (None, [mk_warning key ch_idx (nd_shape frame_data)])
  end.

Local Close Scope string_scope.

(* ================================================================= *)
(** ** The aggregation rules as the specification words them *)

(** [data] cut down to [rows] rows and [cols] columns. *)
Definition truncate (data : ndarray2) (rows cols : nat) : ndarray2 :=
  mk2 rows cols (tabulate2 rows cols (get2 data)).

(** The sum of the block [(i, j)] of [rc] rows and [rt] columns of [a]. *)
Definition block_sum (a : ndarray2) (rt rc : nat) (i j : nat) : Z :=
  zsum (map (fun r =>
               zsum (map (fun t => get2 a (i * rc + r) (j * rt + t))
                         (seq 0 rt)))
            (seq 0 rc)).




(** The contributions of one cell: the 1st pair, then the 2nd pair, each
    only when its charge is positive. *)
Definition cell_pairs (data_1st data_2nd charge_1st charge_2nd : ndarray2)
    (ch tick : nat) : list (Z * Z) :=
  (if get2 charge_1st ch tick >? 0
   then [(get2 charge_1st ch tick, get2 data_1st ch tick)] else [])
  ++
  (if get2 charge_2nd ch tick >? 0
   then [(get2 charge_2nd ch tick, get2 data_2nd ch tick)] else []).

(** The contributions of the block [(i, j)] of [rc] rows and [rt] columns,
    row by row. *)
Definition block_pairs (data_1st data_2nd charge_1st charge_2nd : ndarray2)
    (rt rc : nat) (i j : nat) : list (Z * Z) :=
  flat_map (fun ch =>
              flat_map (cell_pairs data_1st data_2nd charge_1st charge_2nd ch)
                       (seq (j * rt) rt))
           (seq (i * rc) rc).

(** The label of the first and of the second pair of a list, 0 when there
    is none. *)
Definition first_label (l : list (Z * Z)) : Z :=
  match l with
  | [] => 0
  | p :: _ => snd p
  end.

Definition second_label (l : list (Z * Z)) : Z :=
  match l with
  | _ :: p :: _ => snd p
  | _ => 0
  end.

(** Sorted by charge, largest first. *)
Definition charge_ge (p q : Z * Z) : Prop := fst q <= fst p.

(** The events printed inside the anode loop ("Processing Anode ..."). *)
Definition is_processing (e : event) : bool :=
  match e with MsgProcessing _ _ _ => true | _ => false end.

(** No event of the log comes from inside the anode loop. *)
Definition before_anode_loop (log : list event) : Prop :=
  forallb (fun e => negb (is_processing e)) log = true.

(* ================================================================= *)
(** ** Sample inputs *)

Definition ex_data_1st : ndarray2 := mk2 2 3 [7; 1; 0; 9; 4; 5].
Definition ex_data_2nd : ndarray2 := mk2 2 3 [1; 2; 3; 4; 5; 6].
Definition ex_charge_1st : ndarray2 := mk2 2 3 [5; 0; 0; 3; 5; 0].
Definition ex_charge_2nd : ndarray2 := mk2 2 3 [0; 0; 8; 0; 0; 8].

(** A column of [n] channels and one tick. *)
Definition ex_column (n : nat) (v : Z) : ndarray2 := mk2 n 1 (repeat v n).

(** Two files that both hold a dataset [frame_x], of different shapes. *)
Definition ex_same_name_rec : h5file :=
  mk_h5 (Some [("frame_x"%string, mk2 1 1 [1])]).
Definition ex_same_name_tru : h5file :=
  mk_h5 (Some [("frame_x"%string, mk2 2 2 [1; 2; 3; 4])]).

(** Two files whose frames have different names and different shapes. *)
Definition ex_mismatch_rec : h5file :=
  mk_h5 (Some [("frame_gauss"%string, mk2 1 1 [1])]).
Definition ex_mismatch_tru : h5file :=
  mk_h5 (Some [("frame_charge_1st"%string, mk2 1 1 [1]);
               ("frame_charge_2nd"%string, mk2 1 2 [1; 2]);
               ("frame_orig_pid_1st"%string, mk2 2 1 [1; 2])]).

(** A truth file with the two charge frames for the channels of anode 0,
    plane 0. *)
Definition ex_charge_tru : h5file :=
  mk_h5 (Some [("frame_charge_1st"%string, ex_column 476 1);
               ("frame_charge_2nd"%string, ex_column 476 2)]).

(** A truth file with the track-id labels but no charge frame. *)
Definition ex_labels_only_tru : h5file :=
  mk_h5 (Some [("frame_orig_trackid_1st"%string, mk2 1 1 [1]);
               ("frame_orig_trackid_2nd"%string, mk2 1 1 [2])]).

(** A truth file with the two charge frames for every channel of the
    detector. *)
Definition ex_full_charge_tru : h5file :=
  mk_h5 (Some [("frame_charge_1st"%string, ex_column (Z.to_nat 12288) 1);
               ("frame_charge_2nd"%string, ex_column (Z.to_nat 12288) 2)]).

(** A reconstruction file whose signal frame, named so that it is loaded
    as [frame_gauss], covers every channel of the detector. *)
Definition ex_full_gauss_rec : h5file :=
  mk_h5 (Some [("frame_frame_gauss"%string, ex_column (Z.to_nat 12288) 1)]).


(** A truth file with the four frames of the kind [orig_pid] for every
    channel of the detector. *)
Definition ex_full_quad_tru : h5file :=
  mk_h5 (Some [("frame_charge_1st"%string, ex_column (Z.to_nat 12288) 1);
               ("frame_charge_2nd"%string, ex_column (Z.to_nat 12288) 2);
               ("frame_orig_pid_1st"%string, ex_column (Z.to_nat 12288) 7);
               ("frame_orig_pid_2nd"%string, ex_column (Z.to_nat 12288) 9)]).

(** A rebinned file with a signal dataset of two rows and, under the
    second name tried, a charge dataset of one row. *)
Definition ex_rebinned_file : h5root :=
  [("frame_anode0_plane0_gauss"%string, mk_nd [2%nat; 3%nat] [1; 2; 3; 4; 5; 6]);
   ("anode0_plane0_charge_1st"%string, mk_nd [1%nat; 2%nat] [7; 8])].

(** A rebinned file whose dataset for [charge_2nd] has one axis only. *)
Definition ex_rebinned_file_1d : h5root :=
  [("frame_anode0_plane0_gauss"%string, mk_nd [2%nat; 3%nat] [1; 2; 3; 4; 5; 6]);
   ("frame_anode0_plane0_charge_2nd"%string, mk_nd [4%nat] [1; 2; 3; 4])].

(** A file without the group [/1]. *)
Definition ex_no_group : h5file := mk_h5 None.

(* ================================================================= *)
(** ** Invariants of the output mapping of [process] *)

(** The frame types whose block of the unit loop of [process] runs, by
    the three guards of the loop body: [gauss] when the reconstruction
    frames hold [frame_gauss], the two outputs of a label kind when the
    truth frames hold its [_1st] frame, the two charges when the truth
    frames hold [charge_1st]. *)
Definition stored_type (frames_rec frames_tru : frames) (ftype : string)
  : Prop :=
  (ftype = "gauss"%string /\
   dict_mem String.eqb "frame_gauss"%string frames_rec = true) \/
  (exists kind,
      In kind label_kinds /\
      (ftype = (kind ++ "_1st")%string \/ ftype = (kind ++ "_2nd")%string) /\
      dict_mem String.eqb (kind ++ "_1st")%string frames_tru = true) \/
  ((ftype = "charge_1st"%string \/ ftype = "charge_2nd"%string) /\
   dict_mem String.eqb "charge_1st"%string frames_tru = true).

(** A key of the output mapping of [process]: the plane key of a unit
    followed by [_] and a frame type whose block ran. *)
Definition key_ok (frames_rec frames_tru : frames) (key : string) : Prop :=
  exists a p ftype,
    0 <= a < 8 /\ 0 <= p < 3 /\
    key = (("anode" ++ str a ++ "_plane" ++ str p) ++ "_" ++ ftype)%string /\
    stored_type frames_rec frames_tru ftype.

Definition keys_ok (frames_rec frames_tru : frames) (rd : frames) : Prop :=
  forall k, In k (map fst rd) -> key_ok frames_rec frames_tru k.

(** An entry of the output mapping of [process] with the shape of its
    unit: the channels of the plane by the ticks [n1] of the frames, each
    divided by its factor. *)
Definition shape_ok (t c n1 : nat) (kv : string * ndarray2) : Prop :=
  exists a p ftype plane_channels,
    0 <= a < 8 /\ 0 <= p < 3 /\
    fst kv = (("anode" ++ str a ++ "_plane" ++ str p) ++ "_" ++ ftype)%string
    /\
    dict_get Z.eqb p (get_anode_planes a) = Some plane_channels /\
    shape2 (snd kv) = ((length plane_channels / c)%nat, (n1 / t)%nat).

(** The two entries of the label kind [kind] for a plane with the
    channels [plane_channels], held by the mapping [rd] under the keys
    [key_1st] and [key_2nd]: the four frames of the kind are present, and
    the entries are the two outputs of [rebin_track_first_second] on
    them, each indexed by the channels of the plane. *)
Definition kind_entries (frames_tru : frames) (rebin_time rebin_channel : Z)
    (kind : string) (plane_channels : list Z) (key_1st key_2nd : string)
    (rd : frames) : Prop :=
  exists w1 w2 w3 w4 charge_1st charge_2nd data_1st data_2nd outs,
    dict_get String.eqb "charge_1st"%string frames_tru = Some w1 /\
    take_rows w1 plane_channels = Ok charge_1st /\
    dict_get String.eqb "charge_2nd"%string frames_tru = Some w2 /\
    take_rows w2 plane_channels = Ok charge_2nd /\
    dict_get String.eqb (kind ++ "_1st")%string frames_tru = Some w3 /\
    take_rows w3 plane_channels = Ok data_1st /\
    dict_get String.eqb (kind ++ "_2nd")%string frames_tru = Some w4 /\
    take_rows w4 plane_channels = Ok data_2nd /\
    rebin_track_first_second data_1st data_2nd charge_1st charge_2nd
                             rebin_time rebin_channel = Ok outs /\
    dict_get String.eqb key_1st rd = Some (fst outs) /\
    dict_get String.eqb key_2nd rd = Some (snd outs).

(** The signal entry of the unit [(a, p)] in the output mapping [rd]: the
    signal frame, indexed by the plane's channels and rebinned. *)
Definition gauss_stored (frames_rec : frames) (rebin_time rebin_channel : Z)
    (a p : Z) (rd : frames) : Prop :=
  exists plane_channels whole data rebinned,
    dict_get Z.eqb p (get_anode_planes a) = Some plane_channels /\
    dict_get String.eqb "frame_gauss"%string frames_rec = Some whole /\
    take_rows whole plane_channels = Ok data /\
    rebin_sum data rebin_time rebin_channel = Ok rebinned /\
    dict_get String.eqb
             (("anode" ++ str a ++ "_plane" ++ str p) ++ "_gauss")%string rd
    = Some rebinned.

(* ================================================================= *)
(** ** Facts about ranges and sorting *)

Lemma arange_length a b : length (arange a b) = Z.to_nat (b - a).
Proof. unfold arange. now rewrite length_map, length_seq. Qed.

Lemma arange_nth_error a b i c :
  nth_error (arange a b) i = Some c ->
  c = a + Z.of_nat i /\ Z.of_nat i < b - a.
Proof.
  unfold arange. intros H.
  rewrite nth_error_map in H.
  destruct (nth_error (seq 0 (Z.to_nat (b - a))) i) as [k|] eqn:E;
    [|discriminate].
  assert (Hi : (i < length (seq 0 (Z.to_nat (b - a))))%nat)
    by (apply nth_error_Some; congruence).
  rewrite length_seq in Hi.
  rewrite nth_error_nth' with (d := 0%nat) in E
    by now rewrite length_seq.
  rewrite seq_nth in E by assumption.
  injection E as <-. injection H as <-. simpl. lia.
Qed.

Lemma arange_In a b c : In c (arange a b) <-> a <= c < b.
Proof.
  unfold arange. rewrite in_map_iff. split.
  - intros (k & <- & Hk). apply in_seq in Hk. lia.
  - intros H. exists (Z.to_nat (c - a)). split; [lia|].
    apply in_seq. lia.
Qed.

Lemma arange_shift a b k :
  map (fun c => c + k) (arange a b) = arange (a + k) (b + k).
Proof.
  unfold arange. rewrite map_map.
  replace (b + k - (a + k)) with (b - a) by lia.
  apply map_ext. intros; lia.
Qed.

Lemma arange_sorted a b : StronglySorted Z.lt (arange a b).
Proof.
  unfold arange.
  generalize (Z.to_nat (b - a)) as n. generalize 0%nat as s.
  intros s n; revert s.
  induction n as [|n IH]; intros s; simpl; constructor.
  - apply IH.
  - apply Forall_forall. intros x Hx.
    apply in_map_iff in Hx. destruct Hx as (k & <- & Hk).
    apply in_seq in Hk. lia.
Qed.

Lemma insert_asc_below x l :
  Forall (fun y => x < y) l -> insert_asc x l = x :: l.
Proof.
  destruct l as [|y t]; simpl; [reflexivity|].
  intros H. inversion H; subst.
  destruct (x <=? y) eqn:E; [reflexivity|]. apply Z.leb_gt in E. lia.
Qed.

Lemma np_sort_sorted l : StronglySorted Z.lt l -> np_sort l = l.
Proof.
  induction 1 as [|x l Hs IH Hx]; [reflexivity|].
  unfold np_sort in *. simpl. rewrite IH. now apply insert_asc_below.
Qed.

Lemma np_sort_arange a b : np_sort (arange a b) = arange a b.
Proof. apply np_sort_sorted, arange_sorted. Qed.

Lemma StronglySorted_lt_app l1 l2 :
  StronglySorted Z.lt l1 -> StronglySorted Z.lt l2 ->
  (forall x y, In x l1 -> In y l2 -> x < y) ->
  StronglySorted Z.lt (l1 ++ l2).
Proof.
  induction 1 as [|x l1 Hs IH Hx]; intros H2 Hlt; simpl; [assumption|].
  constructor.
  - apply IH; [assumption|]. intros; apply Hlt; simpl; auto.
  - apply Forall_app. split; [assumption|].
    apply Forall_forall. intros y Hy. apply Hlt; simpl; auto.
Qed.

(** The plane dictionary, with the sorts and shifts carried out. *)
Lemma get_anode_planes_eq anode_id :
  get_anode_planes anode_id =
  let off := 3072 * (anode_id / 2) in
  if anode_id mod 2 =? 0
  then [(0, arange (0 + off) (476 + off));
        (1, arange (952 + off) (1428 + off));
        (2, arange (1904 + off) (2488 + off))]
  else [(0, arange (476 + off) (951 + off));
        (1, arange (1428 + off) (1903 + off));
        (2, arange (2488 + off) (3071 + off))].
Proof.
  unfold get_anode_planes. cbv zeta.
  destruct (anode_id mod 2 =? 0);
    now rewrite !arange_shift, !np_sort_arange.
Qed.

Lemma get_anode_channels_eq n :
  get_anode_channels n =
  let off := 3072 * (n / 2) in
  if n mod 2 =? 0
  then arange (0 + off) (476 + off) ++ arange (952 + off) (1428 + off)
       ++ arange (1904 + off) (2488 + off)
  else arange (476 + off) (952 + off) ++ arange (1428 + off) (1904 + off)
       ++ arange (2488 + off) (3072 + off).
Proof.
  unfold get_anode_channels. cbv zeta.
  assert (E : (n - n mod 2) / 2 = n / 2).
  { pose proof (Z.div_mod n 2 ltac:(lia)) as H.
    replace (n - n mod 2) with ((n / 2) * 2) by lia.
    apply Z.div_mul. lia. }
  rewrite E.
  destruct (n mod 2 =? 0); now rewrite !map_app, !arange_shift.
Qed.

Arguments arange : simpl never.

(** One branch of [determine_anode_plane]: a channel of the sub-range
    [[lo, hi)] of the CRP [crp]. *)
Lemma determine_anode_plane_range crp channel lo hi cru plane :
  In (lo, hi, cru, plane)
     [(0, 476, 0, 0); (476, 952, 1, 0); (952, 1428, 0, 1);
      (1428, 1904, 1, 1); (1904, 2488, 0, 2); (2488, 3072, 1, 2)] ->
  lo <= channel - 3072 * crp < hi ->
  determine_anode_plane channel
  = (crp * 2 + cru, plane, channel - 3072 * crp - lo).
Proof.
  intros Hin Hr.
  assert (Hb : 0 <= channel - 3072 * crp < 3072).
  { simpl in Hin.
    repeat (destruct Hin as [Hin|Hin];
            [injection Hin as <- <- <- <-; lia|]).
    contradiction. }
  assert (Hd : channel / 3072 = crp).
  { symmetry. apply Z.div_unique with (r := channel - 3072 * crp); lia. }
  assert (Hm : channel mod 3072 = channel - 3072 * crp).
  { symmetry. apply Z.mod_unique with (q := crp); lia. }
  unfold determine_anode_plane. rewrite Hd, Hm.
  simpl in Hin.
  repeat (destruct Hin as [Hin|Hin];
          [injection Hin as <- <- <- <-;
           repeat match goal with
                  | |- context [?a <? ?b] =>
                      destruct (Z.ltb_spec a b); try lia
                  end;
           cbv beta iota zeta; f_equal; try lia; f_equal; lia|]).
  contradiction.
Qed.

(** The plane array stored under [plane_id]: a range inside one of the six
    sub-ranges that [determine_anode_plane] tells apart. *)
Lemma get_anode_planes_lookup anode_id plane_id :
  In plane_id [0; 1; 2] ->
  exists lo hi hi',
    In (lo, hi, anode_id mod 2, plane_id)
       [(0, 476, 0, 0); (476, 952, 1, 0); (952, 1428, 0, 1);
        (1428, 1904, 1, 1); (1904, 2488, 0, 2); (2488, 3072, 1, 2)] /\
    hi' <= hi /\
    dict_get Z.eqb plane_id (get_anode_planes anode_id)
    = Some (arange (lo + 3072 * (anode_id / 2)) (hi' + 3072 * (anode_id / 2))).
Proof.
  intros Hp. rewrite get_anode_planes_eq. cbv zeta.
  assert (Hm : anode_id mod 2 = 0 \/ anode_id mod 2 = 1)
    by (pose proof (Z.mod_pos_bound anode_id 2); lia).
  simpl in Hp.
  destruct Hm as [Hm|Hm]; rewrite Hm; cbn [Z.eqb];
    destruct Hp as [<-|[<-|[<-|[]]]]; cbn [dict_get Z.eqb Pos.eqb];
    (do 3 eexists; (split; [|split]); [ | | reflexivity];
     [ simpl; repeat (first [left; reflexivity | right]) | lia ]).
Qed.

(** C3. [determine_anode_plane] inverts [get_anode_planes]: for every anode
    0..7 and plane 0, 1, 2, the plane's array is sorted ascending and each
    of its channels is sent to (anode, plane, position of the channel in
    the array). *)
Theorem determine_anode_plane_inverts_planes :
  forall anode_id plane_id,
    0 <= anode_id < 8 -> In plane_id [0; 1; 2] ->
    exists plane_channels,
      dict_get Z.eqb plane_id (get_anode_planes anode_id)
      = Some plane_channels /\
      StronglySorted Z.lt plane_channels /\
      forall i channel,
        nth_error plane_channels i = Some channel ->
        determine_anode_plane channel = (anode_id, plane_id, Z.of_nat i).
Proof.
  intros anode_id plane_id Ha Hp.
  destruct (get_anode_planes_lookup anode_id plane_id Hp)
    as (lo & hi & hi' & Hin & Hle & Hget).
  eexists. split; [exact Hget|]. split; [apply arange_sorted|].
  intros i channel Hn.
  apply arange_nth_error in Hn. destruct Hn as [-> Hi].
  rewrite (determine_anode_plane_range (anode_id / 2) _ lo hi
             (anode_id mod 2) plane_id Hin) by lia.
  pose proof (Z.div_mod anode_id 2 ltac:(lia)).
  f_equal; [f_equal|]; lia.
Qed.

Lemma determine_anode_plane_inverts_planes_witness :
  0 <= 3 < 8 /\ In 2 [0; 1; 2] /\
  exists plane_channels,
    dict_get Z.eqb 2 (get_anode_planes 3) = Some plane_channels /\
    StronglySorted Z.lt plane_channels /\
    forall i channel,
      nth_error plane_channels i = Some channel ->
      determine_anode_plane channel = (3, 2, Z.of_nat i).
Proof.
  split; [lia|]. split; [simpl; tauto|].
  apply (determine_anode_plane_inverts_planes 3 2); [lia | simpl; tauto].
Defined.

(** C4 (as stated, refuted): the sequence of anode 0 does not have 1428
    elements. *)
Lemma get_anode_channels_not_1428 :
  length (get_anode_channels 0) <> 1428%nat.
Proof.
  rewrite get_anode_channels_eq. cbn.
  rewrite !length_app, !arange_length. vm_compute. discriminate.
Qed.

(** C4 (amended). For every anode 0..7, [get_anode_channels] returns 1536
    channels (476 + 476 + 584), strictly ascending, equal to the even-parity
    ranges [0,476), [952,1428), [1904,2488) or the odd-parity ranges
    [476,952), [1428,1904), [2488,3072), in this order, shifted by
    3072 * (anode_id // 2). *)
Theorem get_anode_channels_layout :
  forall anode_id,
    0 <= anode_id < 8 ->
    let off := 3072 * (anode_id / 2) in
    length (get_anode_channels anode_id) = 1536%nat /\
    StronglySorted Z.lt (get_anode_channels anode_id) /\
    get_anode_channels anode_id
    = if Z.even anode_id
      then arange (0 + off) (476 + off) ++ arange (952 + off) (1428 + off)
           ++ arange (1904 + off) (2488 + off)
      else arange (476 + off) (952 + off) ++ arange (1428 + off) (1904 + off)
           ++ arange (2488 + off) (3072 + off).
Proof.
  intros anode_id Ha off.
  assert (He : (anode_id mod 2 =? 0) = Z.even anode_id).
  { rewrite Zeven_mod. reflexivity. }
  rewrite get_anode_channels_eq. cbv zeta. fold off. rewrite He.
  destruct (Z.even anode_id); (split; [|split; [|reflexivity]]).
  - rewrite !length_app, !arange_length. lia.
  - repeat apply StronglySorted_lt_app; try apply arange_sorted;
      intros x y Hx Hy; rewrite ?in_app_iff, ?arange_In in *; lia.
  - rewrite !length_app, !arange_length. lia.
  - repeat apply StronglySorted_lt_app; try apply arange_sorted;
      intros x y Hx Hy; rewrite ?in_app_iff, ?arange_In in *; lia.
Qed.

Lemma get_anode_channels_layout_witness :
  0 <= 5 < 8 /\
  length (get_anode_channels 5) = 1536%nat /\
  StronglySorted Z.lt (get_anode_channels 5) /\
  get_anode_channels 5
  = arange 6620 7096 ++ arange 7572 8048 ++ arange 8632 9216.
Proof.
  split; [lia|]. apply (get_anode_channels_layout 5). lia.
Defined.

(** C9. For an even anode the three plane arrays hold exactly the channels
    of [get_anode_channels]; for an odd anode they hold a strict part of
    them: the channels of [get_anode_channels] in no plane array are
    exactly 951, 1903 and 3071, each plus 3072 * (anode_id // 2). *)
Theorem planes_vs_anode_channels :
  forall anode_id,
    0 <= anode_id < 8 ->
    let off := 3072 * (anode_id / 2) in
    (anode_id mod 2 = 0 ->
     forall c, In c (plane_union anode_id)
               <-> In c (get_anode_channels anode_id)) /\
    (anode_id mod 2 = 1 ->
     (forall c, In c (plane_union anode_id) ->
                In c (get_anode_channels anode_id)) /\
     (forall c, In c (get_anode_channels anode_id) /\
                ~ In c (plane_union anode_id)
                <-> c = 951 + off \/ c = 1903 + off \/ c = 3071 + off)).
Proof.
  intros anode_id Ha off.
  unfold plane_union.
  rewrite get_anode_planes_eq, get_anode_channels_eq. cbv zeta. fold off.
  clearbody off.
  split; intros Hm; rewrite Hm; cbn [Z.eqb flat_map snd];
    rewrite app_nil_r; [|split]; intros c;
    rewrite ?in_app_iff, ?arange_In; lia.
Qed.

Lemma planes_vs_anode_channels_witness :
  0 <= 1 < 8 /\
  (forall c, In c (plane_union 1) -> In c (get_anode_channels 1)) /\
  (forall c, In c (get_anode_channels 1) /\ ~ In c (plane_union 1)
             <-> c = 951 \/ c = 1903 \/ c = 3071).
Proof.
  split; [lia|].
  apply (planes_vs_anode_channels 1); [lia | reflexivity].
Defined.

(* ================================================================= *)
(** ** Facts about buffers and sums *)

Lemma tabulate2_length n0 n1 f :
  length (tabulate2 n0 n1 f) = (n0 * n1)%nat.
Proof.
  unfold tabulate2.
  assert (G : forall s,
    length (flat_map (fun i => map (f i) (seq 0 n1)) (seq s n0))
    = (n0 * n1)%nat).
  { induction n0 as [|n0 IH]; intros s; simpl; [reflexivity|].
    now rewrite length_app, length_map, length_seq, IH. }
  apply G.
Qed.

Lemma tabulate2_nth_from n0 n1 (f : nat -> nat -> Z) s i j d :
  (i < n0)%nat -> (j < n1)%nat ->
  nth (i * n1 + j) (flat_map (fun i => map (f i) (seq 0 n1)) (seq s n0)) d
  = f (s + i)%nat j.
Proof.
  revert s i. induction n0 as [|n0 IH]; intros s i Hi Hj; [lia|].
  simpl. destruct i as [|i].
  - rewrite app_nth1 by (rewrite length_map, length_seq; lia).
    simpl. rewrite nth_indep with (d' := f s 0%nat)
      by (rewrite length_map, length_seq; lia).
    rewrite map_nth, seq_nth by lia. f_equal; lia.
  - rewrite app_nth2 by (rewrite length_map, length_seq; simpl; lia).
    rewrite length_map, length_seq.
    replace (S i * n1 + j - n1)%nat with (i * n1 + j)%nat by (simpl; lia).
    rewrite IH by lia. f_equal; lia.
Qed.

Lemma tabulate2_nth n0 n1 f i j d :
  (i < n0)%nat -> (j < n1)%nat ->
  nth (i * n1 + j) (tabulate2 n0 n1 f) d = f i j.
Proof. intros. unfold tabulate2. now rewrite tabulate2_nth_from. Qed.

Lemma tabulate2_ext n0 n1 f g :
  (forall i j, (i < n0)%nat -> (j < n1)%nat -> f i j = g i j) ->
  tabulate2 n0 n1 f = tabulate2 n0 n1 g.
Proof.
  intros H. unfold tabulate2.
  assert (G : forall s, (forall i, In i (seq s n0) -> (i < n0 + s)%nat)).
  { intros s i Hi. apply in_seq in Hi. lia. }
  assert (E : forall l, (forall i, In i l -> (i < n0)%nat) ->
    flat_map (fun i => map (f i) (seq 0 n1)) l
    = flat_map (fun i => map (g i) (seq 0 n1)) l).
  { induction l as [|x l IH]; intros Hl; simpl; [reflexivity|].
    rewrite IH by (intros; apply Hl; simpl; auto). f_equal.
    apply map_ext_in. intros j Hj. apply in_seq in Hj.
    apply H; [apply Hl; simpl; auto | lia]. }
  apply E. intros i Hi. apply in_seq in Hi. lia.
Qed.

Lemma get2_mk2_tabulate n0 n1 f i j :
  (i < n0)%nat -> (j < n1)%nat ->
  get2 (mk2 n0 n1 (tabulate2 n0 n1 f)) i j = f i j.
Proof. intros. unfold get2. simpl. now apply tabulate2_nth. Qed.

Lemma zsum_map_ext_in {A} (f g : A -> Z) l :
  (forall x, In x l -> f x = g x) ->
  zsum (map f l) = zsum (map g l).
Proof. intros H. f_equal. now apply map_ext_in. Qed.

Lemma zsum_map_add {A} (f g : A -> Z) l :
  zsum (map (fun x => f x + g x) l) = zsum (map f l) + zsum (map g l).
Proof. induction l; simpl; lia. Qed.

Lemma zsum_map_zero {A} (l : list A) : zsum (map (fun _ => 0) l) = 0.
Proof. induction l; simpl; lia. Qed.

(** Summing a rectangle by rows or by columns. *)
Lemma zsum_swap {A B} (F : A -> B -> Z) l1 l2 :
  zsum (map (fun a => zsum (map (fun b => F a b) l2)) l1)
  = zsum (map (fun b => zsum (map (fun a => F a b) l1)) l2).
Proof.
  induction l1 as [|a l1 IH]; simpl.
  - now rewrite zsum_map_zero.
  - rewrite IH.
    now rewrite (zsum_map_add (fun b => F a b)
                   (fun b => zsum (map (fun a0 => F a0 b) l1))).
Qed.

(** A complete block lies inside the array. *)
Lemma block_index_bound n c i r :
  (0 < c)%nat -> (i < n / c)%nat -> (r < c)%nat ->
  (i * c + r < n / c * c)%nat /\ (n / c * c <= n)%nat.
Proof.
  intros Hc Hi Hr. split.
  - nia.
  - rewrite Nat.mul_comm. apply Nat.Div0.mul_div_le.
Qed.

(* ================================================================= *)
(** ** Wrap-around arithmetic *)

Lemma half_range_pos d : 0 < half_range d.
Proof. destruct d; reflexivity. Qed.

Lemma wrap_in d z : in_dtype d (wrap d z).
Proof.
  unfold in_dtype, wrap. pose proof (half_range_pos d) as Hh.
  pose proof (Z.mod_pos_bound (z + half_range d) (2 * half_range d)
                ltac:(lia)).
  lia.
Qed.

Lemma wrap_id d z : in_dtype d z -> wrap d z = z.
Proof.
  unfold in_dtype, wrap. intros H. rewrite Z.mod_small by lia. lia.
Qed.

Lemma wrap_wrap d z : wrap d (wrap d z) = wrap d z.
Proof. apply wrap_id, wrap_in. Qed.

Lemma wrap_add_l d a b : wrap d (wrap d a + b) = wrap d (a + b).
Proof.
  unfold wrap. f_equal.
  replace ((a + half_range d) mod (2 * half_range d) - half_range d + b
           + half_range d)
    with ((a + half_range d) mod (2 * half_range d) + b) by lia.
  rewrite Zplus_mod_idemp_l. f_equal. lia.
Qed.

Lemma wrap_add_r d a b : wrap d (a + wrap d b) = wrap d (a + b).
Proof. now rewrite Z.add_comm, wrap_add_l, Z.add_comm. Qed.

Lemma wrap_add_cong d a a' b b' :
  wrap d a = wrap d a' -> wrap d b = wrap d b' ->
  wrap d (a + b) = wrap d (a' + b').
Proof.
  intros Ha Hb.
  rewrite <- (wrap_add_l d a b), Ha, wrap_add_l.
  rewrite <- (wrap_add_r d a' b), Hb, wrap_add_r. reflexivity.
Qed.

Lemma wrap_zsum_map {A} d (f g : A -> Z) l :
  (forall x, In x l -> wrap d (f x) = wrap d (g x)) ->
  wrap d (zsum (map f l)) = wrap d (zsum (map g l)).
Proof.
  induction l as [|x l IH]; intros H; [reflexivity|].
  cbn [map].
  change (zsum (f x :: map f l)) with (f x + zsum (map f l)).
  change (zsum (g x :: map g l)) with (g x + zsum (map g l)).
  apply wrap_add_cong.
  - apply H. now left.
  - apply IH. intros y Hy. apply H. now right.
Qed.

Lemma wrap_zsum_wrap d l :
  wrap d (zsum (map (wrap d) l)) = wrap d (zsum l).
Proof.
  rewrite <- (map_id l) at 2. apply wrap_zsum_map.
  intros x _. apply wrap_wrap.
Qed.

Lemma in_dtype_int64 d z : in_dtype d z -> in_dtype Int64 z.
Proof. unfold in_dtype. destruct d; simpl; lia. Qed.

Lemma frame_of_int64 d a : frame_of d a -> frame_of Int64 a.
Proof.
  unfold frame_of. apply Forall_impl. intros z. apply in_dtype_int64.
Qed.

Lemma get2_in_dtype d a i j : frame_of d a -> in_dtype d (get2 a i j).
Proof.
  unfold frame_of, get2. intros H.
  destruct (Nat.lt_ge_cases (i * dim1 a + j) (length (buf2 a))) as [Hl|Hl].
  - rewrite Forall_forall in H. apply H, nth_In, Hl.
  - rewrite nth_overflow by exact Hl.
    unfold in_dtype. pose proof (half_range_pos d). lia.
Qed.

(** [np_sum] is the sum, wrapped. *)
Lemma fold_int64_add_wrap t acc :
  wrap Int64 (fold_left int64_add t acc) = wrap Int64 (acc + zsum t).
Proof.
  revert acc. induction t as [|y t IH]; intros acc; cbn [fold_left].
  - change (zsum []) with 0. now rewrite Z.add_0_r.
  - change (zsum (y :: t)) with (y + zsum t).
    rewrite IH. unfold int64_add. rewrite wrap_add_l. f_equal. lia.
Qed.

Lemma np_sum_wrap l : wrap Int64 (np_sum l) = wrap Int64 (zsum l).
Proof.
  destruct l as [|x t]; [reflexivity|]. cbn [np_sum].
  apply fold_int64_add_wrap.
Qed.

Lemma fold_int64_add_in t acc :
  in_dtype Int64 acc -> in_dtype Int64 (fold_left int64_add t acc).
Proof.
  revert acc. induction t as [|y t IH]; intros acc H; cbn [fold_left].
  - exact H.
  - apply IH. apply wrap_in.
Qed.

Lemma np_sum_in l : Forall (in_dtype Int64) l -> in_dtype Int64 (np_sum l).
Proof.
  intros H. destruct l as [|x t]; cbn [np_sum].
  - unfold in_dtype. simpl. lia.
  - apply fold_int64_add_in. now inversion H.
Qed.

Lemma np_sum_int64 l :
  Forall (in_dtype Int64) l -> np_sum l = wrap Int64 (zsum l).
Proof.
  intros H. rewrite <- np_sum_wrap. symmetry. apply wrap_id, np_sum_in, H.
Qed.

Lemma np_sum_map_ext_in {A} (f g : A -> Z) l :
  (forall x, In x l -> f x = g x) ->
  np_sum (map f l) = np_sum (map g l).
Proof. intros H. f_equal. now apply map_ext_in. Qed.

Lemma np_sum_single x : np_sum [x] = x.
Proof. reflexivity. Qed.

(* ================================================================= *)
(** ** [rebin_sum] with positive factors *)

Lemma floordiv_pos a b : 0 < b -> floordiv a b = Ok (a / b).
Proof.
  intros H. unfold floordiv.
  destruct (Z.eqb_spec b 0); [lia | reflexivity].
Qed.

Lemma slice_stop_le n m :
  (m <= n)%nat -> slice_stop n (Z.of_nat m) = m.
Proof.
  intros H. unfold slice_stop.
  destruct (Z.ltb_spec (Z.of_nat m) 0); lia.
Qed.

Lemma reshape3_nonneg a x y z :
  (x * y * z = dim0 a * dim1 a)%nat ->
  reshape3 a (Z.of_nat x) (Z.of_nat y) (Z.of_nat z)
  = Ok (mk3 x y z (buf2 a)).
Proof.
  intros H. unfold reshape3. cbn [filter].
  repeat match goal with
         | |- context [Z.of_nat ?n <? 0] =>
             destruct (Z.ltb_spec (Z.of_nat n) 0); [lia|]
         | |- context [0 <=? Z.of_nat ?n] =>
             destruct (Z.leb_spec 0 (Z.of_nat n)); [|lia]
         end.
  cbn [fold_right].
  replace (Z.of_nat x * (Z.of_nat y * (Z.of_nat z * 1)) =?
           Z.of_nat (dim0 a * dim1 a)) with true
    by (symmetry; apply Z.eqb_eq; rewrite <- H; lia).
  now rewrite !Nat2Z.id.
Qed.

(** The result of [rebin_sum], cell by cell: the time sum of the channel
    sums. *)
Lemma rebin_sum_pos data t c :
  (0 < t)%nat -> (0 < c)%nat ->
  rebin_sum data (Z.of_nat t) (Z.of_nat c)
  = Ok (mk2 (dim0 data / c) (dim1 data / t)
          (tabulate2 (dim0 data / c) (dim1 data / t)
             (fun i j =>
                np_sum (map (fun k =>
                               np_sum (map (fun r =>
                                              get2 data (i * c + r)
                                                   (j * t + k))
                                           (seq 0 c)))
                            (seq 0 t))))).
Proof.
  intros Ht Hc. unfold rebin_sum.
  rewrite !floordiv_pos by lia. cbn [rbind].
  rewrite <- !Nat2Z.inj_div, <- !Nat2Z.inj_mul.
  set (n0 := dim0 data). set (n1 := dim1 data).
  assert (Hr : (n0 / c * c <= n0)%nat)
    by (rewrite Nat.mul_comm; apply Nat.Div0.mul_div_le).
  assert (Hk : (n1 / t * t <= n1)%nat)
    by (rewrite Nat.mul_comm; apply Nat.Div0.mul_div_le).
  unfold slice_rows. fold n0 n1. rewrite slice_stop_le by assumption.
  rewrite reshape3_nonneg by (simpl; lia).
  cbn [rbind buf2].
  unfold slice_cols, sum_axis1. cbn [d3_0 d3_1 d3_2 dim0 dim1 buf3].
  rewrite slice_stop_le by assumption.
  rewrite reshape3_nonneg by (simpl; lia).
  cbn [rbind]. unfold sum_axis2. cbn [d3_0 d3_1 d3_2 buf3 buf2].
  f_equal. f_equal.
  apply tabulate2_ext. intros i j Hi Hj.
  apply np_sum_map_ext_in. intros k Hkk. apply in_seq in Hkk.
  unfold get3. cbn [d3_0 d3_1 d3_2 buf3].
  replace ((i * (n1 / t) + j) * t + k)%nat
    with (i * (n1 / t * t) + (j * t + k))%nat by lia.
  assert (Hjk : (j * t + k < n1 / t * t)%nat) by nia.
  rewrite tabulate2_nth by assumption.
  unfold get2 at 1. cbn [dim1 buf2].
  rewrite tabulate2_nth by lia.
  apply np_sum_map_ext_in. intros r Hrr. apply in_seq in Hrr.
  rewrite tabulate2_nth by nia.
  reflexivity.
Qed.

(** On a frame of a signed integer dtype every cell of the result is the
    sum of its block, wrapped around to [int64]. *)
Lemma rebin_sum_int64 data t c :
  (0 < t)%nat -> (0 < c)%nat ->
  frame_of Int64 data ->
  rebin_sum data (Z.of_nat t) (Z.of_nat c)
  = Ok (mk2 (dim0 data / c) (dim1 data / t)
          (tabulate2 (dim0 data / c) (dim1 data / t)
             (fun i j =>
                wrap Int64
                  (zsum (map (fun k =>
                                zsum (map (fun r =>
                                             get2 data (i * c + r)
                                                  (j * t + k))
                                          (seq 0 c)))
                             (seq 0 t)))))).
Proof.
  intros Ht Hc Hd. rewrite rebin_sum_pos by assumption.
  f_equal. f_equal. apply tabulate2_ext. intros i j _ _.
  rewrite np_sum_int64.
  - apply wrap_zsum_map. intros k _. apply np_sum_wrap.
  - apply Forall_forall. intros x Hx. apply in_map_iff in Hx.
    destruct Hx as (k & <- & _). apply np_sum_in.
    apply Forall_forall. intros y Hy. apply in_map_iff in Hy.
    destruct Hy as (r & <- & _). now apply get2_in_dtype.
Qed.

Lemma tabulate2_Forall (P : Z -> Prop) n0 n1 f :
  (forall i j, (i < n0)%nat -> (j < n1)%nat -> P (f i j)) ->
  Forall P (tabulate2 n0 n1 f).
Proof.
  intros H. unfold tabulate2. apply Forall_forall. intros x Hx.
  apply in_flat_map in Hx. destruct Hx as (i & Hi & Hx).
  apply in_map_iff in Hx. destruct Hx as (j & <- & Hj).
  apply in_seq in Hi. apply in_seq in Hj. apply H; lia.
Qed.




(* ================================================================= *)
(** ** Cell-by-cell addition *)









(* ================================================================= *)
(** ** Sorting the contributions *)

Lemma insert_desc_perm x l : Permutation (insert_desc x l) (x :: l).
Proof.
  induction l as [|y t IH]; simpl; [reflexivity|].
  destruct (fst y <=? fst x); [reflexivity|].
  rewrite IH. apply perm_swap.
Qed.

Lemma sort_desc_perm l : Permutation l (sort_desc l).
Proof.
  induction l as [|x l IH]; simpl; [constructor|].
  unfold sort_desc in *. simpl.
  rewrite insert_desc_perm. now constructor.
Qed.

Lemma insert_desc_sorted x l :
  StronglySorted charge_ge l -> StronglySorted charge_ge (insert_desc x l).
Proof.
  induction 1 as [|y t Hs IH Hy]; simpl.
  - constructor; constructor.
  - destruct (Z.leb_spec (fst y) (fst x)) as [Hle|Hgt].
    + constructor; [now constructor|].
      constructor; [exact Hle|].
      eapply Forall_impl; [|exact Hy].
      unfold charge_ge. intros z Hz. lia.
    + constructor; [exact IH|].
      eapply Permutation_Forall;
        [symmetry; apply insert_desc_perm|].
      constructor; [unfold charge_ge; lia | exact Hy].
Qed.

Lemma sort_desc_sorted l : StronglySorted charge_ge (sort_desc l).
Proof.
  induction l as [|x l IH]; [constructor|].
  unfold sort_desc in *. simpl. now apply insert_desc_sorted.
Qed.

Lemma sort_desc_length l : length (sort_desc l) = length l.
Proof. symmetry. apply Permutation_length, sort_desc_perm. Qed.

Lemma nth0_first_label l : snd (nth 0 l (0, 0)) = first_label l.
Proof. now destruct l. Qed.

Lemma nth1_second_label l : snd (nth 1 l (0, 0)) = second_label l.
Proof. destruct l as [|p [|q l]]; reflexivity. Qed.

(* ================================================================= *)
(** ** Loops and cell updates *)

Lemma arange_of_nat s n :
  arange (Z.of_nat s) (Z.of_nat s + Z.of_nat n) = map Z.of_nat (seq s n).
Proof.
  unfold arange.
  replace (Z.to_nat (Z.of_nat s + Z.of_nat n - Z.of_nat s)) with n by lia.
  assert (G : forall u,
    map (fun k => Z.of_nat s + Z.of_nat k) (seq u n)
    = map Z.of_nat (seq (s + u) n)).
  { induction n as [|n IH]; intros u; simpl; [reflexivity|].
    rewrite IH. f_equal; [lia|]. now rewrite Nat.add_succ_r. }
  rewrite G. now rewrite Nat.add_0_r.
Qed.

Lemma arange_0_of_nat n : arange 0 (Z.of_nat n) = map Z.of_nat (seq 0 n).
Proof. apply (arange_of_nat 0 n). Qed.

(** A loop over [range(n)] that keeps an invariant indexed by the number
    of iterations done. *)
Lemma for_each_range_inv {S} (Inv : nat -> S -> Prop)
    (body : S -> Z -> result S) n :
  (forall k st, (k < n)%nat -> Inv k st ->
                exists st', body st (Z.of_nat k) = Ok st' /\ Inv (Datatypes.S k) st') ->
  forall st, Inv 0%nat st ->
  exists st', for_each (map Z.of_nat (seq 0 n)) body st = Ok st' /\ Inv n st'.
Proof.
  intros Hstep.
  assert (G : forall m s st,
    (s + m = n)%nat -> Inv s st ->
    exists st', for_each (map Z.of_nat (seq s m)) body st = Ok st'
                /\ Inv n st').
  { induction m as [|m IH]; intros s st Hsm Hinv; simpl.
    - exists st. split; [reflexivity|].
      now replace n with s by lia.
    - destruct (Hstep s st ltac:(lia) Hinv) as (st1 & E1 & I1).
      rewrite E1. cbn [rbind]. apply IH; [lia | exact I1]. }
  intros st H0. now apply G.
Qed.

(** A loop that appends to an accumulator. *)
Lemma for_each_append {A B} (F : A -> list B)
    (body : list B -> Z -> result (list B)) (conv : A -> Z) l :
  (forall acc x, In x l -> body acc (conv x) = Ok (acc ++ F x)) ->
  forall acc, for_each (map conv l) body acc = Ok (acc ++ flat_map F l).
Proof.
  induction l as [|x l IH]; intros H acc; simpl.
  - now rewrite app_nil_r.
  - rewrite H by (simpl; auto). cbn [rbind].
    rewrite IH by (intros; apply H; simpl; auto).
    now rewrite app_assoc.
Qed.

Lemma norm_index_in n i :
  (i < n)%nat -> norm_index n (Z.of_nat i) = Ok i.
Proof.
  intros H. unfold norm_index.
  destruct (Z.leb_spec 0 (Z.of_nat i)); [|lia].
  destruct (Z.ltb_spec (Z.of_nat i) (Z.of_nat n)); [|lia].
  cbn [andb]. now rewrite Nat2Z.id.
Qed.

Lemma getitem2_in a i j :
  (i < dim0 a)%nat -> (j < dim1 a)%nat ->
  getitem2 a (Z.of_nat i) (Z.of_nat j) = Ok (get2 a i j).
Proof.
  intros Hi Hj. unfold getitem2. now rewrite !norm_index_in.
Qed.

Lemma setitem2_in a i j v :
  (i < dim0 a)%nat -> (j < dim1 a)%nat ->
  setitem2 a (Z.of_nat i) (Z.of_nat j) v
  = Ok (mk2 (dim0 a) (dim1 a) (list_update (buf2 a) (i * dim1 a + j) v)).
Proof.
  intros Hi Hj. unfold setitem2. now rewrite !norm_index_in.
Qed.

Lemma list_update_length l k v : length (list_update l k v) = length l.
Proof.
  revert k. induction l as [|x l IH]; intros [|k]; simpl; auto.
Qed.

Lemma list_update_nth_eq l k v d :
  (k < length l)%nat -> nth k (list_update l k v) d = v.
Proof.
  revert k. induction l as [|x l IH]; intros [|k] H; simpl in *;
    try lia. apply IH. lia.
Qed.

Lemma list_update_nth_neq l k k' v d :
  k <> k' -> nth k' (list_update l k v) d = nth k' l d.
Proof.
  revert k k'. induction l as [|x l IH]; intros [|k] [|k'] H; simpl;
    try reflexivity; try contradiction. apply IH. congruence.
Qed.

(** Row-major positions are distinct for distinct cells. *)
Lemma row_major_inj N i j i' j' :
  (j < N)%nat -> (j' < N)%nat ->
  (i * N + j = i' * N + j')%nat -> i = i' /\ j = j'.
Proof.
  intros Hj Hj' E.
  assert (Ei : i = ((i * N + j) / N)%nat)
    by (apply Nat.div_unique with (r := j); lia).
  assert (Ei' : i' = ((i' * N + j') / N)%nat)
    by (apply Nat.div_unique with (r := j'); lia).
  assert (i = i') by congruence. subst i'. split; [reflexivity|lia].
Qed.

(* ================================================================= *)
(** ** [rebin_track_first_second] with positive factors *)

Section TrackFirstSecond.
Variables (data_1st data_2nd charge_1st charge_2nd : ndarray2).
Variables (t c : nat).
Hypothesis Hs2 : shape2 data_2nd = shape2 data_1st.
Hypothesis Hc1 : shape2 charge_1st = shape2 data_1st.
Hypothesis Hc2 : shape2 charge_2nd = shape2 data_1st.
Hypothesis Ht : (0 < t)%nat.
Hypothesis Hc : (0 < c)%nat.

Let n0 := dim0 data_1st.
Let n1 := dim1 data_1st.
Let N0 := (n0 / c)%nat.
Let N1 := (n1 / t)%nat.
Let pairs := block_pairs data_1st data_2nd charge_1st charge_2nd t c.

Lemma collect_cell_in acc ch tick :
  (ch < n0)%nat -> (tick < n1)%nat ->
  collect_cell data_1st data_2nd charge_1st charge_2nd acc
               (Z.of_nat ch) (Z.of_nat tick)
  = Ok (acc ++ cell_pairs data_1st data_2nd charge_1st charge_2nd ch tick).
Proof.
  intros Hch Htick. unfold shape2 in *.
  injection Hs2 as A0 A1. injection Hc1 as B0 B1. injection Hc2 as C0 C1.
  fold n0 in A0, B0, C0. fold n1 in A1, B1, C1.
  unfold collect_cell, cell_pairs.
  rewrite (getitem2_in charge_1st), (getitem2_in charge_2nd) by lia.
  cbn [rbind].
  destruct (get2 charge_1st ch tick >? 0);
    destruct (get2 charge_2nd ch tick >? 0);
    rewrite ?getitem2_in by (fold n0 n1; lia); cbn [rbind];
    rewrite ?getitem2_in by (fold n0 n1; lia); cbn [rbind];
    rewrite ?app_nil_r, <- ?app_assoc; reflexivity.
Qed.

Lemma collect_block i j :
  (i < N0)%nat -> (j < N1)%nat ->
  for_each (map Z.of_nat (seq (i * c) c))
    (fun acc ch =>
       for_each (map Z.of_nat (seq (j * t) t))
         (fun acc tick =>
            collect_cell data_1st data_2nd charge_1st charge_2nd
                         acc ch tick) acc) []
  = Ok (pairs i j).
Proof.
  intros Hi Hj.
  rewrite for_each_append with
    (F := fun ch => flat_map
                      (cell_pairs data_1st data_2nd charge_1st charge_2nd ch)
                      (seq (j * t) t)).
  - reflexivity.
  - intros acc ch Hch. apply in_seq in Hch.
    apply for_each_append. intros acc' tick Htick. apply in_seq in Htick.
    apply collect_cell_in.
    + pose proof (block_index_bound n0 c i (ch - i * c)). fold N0 in H. lia.
    + pose proof (block_index_bound n1 t j (tick - j * t)).
      fold N1 in H. lia.
Qed.

(** After [K] bins, in row-major order: the outputs keep their shape, the
    bins done hold the two labels, the others are still 0. *)
Let inv_out (K : nat) (outs : ndarray2 * ndarray2) : Prop :=
  dim0 (fst outs) = N0 /\ dim1 (fst outs) = N1 /\
  dim0 (snd outs) = N0 /\ dim1 (snd outs) = N1 /\
  length (buf2 (fst outs)) = (N0 * N1)%nat /\
  length (buf2 (snd outs)) = (N0 * N1)%nat /\
  forall i j, (i < N0)%nat -> (j < N1)%nat ->
    get2 (fst outs) i j
    = (if (i * N1 + j <? K)%nat
       then first_label (sort_desc (pairs i j)) else 0) /\
    get2 (snd outs) i j
    = (if (i * N1 + j <? K)%nat
       then second_label (sort_desc (pairs i j)) else 0).

Lemma rebin_bin_step i j outs :
  (i < N0)%nat -> (j < N1)%nat -> inv_out (i * N1 + j) outs ->
  exists outs',
    rebin_bin data_1st data_2nd charge_1st charge_2nd
              (Z.of_nat t) (Z.of_nat c) (Z.of_nat n0) (Z.of_nat n1)
              (Z.of_nat i) outs (Z.of_nat j) = Ok outs' /\
    inv_out (S (i * N1 + j)) outs'.
Proof.
  intros Hi Hj (D0 & D1 & E0 & E1 & L1 & L2 & Hcells).
  unfold rebin_bin.
  pose proof (block_index_bound n0 c i 0 Hc Hi Hc) as [Bi Bn0].
  pose proof (block_index_bound n1 t j 0 Ht Hj Ht) as [Bj Bn1].
  fold N0 in Bi, Bn0. fold N1 in Bj, Bn1.
  replace (Z.min (Z.of_nat i * Z.of_nat c + Z.of_nat c) (Z.of_nat n0))
    with (Z.of_nat (i * c) + Z.of_nat c) by nia.
  replace (Z.min (Z.of_nat j * Z.of_nat t + Z.of_nat t) (Z.of_nat n1))
    with (Z.of_nat (j * t) + Z.of_nat t) by nia.
  rewrite <- !Nat2Z.inj_mul, !arange_of_nat.
  rewrite collect_block by assumption. cbn [rbind].
  rewrite nth0_first_label, nth1_second_label, sort_desc_length.
  assert (Hupd : forall (o : ndarray2) v i' j',
    dim1 o = N1 -> length (buf2 o) = (N0 * N1)%nat ->
    (i' < N0)%nat -> (j' < N1)%nat ->
    get2 (mk2 (dim0 o) (dim1 o) (list_update (buf2 o) (i * dim1 o + j) v))
         i' j'
    = if (i' * N1 + j' =? i * N1 + j)%nat then v else get2 o i' j').
  { intros o v i' j' Hd Hl Hi' Hj'. unfold get2. cbn [dim1 buf2].
    rewrite Hd.
    destruct (Nat.eqb_spec (i' * N1 + j') (i * N1 + j)) as [->|Hne].
    - apply list_update_nth_eq. rewrite Hl. nia.
    - apply list_update_nth_neq. congruence. }
  destruct (pairs i j) as [|p rest] eqn:Ep.
  - (* no contribution: the outputs are left as they are *)
    cbn [length Nat.ltb Nat.leb]. exists outs. split; [reflexivity|].
    repeat (split; [assumption|]).
    intros i' j' Hi' Hj'. destruct (Hcells i' j' Hi' Hj') as [G1 G2].
    rewrite G1, G2.
    destruct (Nat.ltb_spec (i' * N1 + j') (i * N1 + j));
      destruct (Nat.ltb_spec (i' * N1 + j') (S (i * N1 + j)));
      try lia; try (split; reflexivity).
    assert (i' = i /\ j' = j) as [-> ->]
      by (apply (row_major_inj N1); lia).
    rewrite Ep. split; reflexivity.
  - cbn [length]. replace (0 <? S (length rest))%nat with true
      by (symmetry; apply Nat.ltb_lt; lia).
    rewrite setitem2_in by lia. cbn [rbind].
    destruct rest as [|q rest'].
    + (* one contribution: only the 1st output is written *)
      cbn [length Nat.ltb Nat.leb]. eexists. split; [reflexivity|].
      unfold inv_out. cbn [fst snd dim0 dim1 buf2].
      rewrite list_update_length.
      repeat (split; [assumption|]).
      intros i' j' Hi' Hj'. destruct (Hcells i' j' Hi' Hj') as [G1 G2].
      rewrite Hupd, G1, G2 by assumption.
      destruct (Nat.eqb_spec (i' * N1 + j') (i * N1 + j)) as [He|Hne].
      * assert (i' = i /\ j' = j) as [-> ->]
          by (apply (row_major_inj N1); lia).
        rewrite Ep.
        destruct (Nat.ltb_spec (i * N1 + j) (i * N1 + j)); [lia|].
        destruct (Nat.ltb_spec (i * N1 + j) (S (i * N1 + j))); [|lia].
        split; reflexivity.
      * destruct (Nat.ltb_spec (i' * N1 + j') (i * N1 + j));
          destruct (Nat.ltb_spec (i' * N1 + j') (S (i * N1 + j)));
          try lia; split; reflexivity.
    + (* two contributions or more: both outputs are written *)
      replace (1 <? length (p :: q :: rest'))%nat with true
        by (symmetry; apply Nat.ltb_lt; simpl; lia).
      rewrite setitem2_in by lia. cbn [rbind].
      eexists. split; [reflexivity|].
      unfold inv_out. cbn [fst snd dim0 dim1 buf2].
      rewrite !list_update_length.
      repeat (split; [assumption|]).
      intros i' j' Hi' Hj'. destruct (Hcells i' j' Hi' Hj') as [G1 G2].
      rewrite !Hupd, G1, G2 by assumption.
      destruct (Nat.eqb_spec (i' * N1 + j') (i * N1 + j)) as [He|Hne].
      * assert (i' = i /\ j' = j) as [-> ->]
          by (apply (row_major_inj N1); lia).
        rewrite Ep.
        destruct (Nat.ltb_spec (i * N1 + j) (S (i * N1 + j))); [|lia].
        split; reflexivity.
      * destruct (Nat.ltb_spec (i' * N1 + j') (i * N1 + j));
          destruct (Nat.ltb_spec (i' * N1 + j') (S (i * N1 + j)));
          try lia; split; reflexivity.
Qed.
Lemma rebin_track_first_second_pos :
  exists out_1st out_2nd,
    rebin_track_first_second data_1st data_2nd charge_1st charge_2nd
                             (Z.of_nat t) (Z.of_nat c)
    = Ok (out_1st, out_2nd) /\
    shape2 out_1st = (N0, N1) /\ shape2 out_2nd = (N0, N1) /\
    wf2 out_1st /\ wf2 out_2nd /\
    forall i j, (i < N0)%nat -> (j < N1)%nat ->
      get2 out_1st i j = first_label (sort_desc (pairs i j)) /\
      get2 out_2nd i j = second_label (sort_desc (pairs i j)).
Proof.
  unfold rebin_track_first_second.
  rewrite !floordiv_pos by lia. cbn [rbind].
  rewrite <- !Nat2Z.inj_div. fold n0 n1 N0 N1.
  unfold np_zeros.
  destruct (Z.ltb_spec (Z.of_nat N0) 0); [lia|].
  destruct (Z.ltb_spec (Z.of_nat N1) 0); [lia|].
  cbn [orb rbind]. rewrite !Nat2Z.id, !arange_0_of_nat.
  set (zeros := mk2 N0 N1 (repeat 0 (N0 * N1))).
  destruct (for_each_range_inv (fun i => inv_out (i * N1))
              (fun outs i_ch =>
                 for_each (map Z.of_nat (seq 0 N1))
                   (rebin_bin data_1st data_2nd charge_1st charge_2nd
                      (Z.of_nat t) (Z.of_nat c) (Z.of_nat n0) (Z.of_nat n1)
                      i_ch) outs) N0) with (st := (zeros, zeros))
    as ([o1 o2] & E & I).
  - (* one row of bins *)
    intros i st Hi Hinv.
    destruct (for_each_range_inv (fun j => inv_out (i * N1 + j))
                (rebin_bin data_1st data_2nd charge_1st charge_2nd
                   (Z.of_nat t) (Z.of_nat c) (Z.of_nat n0) (Z.of_nat n1)
                   (Z.of_nat i)) N1) with (st := st) as (st' & E & I).
    + intros j st0 Hj Hinv0.
      replace (i * N1 + S j)%nat with (S (i * N1 + j)) by lia.
      now apply rebin_bin_step.
    + now rewrite Nat.add_0_r.
    + exists st'. split; [exact E|].
      now replace (S i * N1)%nat with (i * N1 + N1)%nat by lia.
  - (* the outputs start as zeros *)
    unfold inv_out, zeros. cbn [fst snd dim0 dim1 buf2].
    rewrite repeat_length. repeat (split; [reflexivity|]).
    intros i j Hi Hj. unfold get2. cbn [dim1 buf2].
    rewrite nth_repeat. split; reflexivity.
  - exists o1, o2. split; [exact E|].
    destruct I as (D0 & D1 & E0 & E1 & L1 & L2 & Hcells).
    cbn [fst snd] in *. unfold shape2, wf2.
    rewrite D0, D1, E0, E1, L1, L2.
    repeat (split; [reflexivity|]).
    intros i j Hi Hj. destruct (Hcells i j Hi Hj) as [G1 G2].
    rewrite G1, G2.
    destruct (Nat.ltb_spec (i * N1 + j) (N0 * N1)); [|nia].
    split; reflexivity.
Qed.
End TrackFirstSecond.

Lemma block_pairs_no_charge data_1st data_2nd charge_1st charge_2nd rt rc i j :
  (forall ch tick,
      (i * rc <= ch < i * rc + rc)%nat ->
      (j * rt <= tick < j * rt + rt)%nat ->
      get2 charge_1st ch tick = 0 /\ get2 charge_2nd ch tick = 0) ->
  block_pairs data_1st data_2nd charge_1st charge_2nd rt rc i j = [].
Proof.
  intros H. unfold block_pairs.
  assert (G : forall {A} (F : A -> list (Z * Z)) l,
             (forall x, In x l -> F x = []) -> flat_map F l = []).
  { intros A F l. induction l as [|x l IH]; intros Hl; simpl; [reflexivity|].
    rewrite Hl, IH by (simpl; auto; intros; apply Hl; simpl; auto).
    reflexivity. }
  apply G. intros ch Hch. apply in_seq in Hch.
  apply G. intros tick Htick. apply in_seq in Htick.
  unfold cell_pairs. destruct (H ch tick) as [-> ->]; [lia | lia |].
  reflexivity.
Qed.

(** C1. For same-shaped inputs and positive factors,
    [rebin_track_first_second] returns two arrays of shape
    (n_channels // rebin_channel, n_ticks // rebin_time); for each block,
    with the (charge, label) pairs of positive charge collected from the
    1st and 2nd arrays over the cells of the block and sorted by charge
    descending, the 1st output is the label of the first pair (0 if there
    is none) and the 2nd output the label of the second pair (0 if there
    are fewer than two).  A block whose charges are all 0 gives (0, 0); a
    block with exactly one pair gives (its label, 0). *)
Theorem rebin_track_first_second_top2 :
  forall data_1st data_2nd charge_1st charge_2nd rebin_time rebin_channel,
    shape2 data_2nd = shape2 data_1st ->
    shape2 charge_1st = shape2 data_1st ->
    shape2 charge_2nd = shape2 data_1st ->
    0 < rebin_time -> 0 < rebin_channel ->
    let rt := Z.to_nat rebin_time in
    let rc := Z.to_nat rebin_channel in
    exists out_1st out_2nd,
      rebin_track_first_second data_1st data_2nd charge_1st charge_2nd
                               rebin_time rebin_channel
      = Ok (out_1st, out_2nd) /\
      Z.of_nat (dim0 out_1st) = Z.of_nat (dim0 data_1st) / rebin_channel /\
      Z.of_nat (dim1 out_1st) = Z.of_nat (dim1 data_1st) / rebin_time /\
      shape2 out_2nd = shape2 out_1st /\
      forall i j,
        (i < dim0 out_1st)%nat -> (j < dim1 out_1st)%nat ->
        let pairs :=
          block_pairs data_1st data_2nd charge_1st charge_2nd rt rc i j in
        (exists sorted,
            Permutation pairs sorted /\
            StronglySorted charge_ge sorted /\
            get2 out_1st i j = first_label sorted /\
            get2 out_2nd i j = second_label sorted) /\
        ((forall ch tick,
             (i * rc <= ch < i * rc + rc)%nat ->
             (j * rt <= tick < j * rt + rt)%nat ->
             get2 charge_1st ch tick = 0 /\ get2 charge_2nd ch tick = 0) ->
         get2 out_1st i j = 0 /\ get2 out_2nd i j = 0) /\
        (forall p, pairs = [p] ->
                   get2 out_1st i j = snd p /\ get2 out_2nd i j = 0).
Proof.
  intros data_1st data_2nd charge_1st charge_2nd rebin_time rebin_channel
         Hs2 Hc1 Hc2 Ht Hc rt rc.
  assert (Et : rebin_time = Z.of_nat rt) by (unfold rt; lia).
  assert (Ec : rebin_channel = Z.of_nat rc) by (unfold rc; lia).
  assert (Ht' : (0 < rt)%nat) by lia.
  assert (Hc' : (0 < rc)%nat) by lia.
  destruct (rebin_track_first_second_pos data_1st data_2nd charge_1st
              charge_2nd rt rc Hs2 Hc1 Hc2 Ht' Hc')
    as (o1 & o2 & E & S1 & S2 & _ & _ & Hcells).
  exists o1, o2. rewrite Et, Ec. split; [exact E|].
  unfold shape2 in S1, S2. injection S1 as D0 D1. injection S2 as E0 E1.
  rewrite D0, D1, <- !Nat2Z.inj_div.
  split; [reflexivity|]. split; [reflexivity|].
  split; [unfold shape2; congruence|].
  intros i j Hi Hj pairs. destruct (Hcells i j Hi Hj) as [G1 G2].
  fold pairs in G1, G2. split; [|split].
  - exists (sort_desc pairs).
    split; [apply sort_desc_perm|]. split; [apply sort_desc_sorted|].
    split; assumption.
  - intros Hzero. rewrite G1, G2. unfold pairs.
    rewrite block_pairs_no_charge by exact Hzero. split; reflexivity.
  - intros p Hp. rewrite G1, G2, Hp. split; reflexivity.
Qed.

Lemma rebin_track_first_second_top2_witness :
  shape2 ex_data_2nd = shape2 ex_data_1st /\
  shape2 ex_charge_1st = shape2 ex_data_1st /\
  shape2 ex_charge_2nd = shape2 ex_data_1st /\
  0 < 1 /\ 0 < 2 /\
  exists out_1st out_2nd,
    rebin_track_first_second ex_data_1st ex_data_2nd
                             ex_charge_1st ex_charge_2nd 1 2
    = Ok (out_1st, out_2nd) /\
    Z.of_nat (dim0 out_1st) = 2 / 2 /\
    Z.of_nat (dim1 out_1st) = 3 / 1 /\
    shape2 out_2nd = shape2 out_1st /\
    forall i j,
      (i < dim0 out_1st)%nat -> (j < dim1 out_1st)%nat ->
      let pairs :=
        block_pairs ex_data_1st ex_data_2nd ex_charge_1st ex_charge_2nd
                    1 2 i j in
      (exists sorted,
          Permutation pairs sorted /\
          StronglySorted charge_ge sorted /\
          get2 out_1st i j = first_label sorted /\
          get2 out_2nd i j = second_label sorted) /\
      ((forall ch tick,
           (i * 2 <= ch < i * 2 + 2)%nat ->
           (j * 1 <= tick < j * 1 + 1)%nat ->
           get2 ex_charge_1st ch tick = 0 /\
           get2 ex_charge_2nd ch tick = 0) ->
       get2 out_1st i j = 0 /\ get2 out_2nd i j = 0) /\
      (forall p, pairs = [p] ->
                 get2 out_1st i j = snd p /\ get2 out_2nd i j = 0).
Proof.
  split; [reflexivity|]. split; [reflexivity|]. split; [reflexivity|].
  split; [lia|]. split; [lia|].
  apply (rebin_track_first_second_top2
           ex_data_1st ex_data_2nd ex_charge_1st ex_charge_2nd 1 2);
    first [reflexivity | lia].
Defined.

(* ================================================================= *)
(** ** The run: loading and the dimension check *)

Lemma io_bind_ok {A B} l (a : A) (f : A -> io B) :
  io_bind (l, Ok a) f = (l ++ fst (f a), snd (f a)).
Proof. unfold io_bind. now destruct (f a). Qed.

(** Running the binds whose first computation is known. *)
Ltac io_steps := repeat (rewrite !io_bind_ok; cbn [negb fst snd]).

Lemma io_surj {A} (m : io A) : m = (fst m, snd m).
Proof. now destruct m. Qed.

(** The loading loop never raises, and prints only [MsgLoaded]. *)
Lemma load_member_ok fr m :
  exists l fr',
    load_member fr m = (l, Ok fr') /\
    forall e, In e l -> exists k ck, e = MsgLoaded k ck.
Proof.
  unfold load_member.
  destruct (contains "frame" (lower (fst m))).
  - cbv zeta.
    destruct (negb _); unfold print, io_ret; cbn [io_bind app];
      eexists _, _; (split; [reflexivity|]); intros e He.
    + destruct He as [<-|[]]. now eexists _, _.
    + destruct He.
  - eexists _, _. split; [reflexivity|]. intros e [].
Qed.

Lemma load_loop_ok members :
  forall fr,
  exists l fr',
    io_for_each members load_member fr = (l, Ok fr') /\
    forall e, In e l -> exists k ck, e = MsgLoaded k ck.
Proof.
  induction members as [|m members IH]; intros fr; cbn [io_for_each].
  - exists [], fr. split; [reflexivity|]. intros e [].
  - destruct (load_member_ok fr m) as (l1 & fr1 & E1 & H1).
    destruct (IH fr1) as (l2 & fr2 & E2 & H2).
    rewrite E1, io_bind_ok, E2. cbn [fst snd].
    eexists _, _. split; [reflexivity|].
    intros e He. apply in_app_or in He. destruct He; auto.
Qed.

Lemma load_frames_ok f :
  load_frames f = (fst (load_frames f), Ok (loaded_frames f)) /\
  forall e, In e (fst (load_frames f)) -> exists k ck, e = MsgLoaded k ck.
Proof.
  unfold loaded_frames, load_frames.
  destruct (group1 f) as [members|].
  - destruct (load_loop_ok members []) as (l & fr' & E & Hl).
    rewrite E. cbn [fst snd]. split; [reflexivity | exact Hl].
  - cbn. split; [reflexivity|]. intros e [].
Qed.

(** The run is the loading of the two files followed by [process_frames]
    on what was loaded. *)
Lemma process_kinds_eq rec_file tru_file rt rc kinds :
  process_kinds rec_file tru_file rt rc kinds
  = (MsgLoading :: fst (load_frames rec_file) ++ fst (load_frames tru_file)
       ++ fst (process_frames rt rc kinds (loaded_frames rec_file)
                              (loaded_frames tru_file)),
     snd (process_frames rt rc kinds (loaded_frames rec_file)
                         (loaded_frames tru_file))).
Proof.
  unfold process_kinds.
  destruct (load_frames_ok rec_file) as [Er _].
  destruct (load_frames_ok tru_file) as [Et _].
  rewrite Er, Et. unfold print. rewrite !io_bind_ok. reflexivity.
Qed.

Lemma load_frames_no_processing f :
  before_anode_loop (fst (load_frames f)).
Proof.
  apply forallb_forall. intros e He.
  destruct (load_frames_ok f) as [_ H].
  destruct (H e He) as (k & ck & ->). reflexivity.
Qed.

(** Dictionaries keyed by strings. *)
Lemma dict_mem_In {V} k (d : list (string * V)) :
  dict_mem String.eqb k d = true <-> In k (map fst d).
Proof.
  unfold dict_mem. induction d as [|[k' v] d IH]; simpl.
  - split; [discriminate | contradiction].
  - destruct (String.eqb_spec k k') as [->|Hne].
    + split; auto.
    + rewrite IH. split; [auto | intros [H|H]; [congruence | exact H]].
Qed.

Lemma dict_mem_false {V} k (d : list (string * V)) :
  dict_mem String.eqb k d = false <-> ~ In k (map fst d).
Proof.
  rewrite <- dict_mem_In. destruct (dict_mem String.eqb k d); split;
    intros; try congruence; try discriminate; exfalso; auto.
Qed.

Lemma dict_set_fresh {V} k (v : V) d :
  dict_mem String.eqb k d = false ->
  dict_set String.eqb k v d = d ++ [(k, v)].
Proof.
  rewrite dict_mem_false.
  induction d as [|[k' v'] d IH]; simpl; intros H; [reflexivity|].
  destruct (String.eqb_spec k k') as [->|Hne]; [exfalso; auto|].
  rewrite IH by auto. reflexivity.
Qed.

Lemma dict_set_keys {V} k (v : V) d :
  map fst (dict_set String.eqb k v d)
  = if dict_mem String.eqb k d then map fst d else map fst d ++ [k].
Proof.
  unfold dict_mem. induction d as [|[k' v'] d IH]; simpl; [reflexivity|].
  destruct (String.eqb_spec k k') as [->|Hne]; simpl; [reflexivity|].
  rewrite IH. now destruct (dict_get String.eqb k d).
Qed.

Lemma dict_set_nodup {V} k (v : V) d :
  NoDup (map fst d) -> NoDup (map fst (dict_set String.eqb k v d)).
Proof.
  intros H. rewrite dict_set_keys.
  destruct (dict_mem String.eqb k d) eqn:E; [exact H|].
  apply dict_mem_false in E.
  apply NoDup_rev in H. rewrite <- (rev_involutive (map fst d ++ [k])).
  apply NoDup_rev. rewrite rev_app_distr. simpl.
  constructor; [now rewrite <- in_rev | exact H].
Qed.

Lemma dict_merge_disjoint {V} (d1 d2 : list (string * V)) :
  NoDup (map fst d2) ->
  (forall k, In k (map fst d2) -> dict_mem String.eqb k d1 = false) ->
  dict_merge String.eqb d1 d2 = d1 ++ d2.
Proof.
  unfold dict_merge. revert d1.
  induction d2 as [|[k v] d2 IH]; intros d1 Hnd Hdis; simpl.
  - now rewrite app_nil_r.
  - inversion Hnd as [|? ? Hk Hnd']; subst.
    rewrite dict_set_fresh by (apply Hdis; simpl; auto).
    rewrite IH; [now rewrite <- app_assoc | exact Hnd' |].
    intros k' Hk'. apply dict_mem_false.
    rewrite map_app, in_app_iff. simpl. intros [H|[H|[]]].
    + revert H. apply dict_mem_false, Hdis. simpl; auto.
    + subst. contradiction.
Qed.

Lemma load_loop_nodup members :
  forall fr, NoDup (map fst fr) ->
  forall l fr', io_for_each members load_member fr = (l, Ok fr') ->
  NoDup (map fst fr').
Proof.
  induction members as [|m members IH]; intros fr Hnd l fr' E;
    cbn [io_for_each] in E.
  - now injection E as _ <-.
  - destruct (load_member_ok fr m) as (l1 & fr1 & E1 & _).
    rewrite E1, io_bind_ok in E.
    rewrite (io_surj (io_for_each members load_member fr1)) in E.
    apply (IH fr1) with (l := fst (io_for_each members load_member fr1)).
    + revert E1. unfold load_member.
      destruct (contains "frame" (lower (fst m))).
      * cbv zeta. destruct (negb _); unfold print, io_ret;
          cbn [io_bind app]; intros E1; injection E1 as _ <-;
          now apply dict_set_nodup.
      * unfold io_ret. intros E1. now injection E1 as _ <-.
    + cbn [fst snd] in E. injection E as _ E.
      rewrite <- E. apply io_surj.
Qed.

Lemma loaded_frames_nodup f : NoDup (map fst (loaded_frames f)).
Proof.
  destruct (load_frames_ok f) as [E _]. revert E.
  unfold load_frames at 1. destruct (group1 f) as [members|].
  - intros E. eapply load_loop_nodup; [|exact E]. constructor.
  - unfold io_ret. intros E. injection E as _ <-. constructor.
Qed.

(** The dimension check. *)
Lemma shape2_eqb_eq s t : shape2_eqb s t = true <-> s = t.
Proof.
  destruct s as [a b], t as [a' b']. unfold shape2_eqb. simpl.
  rewrite andb_true_iff, !Nat.eqb_eq. split.
  - intros [-> ->]. reflexivity.
  - intros E. injection E as -> ->. auto.
Qed.

Lemma verify_loop_spec fs items :
  (Forall (fun kd => shape2 (snd kd) = fs) items /\
   verify_loop (Some fs) items = ([], Ok true)) \/
  (exists name data,
      In (name, data) items /\ shape2 data <> fs /\
      verify_loop (Some fs) items
      = ([MsgShapeError name (shape2 data) fs], Ok false)).
Proof.
  induction items as [|[name data] items IH]; cbn [verify_loop].
  - left. split; [constructor | reflexivity].
  - destruct (shape2_eqb (shape2 data) fs) eqn:E; cbn [negb].
    + apply shape2_eqb_eq in E. destruct IH as [[Hall Hv]|(n & d & Hin & Hne & Hv)].
      * left. split; [constructor; [exact E | exact Hall] | exact Hv].
      * right. exists n, d. split; [simpl; auto|]. split; assumption.
    + right. exists name, data. split; [simpl; auto|]. split.
      * intros Heq. apply shape2_eqb_eq in Heq. congruence.
      * reflexivity.
Qed.

(** The same, with the place of the first frame that differs. *)
Lemma verify_loop_first fs items :
  (Forall (fun kd => shape2 (snd kd) = fs) items /\
   verify_loop (Some fs) items = ([], Ok true)) \/
  (exists pre name data post,
      items = pre ++ (name, data) :: post /\
      Forall (fun kd => shape2 (snd kd) = fs) pre /\
      shape2 data <> fs /\
      verify_loop (Some fs) items
      = ([MsgShapeError name (shape2 data) fs], Ok false)).
Proof.
  induction items as [|[name data] items IH]; cbn [verify_loop].
  - left. split; [constructor | reflexivity].
  - destruct (shape2_eqb (shape2 data) fs) eqn:E; cbn [negb].
    + apply shape2_eqb_eq in E.
      destruct IH as [[Hall Hv]|(pre & n & d & post & -> & Hpre & Hne & Hv)].
      * left. split; [constructor; assumption | exact Hv].
      * right. exists ((name, data) :: pre), n, d, post.
        split; [reflexivity|]. split; [constructor; assumption|].
        split; assumption.
    + right. exists [], name, data, items.
      split; [reflexivity|]. split; [constructor|]. split; [|reflexivity].
      intros Heq. apply shape2_eqb_eq in Heq. congruence.
Qed.

(** The three ways [process_frames] can go. *)
Section ProcessFrames.
Variables (rt rc : Z) (kinds : list string) (fr ft : frames).

Let all_frames := dict_merge String.eqb fr ft.
Let head_log :=
  [MsgLoadedFrames "g4-rec.h5" (map fst fr);
   MsgLoadedFrames "g4-tru.h5" (map fst ft)].

Lemma process_frames_empty :
  all_frames = [] ->
  process_frames rt rc kinds fr ft = (head_log, Raise IndexError).
Proof.
  intros E. unfold process_frames. fold all_frames. rewrite E.
  reflexivity.
Qed.

Lemma process_frames_mismatch name0 first rest ev :
  all_frames = (name0, first) :: rest ->
  verify_loop (Some (shape2 first)) rest = ([ev], Ok false) ->
  process_frames rt rc kinds fr ft
  = (head_log ++ [ev; MsgDimMismatch], Ok (mk_run false None)).
Proof.
  intros E Hv. unfold process_frames. fold all_frames. rewrite E.
  cbn [verify_dimensions verify_loop]. rewrite Hv. reflexivity.
Qed.

Lemma process_frames_pass name0 first rest :
  all_frames = (name0, first) :: rest ->
  verify_loop (Some (shape2 first)) rest = ([], Ok true) ->
  process_frames rt rc kinds fr ft
  = match process_anodes rt rc kinds fr ft with
    | (l, Ok rebinned_data) =>
        (head_log
           ++ [MsgFrameDims (dim0 first) (dim1 first); MsgRebinning rt rc]
           ++ l
           ++ [MsgSaving; MsgSaved (length rebinned_data);
               MsgOutputDatasets
                 (sorted_str
                    (map (fun key =>
                            if prefix "frame_" key then key
                            else ("frame_" ++ key)%string)
                         (map fst rebinned_data)))],
         Ok (mk_run true
               (Some (map (fun kd =>
                             (if prefix "frame_" (fst kd) then fst kd
                              else ("frame_" ++ fst kd)%string, snd kd))
                          rebinned_data))))
    | (l, Raise e) =>
        (head_log
           ++ [MsgFrameDims (dim0 first) (dim1 first); MsgRebinning rt rc]
           ++ l,
         Raise e)
    end.
Proof.
  intros E Hv. unfold process_frames. fold all_frames. rewrite E.
  cbn [verify_dimensions verify_loop]. rewrite Hv.
  unfold print, lift, io_ret. cbn [map snd].
  io_steps.
  destruct (process_anodes rt rc kinds fr ft) as [l [rd|e]].
  - io_steps. reflexivity.
  - reflexivity.
Qed.
End ProcessFrames.

Lemma before_anode_loop_app l1 l2 :
  before_anode_loop l1 -> before_anode_loop l2 ->
  before_anode_loop (l1 ++ l2).
Proof.
  unfold before_anode_loop. intros H1 H2.
  now rewrite forallb_app, H1, H2.
Qed.

(** The log up to the end of [process_frames]'s first two prints. *)
Lemma before_anode_loop_loading rec_file tru_file (fr ft : frames) :
  before_anode_loop
    (MsgLoading :: fst (load_frames rec_file) ++ fst (load_frames tru_file)
       ++ [MsgLoadedFrames "g4-rec.h5" (map fst fr);
           MsgLoadedFrames "g4-tru.h5" (map fst ft)]).
Proof.
  change (before_anode_loop
            ([MsgLoading] ++ fst (load_frames rec_file)
               ++ fst (load_frames tru_file)
               ++ [MsgLoadedFrames "g4-rec.h5" (map fst fr);
                   MsgLoadedFrames "g4-tru.h5" (map fst ft)])).
  repeat apply before_anode_loop_app;
    try apply load_frames_no_processing; reflexivity.
Qed.

(** C10. With no frame in either input, [process] returns no output
    mapping: [verify_dimensions] accepts the empty dictionary, and reading
    the first frame's shape raises IndexError before the anode loop; a run
    that returns had at least one frame. *)
Theorem process_without_frames_raises :
  verify_dimensions [] = ([], Ok true) /\
  (forall rec_file tru_file rebin_time rebin_channel,
      loaded_frames rec_file = [] -> loaded_frames tru_file = [] ->
      exists log,
        process rec_file tru_file rebin_time rebin_channel
        = (log, Raise IndexError) /\
        before_anode_loop log) /\
  (forall rec_file tru_file rebin_time rebin_channel log r,
      process rec_file tru_file rebin_time rebin_channel = (log, Ok r) ->
      dict_merge String.eqb (loaded_frames rec_file)
                 (loaded_frames tru_file) <> []).
Proof.
  split; [reflexivity|]. split.
  - intros rec_file tru_file rt rc Hr Ht.
    unfold process. rewrite process_kinds_eq, Hr, Ht.
    rewrite process_frames_empty by reflexivity. cbn [fst snd].
    eexists. split; [reflexivity|].
    apply (before_anode_loop_loading rec_file tru_file [] []).
  - intros rec_file tru_file rt rc log r E Hempty.
    unfold process in E. rewrite process_kinds_eq in E.
    rewrite process_frames_empty in E by exact Hempty.
    discriminate E.
Qed.

Lemma process_without_frames_raises_witness :
  (loaded_frames ex_no_group = [] /\
   loaded_frames (mk_h5 (Some [("other"%string, mk2 1 1 [1])])) = [] /\
   exists log,
     process ex_no_group (mk_h5 (Some [("other"%string, mk2 1 1 [1])])) 2 2
     = (log, Raise IndexError) /\
     before_anode_loop log) /\
  (snd (process ex_same_name_rec ex_same_name_tru 2 2)
   = Ok (mk_run true (Some [])) /\
   dict_merge String.eqb (loaded_frames ex_same_name_rec)
              (loaded_frames ex_same_name_tru) <> []).
Proof.
  split.
  - split; [reflexivity|]. split; [reflexivity|].
    apply (proj1 (proj2 process_without_frames_raises)); reflexivity.
  - split; [vm_compute; reflexivity|].
    apply (proj2 (proj2 process_without_frames_raises)
                 ex_same_name_rec ex_same_name_tru 2 2
                 (fst (process ex_same_name_rec ex_same_name_tru 2 2))
                 (mk_run true (Some []))).
    vm_compute. reflexivity.
Defined.

(** C6 (as stated, refuted): the two inputs hold frames of different
    shapes under one name, and the run returns True with an (empty)
    output written; and where the names differ, a mismatch makes the run
    return False, it raises nothing. *)
Lemma process_same_name_mismatch_passes :
  (exists a b,
      In a (map snd (loaded_frames ex_same_name_rec)) /\
      In b (map snd (loaded_frames ex_same_name_tru)) /\
      shape2 a <> shape2 b) /\
  snd (process ex_same_name_rec ex_same_name_tru 2 2)
  = Ok (mk_run true (Some [])) /\
  snd (process ex_mismatch_rec ex_mismatch_tru 2 2)
  = Ok (mk_run false None).
Proof.
  split; [|split].
  - exists (mk2 1 1 [1]), (mk2 2 2 [1; 2; 3; 4]).
    split; [simpl; auto|]. split; [simpl; auto|]. discriminate.
  - vm_compute. reflexivity.
  - vm_compute. reflexivity.
Qed.

(** C6 (amended). When no frame name occurs in both inputs and two frames
    disagree in shape, [process] prints an error naming the first frame,
    in the order of the merged dictionary, whose shape differs from the
    first frame's shape (every frame before it has that shape), with both
    shapes, prints "Dimension mismatch", and returns False: nothing is
    aggregated and no output is written. *)
Theorem process_shape_mismatch :
  forall rec_file tru_file rebin_time rebin_channel,
    let frames_rec := loaded_frames rec_file in
    let frames_tru := loaded_frames tru_file in
    (forall k, In k (map fst frames_rec) -> ~ In k (map fst frames_tru)) ->
    (exists a b,
        In a (map snd (frames_rec ++ frames_tru)) /\
        In b (map snd (frames_rec ++ frames_tru)) /\
        shape2 a <> shape2 b) ->
    exists log name0 first pre name data post,
      process rec_file tru_file rebin_time rebin_channel
      = (log ++ [MsgShapeError name (shape2 data) (shape2 first);
                 MsgDimMismatch],
         Ok (mk_run false None)) /\
      frames_rec ++ frames_tru
      = (name0, first) :: pre ++ (name, data) :: post /\
      Forall (fun kd => shape2 (snd kd) = shape2 first) pre /\
      shape2 data <> shape2 first /\
      before_anode_loop log.
Proof.
  intros rec_file tru_file rt rc frames_rec frames_tru Hdis (a & b & Ha & Hb & Hab).
  assert (Hall : dict_merge String.eqb frames_rec frames_tru
                 = frames_rec ++ frames_tru).
  { apply dict_merge_disjoint; [apply loaded_frames_nodup|].
    intros k Hk. apply dict_mem_false. intros Hk'. exact (Hdis k Hk' Hk). }
  unfold process. rewrite process_kinds_eq.
  fold frames_rec frames_tru.
  destruct (frames_rec ++ frames_tru) as [|[name0 first] rest] eqn:Eall;
    [contradiction|].
  destruct (verify_loop_first (shape2 first) rest)
    as [[Hsame _]|(pre & name & data & post & Hrest & Hpre & Hne & Hv)].
  - exfalso. apply Hab.
    assert (G : forall x, In x (map snd ((name0, first) :: rest)) ->
                          shape2 x = shape2 first).
    { intros x [<-|Hx]; [reflexivity|].
      apply in_map_iff in Hx. destruct Hx as (kd & <- & Hkd).
      rewrite Forall_forall in Hsame. now apply Hsame. }
    rewrite (G a Ha), (G b Hb). reflexivity.
  - rewrite (process_frames_mismatch rt rc label_kinds frames_rec frames_tru
               name0 first rest _ Hall Hv).
    cbn [fst snd].
    exists (MsgLoading :: fst (load_frames rec_file)
              ++ fst (load_frames tru_file)
              ++ [MsgLoadedFrames "g4-rec.h5" (map fst frames_rec);
                  MsgLoadedFrames "g4-tru.h5" (map fst frames_tru)]),
           name0, first, pre, name, data, post.
    split; [|split; [now rewrite Hrest|split; [exact Hpre|split;
                                                [exact Hne|]]]].
    + cbn [app]. rewrite <- !app_assoc. reflexivity.
    + apply before_anode_loop_loading.
Qed.

Lemma process_shape_mismatch_witness :
  (forall k, In k (map fst (loaded_frames ex_mismatch_rec)) ->
             ~ In k (map fst (loaded_frames ex_mismatch_tru))) /\
  (exists a b,
      In a (map snd (loaded_frames ex_mismatch_rec
                       ++ loaded_frames ex_mismatch_tru)) /\
      In b (map snd (loaded_frames ex_mismatch_rec
                       ++ loaded_frames ex_mismatch_tru)) /\
      shape2 a <> shape2 b) /\
  exists log name0 first pre name data post,
    process ex_mismatch_rec ex_mismatch_tru 2 2
    = (log ++ [MsgShapeError name (shape2 data) (shape2 first);
               MsgDimMismatch],
       Ok (mk_run false None)) /\
    loaded_frames ex_mismatch_rec ++ loaded_frames ex_mismatch_tru
    = (name0, first) :: pre ++ (name, data) :: post /\
    Forall (fun kd => shape2 (snd kd) = shape2 first) pre /\
    shape2 data <> shape2 first /\
    before_anode_loop log.
Proof.
  assert (H1 : forall k, In k (map fst (loaded_frames ex_mismatch_rec)) ->
                         ~ In k (map fst (loaded_frames ex_mismatch_tru))).
  { intros k [<-|[]] [H|[H|[H|[]]]]; discriminate H. }
  assert (H2 : exists a b,
      In a (map snd (loaded_frames ex_mismatch_rec
                       ++ loaded_frames ex_mismatch_tru)) /\
      In b (map snd (loaded_frames ex_mismatch_rec
                       ++ loaded_frames ex_mismatch_tru)) /\
      shape2 a <> shape2 b).
  { exists (mk2 1 1 [1]), (mk2 1 2 [1; 2]).
    split; [simpl; auto|]. split; [simpl; auto|]. discriminate. }
  split; [exact H1|]. split; [exact H2|].
  exact (process_shape_mismatch ex_mismatch_rec ex_mismatch_tru 2 2 H1 H2).
Defined.

(** On these two files [charge_2nd] and [orig_pid_1st] both differ from
    the first frame; the error names [charge_2nd], the earlier one. *)
Example process_names_first_mismatch :
  exists log,
    process ex_mismatch_rec ex_mismatch_tru 2 2
    = (log ++ [MsgShapeError "charge_2nd" (1%nat, 2%nat) (1%nat, 1%nat);
               MsgDimMismatch],
       Ok (mk_run false None)).
Proof.
  exists (removelast
            (removelast (fst (process ex_mismatch_rec ex_mismatch_tru 2 2)))).
  vm_compute. reflexivity.
Qed.

(* ================================================================= *)
(** ** Factors that are not positive *)

Lemma div_nonneg_neg a b : 0 <= a -> b < 0 -> a / b <= 0.
Proof.
  intros Ha Hb.
  pose proof (Z.div_mod a b ltac:(lia)).
  pose proof (Z.mod_neg_bound a b Hb).
  nia.
Qed.

Lemma reshape3_two_nonpos a e0 e1 e2 :
  (e1 < 0 /\ e0 <= 0 /\ 0 <= e2) \/ (e2 < 0 /\ e1 <= 0 /\ 0 <= e0) ->
  reshape3 a e0 e1 e2 = Raise ValueError.
Proof.
  intros H. unfold reshape3. cbn [filter].
  destruct (Z.ltb_spec e0 0); destruct (Z.ltb_spec e1 0);
    destruct (Z.ltb_spec e2 0); try lia; try reflexivity;
    destruct (Z.leb_spec 0 e0); destruct (Z.leb_spec 0 e1);
    destruct (Z.leb_spec 0 e2); try lia; cbn [fold_right].
  - replace (e0 * (e2 * 1)) with 0 by nia. reflexivity.
  - replace (e0 * (e1 * 1)) with 0 by nia. reflexivity.
Qed.

(** [rebin_sum] with a factor that is not positive always raises. *)
Lemma rebin_sum_nonpos data rt rc :
  rt <= 0 \/ rc <= 0 ->
  rebin_sum data rt rc
  = Raise (if (rt =? 0) || (rc =? 0) then ZeroDivisionError else ValueError).
Proof.
  intros H. unfold rebin_sum, floordiv.
  destruct (Z.eqb_spec rc 0) as [->|Hrc].
  { now rewrite orb_true_r. }
  cbn [rbind]. destruct (Z.eqb_spec rt 0) as [->|Hrt]; [reflexivity|].
  cbn [rbind orb].
  destruct (Z_lt_le_dec rc 0) as [Hneg|Hpos].
  - rewrite reshape3_two_nonpos; [reflexivity|]. left.
    split; [lia|]. split; [|lia].
    apply div_nonneg_neg; lia.
  - assert (Hrt' : rt < 0) by lia.
    assert (Ec : rc = Z.of_nat (Z.to_nat rc)) by lia.
    set (c := Z.to_nat rc) in *. clearbody c. subst rc.
    assert (Hc : (0 < c)%nat) by lia.
    rewrite <- Nat2Z.inj_div, <- Nat2Z.inj_mul.
    unfold slice_rows.
    rewrite slice_stop_le
      by (rewrite Nat.mul_comm; apply Nat.Div0.mul_div_le).
    rewrite reshape3_nonneg by (simpl; lia).
    cbn [rbind].
    rewrite reshape3_two_nonpos; [reflexivity|]. right.
    split; [lia|]. split; [|lia].
    apply div_nonneg_neg; lia.
Qed.

Lemma frame_lookup_absent k (d : frames) :
  dict_mem String.eqb k d = false -> frame_lookup k d = Raise (KeyError k).
Proof.
  unfold dict_mem, frame_lookup.
  destruct (dict_get String.eqb k d); [discriminate | reflexivity].
Qed.

Lemma for_each_unchanged {A S} (body : S -> A -> result S) l :
  (forall s a s', body s a = Ok s' -> s' = s) ->
  forall s s', for_each l body s = Ok s' -> s' = s.
Proof.
  intros H. induction l as [|a l IH]; intros s s' E; simpl in E.
  - now injection E.
  - destruct (body s a) as [s1|e] eqn:E1; [|discriminate].
    cbn [rbind] in E. apply H in E1. subst s1. now apply IH.
Qed.

Section NonPositive.
Variables (frames_rec frames_tru : frames) (rt rc : Z).
Variables (plane_channels : list Z) (plane_key : string).
Hypothesis Hfactor : rt <= 0 \/ rc <= 0.

Lemma handle_gauss_nonpos rd rd' :
  handle_gauss frames_rec rt rc plane_channels plane_key rd = Ok rd' ->
  rd' = rd.
Proof.
  unfold handle_gauss.
  destruct (dict_mem String.eqb "frame_gauss"%string frames_rec);
    [|intros E; now injection E].
  destruct (frame_lookup "frame_gauss" frames_rec) as [whole|];
    [|discriminate]. cbn [rbind].
  destruct (take_rows whole plane_channels) as [data|]; [|discriminate].
  cbn [rbind]. rewrite rebin_sum_nonpos by exact Hfactor. discriminate.
Qed.

Lemma handle_charge_nonpos rd rd' :
  handle_charge frames_tru rt rc plane_channels plane_key rd = Ok rd' ->
  dict_mem String.eqb "charge_1st"%string frames_tru = false /\ rd' = rd.
Proof.
  unfold handle_charge.
  destruct (dict_mem String.eqb "charge_1st"%string frames_tru);
    [|intros E; now injection E].
  destruct (frame_lookup "charge_1st" frames_tru) as [whole|];
    [|discriminate]. cbn [rbind].
  destruct (take_rows whole plane_channels) as [c1|]; [|discriminate].
  cbn [rbind].
  destruct (frame_lookup "charge_2nd" frames_tru) as [whole2|];
    [|discriminate]. cbn [rbind].
  destruct (take_rows whole2 plane_channels) as [c2|]; [|discriminate].
  cbn [rbind]. rewrite rebin_sum_nonpos by exact Hfactor. discriminate.
Qed.

Lemma handle_kind_without_charge rd kind rd' :
  dict_mem String.eqb "charge_1st"%string frames_tru = false ->
  handle_kind frames_tru rt rc plane_channels plane_key rd kind = Ok rd' ->
  rd' = rd.
Proof.
  intros Hno. unfold handle_kind.
  destruct (dict_mem String.eqb (kind ++ "_1st")%string frames_tru);
    [|intros E; now injection E].
  rewrite frame_lookup_absent by exact Hno. discriminate.
Qed.

(** No unit stores anything. *)
Lemma aggregate_plane_nonpos kinds rd rd' :
  aggregate_plane frames_rec frames_tru rt rc plane_channels plane_key
                  kinds rd = Ok rd' ->
  rd' = rd.
Proof.
  unfold aggregate_plane.
  destruct (handle_gauss _ _ _ _ _ rd) as [rd1|] eqn:E1; [|discriminate].
  apply handle_gauss_nonpos in E1. subst rd1. cbn [rbind].
  destruct (for_each kinds _ rd) as [rd2|] eqn:E2; [|discriminate].
  cbn [rbind]. intros E3. apply handle_charge_nonpos in E3.
  destruct E3 as [Hno ->].
  eapply for_each_unchanged; [|exact E2].
  intros s a s'. now apply handle_kind_without_charge.
Qed.
End NonPositive.

Lemma io_for_each_invariant {A S} (P : S -> Prop)
    (body : S -> A -> io S) l :
  (forall s a l' s', P s -> body s a = (l', Ok s') -> P s') ->
  forall s l' s', P s -> io_for_each l body s = (l', Ok s') -> P s'.
Proof.
  intros H. induction l as [|a l IH]; intros s l' s' Hs E;
    cbn [io_for_each] in E.
  - unfold io_ret in E. injection E as _ <-. exact Hs.
  - destruct (body s a) as [l1 [s1|e]] eqn:E1; [|discriminate].
    rewrite io_bind_ok in E.
    rewrite (io_surj (io_for_each l body s1)) in E.
    cbn [fst snd] in E. injection E as _ E.
    eapply (IH s1); [eapply H; eauto|].
    rewrite <- E. apply io_surj.
Qed.

Lemma process_plane_nonpos rt rc kinds fr ft anode_id planes rd plane_id l rd' :
  rt <= 0 \/ rc <= 0 ->
  process_plane rt rc kinds fr ft anode_id planes rd plane_id = (l, Ok rd') ->
  rd' = rd.
Proof.
  intros Hf. unfold process_plane, lift, print.
  destruct (dict_get Z.eqb plane_id planes) as [chans|]; [|discriminate].
  io_steps.
  intros E. injection E as _ E.
  eapply aggregate_plane_nonpos; eauto.
Qed.

Lemma process_anodes_nonpos rt rc kinds fr ft l rd :
  rt <= 0 \/ rc <= 0 ->
  process_anodes rt rc kinds fr ft = (l, Ok rd) -> rd = [].
Proof.
  intros Hf. unfold process_anodes.
  apply (io_for_each_invariant (fun rd => rd = [])); [|reflexivity].
  intros s a l' s' Hs.
  apply (io_for_each_invariant (fun rd => rd = [])); [|exact Hs].
  intros s0 p l0 s0' Hs0 E.
  apply process_plane_nonpos in E; [congruence | exact Hf].
Qed.

(** The anode loop starts by printing the unit (anode 0, plane 0), whatever
    the factors and the frames. *)
Lemma io_bind_log {A B} (m : io A) (f : A -> io B) :
  exists l, fst (io_bind m f) = fst m ++ l.
Proof.
  destruct m as [l [a|e]].
  - rewrite io_bind_ok. eexists. reflexivity.
  - exists []. cbn. now rewrite app_nil_r.
Qed.

Lemma process_anodes_first_unit rt rc kinds fr ft :
  exists l,
    fst (process_anodes rt rc kinds fr ft) = MsgProcessing 0 0 476 :: l.
Proof.
  unfold process_anodes.
  change (arange 0 8) with (0 :: arange 1 8).
  change (arange 0 3) with (0 :: arange 1 3).
  cbn [io_for_each].
  match goal with
  | |- context [io_bind (io_bind ?m ?f) ?g] =>
      destruct (io_bind_log (io_bind m f) g) as [l1 E1];
      destruct (io_bind_log m f) as [l2 E2]
  end.
  rewrite E1, E2.
  unfold process_plane at 1. rewrite get_anode_planes_eq.
  cbn [Z.modulo Z.div Z.eqb Z.div_eucl Z.mul Z.add dict_get lift].
  unfold print, lift. io_steps.
  rewrite arange_length. eexists. reflexivity.
Qed.

(** C7 (as stated, refuted): with rebin_channel = 0 and the two charge
    frames present, the run is not rejected before the anode loop: it
    prints the unit (anode 0, plane 0) and the aggregation of that unit
    raises ZeroDivisionError. *)
Lemma process_zero_factor_fails_inside_loop :
  In (MsgProcessing 0 0 476) (fst (process ex_no_group ex_charge_tru 2 0)) /\
  ~ before_anode_loop (fst (process ex_no_group ex_charge_tru 2 0)) /\
  snd (process ex_no_group ex_charge_tru 2 0) = Raise ZeroDivisionError.
Proof.
  assert (E : process ex_no_group ex_charge_tru 2 0
              = ([MsgLoading;
                  MsgLoaded "frame_charge_1st" "charge_1st";
                  MsgLoaded "frame_charge_2nd" "charge_2nd";
                  MsgLoadedFrames "g4-rec.h5" [];
                  MsgLoadedFrames "g4-tru.h5"
                    ["charge_1st"%string; "charge_2nd"%string];
                  MsgFrameDims 476 1; MsgRebinning 2 0;
                  MsgProcessing 0 0 476],
                 Raise ZeroDivisionError))
    by (vm_compute; reflexivity).
  rewrite E. cbn [fst snd]. split; [simpl; tauto|].
  split; [|reflexivity]. unfold before_anode_loop. simpl. discriminate.
Qed.

(** C7 (amended). The factors are never checked and no InvalidFactorError
    exists.  With rebin_time <= 0 or rebin_channel <= 0: every call of
    [rebin_sum] raises ZeroDivisionError (a zero factor) or ValueError (a
    negative one); a run whose frames pass the dimension check enters the
    anode loop; and a run that returns has stored no rebinned array. *)
Theorem process_nonpositive_factor :
  forall rec_file tru_file rebin_time rebin_channel,
    rebin_time <= 0 \/ rebin_channel <= 0 ->
    let all_frames :=
      dict_merge String.eqb (loaded_frames rec_file)
                 (loaded_frames tru_file) in
    (forall data,
        rebin_sum data rebin_time rebin_channel
        = Raise (if (rebin_time =? 0) || (rebin_channel =? 0)
                 then ZeroDivisionError else ValueError)) /\
    (all_frames <> [] -> snd (verify_dimensions all_frames) = Ok true ->
     In (MsgProcessing 0 0 476)
        (fst (process rec_file tru_file rebin_time rebin_channel))) /\
    (forall log r,
        process rec_file tru_file rebin_time rebin_channel = (log, Ok r) ->
        written r = None \/ written r = Some []).
Proof.
  intros rec_file tru_file rt rc Hf all_frames.
  split; [intros data; now apply rebin_sum_nonpos|].
  unfold process. rewrite process_kinds_eq. cbn [fst snd].
  set (fr := loaded_frames rec_file) in *.
  set (ft := loaded_frames tru_file) in *.
  destruct all_frames as [|[name0 first] rest] eqn:Eall.
  - split; [intros H; contradiction|].
    intros log r E.
    rewrite (process_frames_empty rt rc label_kinds fr ft Eall) in E.
    discriminate E.
  - destruct (verify_loop_spec (shape2 first) rest)
      as [[_ Hv]|(name & data & Hin & Hne & Hv)].
    + rewrite (process_frames_pass rt rc label_kinds fr ft name0 first rest
                 Eall Hv).
      destruct (process_anodes_first_unit rt rc label_kinds fr ft) as [l' El].
      destruct (process_anodes rt rc label_kinds fr ft) as [l [rd|e]] eqn:Ea;
        cbn [fst snd] in *; subst l.
      * split.
        -- intros _ _. cbn [In]. rewrite !in_app_iff. cbn [In].
           intuition.
        -- intros log r E. injection E as _ <-. right. cbn [written].
           rewrite (process_anodes_nonpos rt rc label_kinds fr ft _ rd Hf Ea).
           reflexivity.
      * split.
        -- intros _ _. cbn [In]. rewrite !in_app_iff. cbn [In].
           intuition.
        -- intros log r E. discriminate E.
    + rewrite (process_frames_mismatch rt rc label_kinds fr ft name0 first
                 rest _ Eall Hv).
      cbn [fst snd]. split.
      * intros _ Hpass. cbn [verify_dimensions verify_loop] in Hpass.
        rewrite Hv in Hpass. discriminate Hpass.
      * intros log r E. injection E as _ <-. left. reflexivity.
Qed.

Lemma process_nonpositive_factor_witness :
  (2 <= 0 \/ 0 <= 0) /\
  (forall data, rebin_sum data 2 0 = Raise ZeroDivisionError) /\
  In (MsgProcessing 0 0 476) (fst (process ex_no_group ex_charge_tru 2 0)) /\
  (forall log r,
      process ex_no_group ex_charge_tru 2 0 = (log, Ok r) ->
      written r = None \/ written r = Some []).
Proof.
  split; [right; lia|].
  destruct (process_nonpositive_factor ex_no_group ex_charge_tru 2 0
              (or_intror (Z.le_refl 0))) as (H1 & H2 & H3).
  split; [exact H1|]. split; [|exact H3].
  apply H2; [discriminate | reflexivity].
Defined.

(* ================================================================= *)
(** ** Label kinds that are absent *)

Lemma handle_kind_absent ft rt rc chans key rd kind :
  dict_mem String.eqb (kind ++ "_1st")%string ft = false ->
  handle_kind ft rt rc chans key rd kind = Ok rd.
Proof. intros H. unfold handle_kind. now rewrite H. Qed.

Lemma for_each_skip {S} (body : S -> string -> result S) kind l :
  (forall s, body s kind = Ok s) ->
  forall s,
    for_each l body s
    = for_each (filter (fun k => negb (String.eqb k kind)) l) body s.
Proof.
  intros H. induction l as [|k l IH]; intros s; simpl; [reflexivity|].
  destruct (String.eqb_spec k kind) as [->|Hne]; cbn [negb].
  - rewrite H. cbn [rbind]. apply IH.
  - simpl. destruct (body s k); cbn [rbind]; [apply IH | reflexivity].
Qed.

Lemma io_for_each_ext {A S} (body body' : S -> A -> io S) l :
  (forall s a, body s a = body' s a) ->
  forall s, io_for_each l body s = io_for_each l body' s.
Proof.
  intros H. induction l as [|a l IH]; intros s; cbn [io_for_each];
    [reflexivity|].
  rewrite H. destruct (body' s a) as [l1 [s1|e]]; [|reflexivity].
  rewrite !io_bind_ok. now rewrite IH.
Qed.

Lemma process_anodes_skip rt rc kinds fr ft kind :
  dict_mem String.eqb (kind ++ "_1st")%string ft = false ->
  process_anodes rt rc kinds fr ft
  = process_anodes rt rc
      (filter (fun k => negb (String.eqb k kind)) kinds) fr ft.
Proof.
  intros H. unfold process_anodes.
  apply io_for_each_ext. intros rd anode_id.
  apply io_for_each_ext. intros rd' plane_id.
  unfold process_plane.
  destruct (dict_get Z.eqb plane_id (get_anode_planes anode_id));
    [|reflexivity].
  unfold lift, print. io_steps.
  f_equal. unfold aggregate_plane.
  destruct (handle_gauss _ _ _ _ _ rd'); cbn [rbind]; [|reflexivity].
  rewrite (for_each_skip _ kind kinds); [reflexivity|].
  intros s. now apply handle_kind_absent.
Qed.

Lemma process_kinds_skip rec_file tru_file rt rc kinds kind :
  dict_mem String.eqb (kind ++ "_1st")%string (loaded_frames tru_file)
  = false ->
  process_kinds rec_file tru_file rt rc kinds
  = process_kinds rec_file tru_file rt rc
      (filter (fun k => negb (String.eqb k kind)) kinds).
Proof.
  intros H. rewrite !process_kinds_eq. unfold process_frames.
  now rewrite (process_anodes_skip rt rc kinds _ _ kind H).
Qed.

(** The names found in each file are always printed. *)
Lemma process_frames_reports rt rc kinds fr ft :
  exists l,
    fst (process_frames rt rc kinds fr ft)
    = [MsgLoadedFrames "g4-rec.h5" (map fst fr);
       MsgLoadedFrames "g4-tru.h5" (map fst ft)] ++ l.
Proof.
  unfold process_frames, print.
  io_steps. eexists. reflexivity.
Qed.

(** C8 (as stated, refuted): the track-id labels are present and the
    charge frames are missing; the run aborts with a KeyError. *)
Lemma process_missing_charge_aborts :
  dict_mem String.eqb "orig_trackid_1st"%string
           (loaded_frames ex_labels_only_tru) = true /\
  dict_mem String.eqb "charge_1st"%string
           (loaded_frames ex_labels_only_tru) = false /\
  snd (process ex_no_group ex_labels_only_tru 2 2)
  = Raise (KeyError "charge_1st").
Proof. repeat split; vm_compute; reflexivity. Qed.

(* ================================================================= *)
(** ** More on the channel topology *)

(** [determine_anode_plane] on any channel: the sub-range of the CRP that
    holds it decides the three results. *)
Lemma determine_anode_plane_cases channel :
  exists lo hi cru plane,
    In (lo, hi, cru, plane)
       [(0, 476, 0, 0); (476, 952, 1, 0); (952, 1428, 0, 1);
        (1428, 1904, 1, 1); (1904, 2488, 0, 2); (2488, 3072, 1, 2)] /\
    lo <= channel - 3072 * (channel / 3072) < hi /\
    determine_anode_plane channel
    = (channel / 3072 * 2 + cru, plane,
       channel - 3072 * (channel / 3072) - lo).
Proof.
  pose proof (Z.div_mod channel 3072 ltac:(lia)) as Hdm.
  pose proof (Z.mod_pos_bound channel 3072 ltac:(lia)) as Hb.
  set (r := channel - 3072 * (channel / 3072)).
  assert (Hr : 0 <= r < 3072) by (unfold r; lia).
  assert (Hc : (0 <= r < 476) \/ (476 <= r < 952) \/ (952 <= r < 1428) \/
               (1428 <= r < 1904) \/ (1904 <= r < 2488) \/
               (2488 <= r < 3072)) by lia.
  destruct Hc as [H|[H|[H|[H|[H|H]]]]];
    [ exists 0, 476, 0, 0 | exists 476, 952, 1, 0 | exists 952, 1428, 0, 1
    | exists 1428, 1904, 1, 1 | exists 1904, 2488, 0, 2
    | exists 2488, 3072, 1, 2 ];
    (split; [simpl; tauto|]); (split; [exact H|]);
    (eapply determine_anode_plane_range;
     [simpl; repeat (first [left; reflexivity | right]) | exact H]).
Qed.

Lemma StronglySorted_lt_NoDup l : StronglySorted Z.lt l -> NoDup l.
Proof.
  induction 1 as [|x l Hs IH Hx]; constructor; [|exact IH].
  intros Hin. rewrite Forall_forall in Hx. specialize (Hx x Hin). lia.
Qed.

Lemma hd_error_arange a b : a < b -> hd_error (arange a b) = Some a.
Proof.
  intros H. unfold arange.
  destruct (Z.to_nat (b - a)) as [|n] eqn:E; [lia|].
  simpl. f_equal. lia.
Qed.

Lemma anode_of_crp_cru q cru :
  0 <= cru <= 1 -> (q * 2 + cru) / 2 = q /\ (q * 2 + cru) mod 2 = cru.
Proof.
  intros H. split.
  - symmetry. apply Z.div_unique with (r := cru); lia.
  - symmetry. apply Z.mod_unique with (q := q); lia.
Qed.

Lemma nth_error_arange a b k :
  Z.of_nat k < b - a -> nth_error (arange a b) k = Some (a + Z.of_nat k).
Proof.
  intros H. unfold arange. rewrite nth_error_map.
  rewrite nth_error_nth' with (d := 0%nat) by (rewrite length_seq; lia).
  rewrite seq_nth by lia. reflexivity.
Qed.

(** The plane array of a sub-range: the CRU-1 arrays stop one channel
    before the end of their sub-range. *)
Lemma get_anode_planes_entry anode_id lo hi cru plane :
  In (lo, hi, cru, plane)
     [(0, 476, 0, 0); (476, 952, 1, 0); (952, 1428, 0, 1);
      (1428, 1904, 1, 1); (1904, 2488, 0, 2); (2488, 3072, 1, 2)] ->
  anode_id mod 2 = cru ->
  dict_get Z.eqb plane (get_anode_planes anode_id)
  = Some (arange (lo + 3072 * (anode_id / 2))
                 (hi - cru + 3072 * (anode_id / 2))).
Proof.
  intros Hin Hm. rewrite get_anode_planes_eq. cbv zeta. rewrite Hm.
  simpl in Hin.
  repeat (destruct Hin as [Hin|Hin];
          [injection Hin as <- <- <- <-; reflexivity|]).
  contradiction.
Qed.

(** Every channel, of any sign, is sent to a plane 0, 1 or 2 and to an
    index from 0 to 583 (475 for the planes 0 and 1); the anode is one of
    0..7 exactly for the channels 0..12287. *)
Theorem determine_anode_plane_bounds :
  forall channel,
  exists anode_id plane_id ch_idx,
    determine_anode_plane channel = (anode_id, plane_id, ch_idx) /\
    In plane_id [0; 1; 2] /\
    0 <= ch_idx < 584 /\
    (plane_id <> 2 -> ch_idx < 476) /\
    anode_id / 2 = channel / 3072 /\
    (0 <= anode_id < 8 <-> 0 <= channel < 12288).
Proof.
  intros channel.
  destruct (determine_anode_plane_cases channel)
    as (lo & hi & cru & plane & Hin & Hr & E).
  rewrite E. do 3 eexists. split; [reflexivity|].
  pose proof (Z.div_mod channel 3072 ltac:(lia)) as Hdm.
  pose proof (Z.mod_pos_bound channel 3072 ltac:(lia)) as Hb.
  simpl in Hin.
  repeat (destruct Hin as [Hin|Hin];
          [injection Hin as <- <- <- <-;
           (split; [simpl; tauto|]); (split; [lia|]); (split; [lia|]);
           (split; [apply anode_of_crp_cru; lia | lia])|]).
  contradiction.
Qed.

(** [determine_anode_plane] loses nothing: the channel is the first channel
    of the plane array it names plus the index it returns, so two channels
    with the same result are equal. *)
Theorem determine_anode_plane_injective :
  (forall channel,
      exists anode_id plane_id ch_idx plane_channels first,
        determine_anode_plane channel = (anode_id, plane_id, ch_idx) /\
        dict_get Z.eqb plane_id (get_anode_planes anode_id)
        = Some plane_channels /\
        hd_error plane_channels = Some first /\
        channel = first + ch_idx) /\
  (forall c c',
      determine_anode_plane c = determine_anode_plane c' -> c = c').
Proof.
  assert (G : forall channel,
      exists anode_id plane_id ch_idx plane_channels first,
        determine_anode_plane channel = (anode_id, plane_id, ch_idx) /\
        dict_get Z.eqb plane_id (get_anode_planes anode_id)
        = Some plane_channels /\
        hd_error plane_channels = Some first /\
        channel = first + ch_idx).
  { intros channel.
    destruct (determine_anode_plane_cases channel)
      as (lo & hi & cru & plane & Hin & Hr & E).
    assert (Hcru : 0 <= cru <= 1 /\ lo < hi - cru).
    { simpl in Hin.
      repeat (destruct Hin as [Hin|Hin];
              [injection Hin as <- <- <- <-; lia|]).
      contradiction. }
    destruct (anode_of_crp_cru (channel / 3072) cru (proj1 Hcru))
      as [Hq Hm].
    rewrite E. do 5 eexists. split; [reflexivity|].
    split; [apply (get_anode_planes_entry _ lo hi cru plane Hin Hm)|].
    split; [apply hd_error_arange; lia|].
    rewrite Hq. lia. }
  split; [exact G|].
  intros c c' E.
  destruct (G c) as (a & p & i & chans & first & E1 & L1 & H1 & ->).
  destruct (G c') as (a' & p' & i' & chans' & first' & E2 & L2 & H2 & ->).
  rewrite E1, E2 in E. injection E as <- <- <-.
  congruence.
Qed.

(** For any channel, [determine_anode_plane] names a plane array of the
    anode it returns and a position that is not negative.  The channels
    951, 1903 and 3071 of a CRP are the exception, and the only one: for
    them the index returned is the length of the array named (one past
    its end) and no plane array of the anode holds the channel; for every
    other channel the array named holds the channel at the position
    returned. *)
Theorem determine_anode_plane_position :
  forall channel,
  exists anode_id plane_id ch_idx plane_channels,
    determine_anode_plane channel = (anode_id, plane_id, ch_idx) /\
    dict_get Z.eqb plane_id (get_anode_planes anode_id)
    = Some plane_channels /\
    0 <= ch_idx /\
    ((In (channel mod 3072) [951; 1903; 3071] /\
      ch_idx = Z.of_nat (length plane_channels) /\
      nth_error plane_channels (Z.to_nat ch_idx) = None /\
      ~ In channel (plane_union anode_id)) \/
     (~ In (channel mod 3072) [951; 1903; 3071] /\
      nth_error plane_channels (Z.to_nat ch_idx) = Some channel)).
Proof.
  intros channel.
  destruct (determine_anode_plane_cases channel)
    as (lo & hi & cru & plane & Hin & Hr & E).
  pose proof (Z.div_mod channel 3072 ltac:(lia)) as Hdm.
  assert (Hcru : 0 <= cru <= 1 /\ lo < hi - cru).
  { simpl in Hin.
    repeat (destruct Hin as [Hin|Hin];
            [injection Hin as <- <- <- <-; lia|]).
    contradiction. }
  destruct (anode_of_crp_cru (channel / 3072) cru (proj1 Hcru)) as [Hq Hm].
  rewrite E. do 4 eexists. split; [reflexivity|].
  split; [apply (get_anode_planes_entry _ lo hi cru plane Hin Hm)|].
  split; [lia|].
  rewrite Hq.
  rewrite (Z.mod_eq channel 3072) by lia.
  set (q := channel / 3072) in *.
  destruct (Z_lt_le_dec (channel - 3072 * q) (hi - cru)) as [Hlt|Hge].
  - right. split.
    + simpl in Hin. cbn [In].
      repeat (destruct Hin as [Hin|Hin];
              [injection Hin as <- <- <- <-; lia|]).
      contradiction.
    + rewrite nth_error_arange by lia. f_equal. lia.
  - left.
    assert (Hc1 : cru = 1) by lia. subst cru.
    split; [|split; [|split]].
    + simpl in Hin. cbn [In].
      repeat (destruct Hin as [Hin|Hin];
              [first [ discriminate Hin
                     | injection Hin as <- <- <-; lia ]|]).
      contradiction.
    + rewrite arange_length. lia.
    + apply nth_error_None. rewrite arange_length. lia.
    + unfold plane_union. rewrite get_anode_planes_eq. cbv zeta.
      rewrite Hm, Hq. cbn [Z.eqb flat_map snd]. rewrite app_nil_r.
      rewrite !in_app_iff, !arange_In.
      simpl in Hin.
      repeat (destruct Hin as [Hin|Hin];
              [first [ discriminate Hin
                     | injection Hin as <- <- <-; lia ]|]).
      contradiction.
Qed.

Lemma get_anode_channels_In n channel :
  In channel (get_anode_channels n)
  <-> fst (fst (determine_anode_plane channel)) = n.
Proof.
  destruct (determine_anode_plane_cases channel)
    as (lo & hi & cru & plane & Hin & Hr & E).
  rewrite E. cbn [fst].
  pose proof (Z.div_mod n 2 ltac:(lia)) as Hn.
  pose proof (Z.mod_pos_bound n 2 ltac:(lia)) as Hnb.
  rewrite get_anode_channels_eq. cbv zeta.
  set (q := channel / 3072) in *. set (m := n / 2) in *.
  destruct (Z.eqb_spec (n mod 2) 0) as [Hk|Hk];
    rewrite !in_app_iff, !arange_In; simpl in Hin;
    repeat (destruct Hin as [Hin|Hin];
            [injection Hin as <- <- <- <-; lia|]);
    contradiction.
Qed.

(** A channel is in the sequence of anode [n] exactly when
    [determine_anode_plane] sends it to anode [n], for every integer [n]
    and channel. *)
Theorem get_anode_channels_iff_determined :
  forall n channel,
    In channel (get_anode_channels n)
    <-> fst (fst (determine_anode_plane channel)) = n.
Proof. exact get_anode_channels_In. Qed.

(** The three plane arrays of any anode: 476, 476 and 584 channels for an
    even anode, 475, 475 and 583 for an odd one; no channel occurs twice
    within or across them, and all lie in the anode's CRP. *)
Theorem get_anode_planes_sizes_disjoint :
  forall anode_id,
  exists u v w,
    get_anode_planes anode_id = [(0, u); (1, v); (2, w)] /\
    (length u, length v, length w)
    = (if Z.even anode_id then (476, 476, 584) else (475, 475, 583))%nat /\
    NoDup (u ++ v ++ w) /\
    forall c, In c (u ++ v ++ w) ->
              3072 * (anode_id / 2) <= c < 3072 * (anode_id / 2) + 3072.
Proof.
  intros anode_id.
  assert (He : (anode_id mod 2 =? 0) = Z.even anode_id)
    by (rewrite Zeven_mod; reflexivity).
  rewrite get_anode_planes_eq. cbv zeta. rewrite He.
  set (off := 3072 * (anode_id / 2)). clearbody off.
  destruct (Z.even anode_id); do 3 eexists;
    (split; [reflexivity|]); rewrite !arange_length;
    (split; [f_equal; [f_equal|]; lia|]);
    (split;
     [ apply StronglySorted_lt_NoDup;
       repeat apply StronglySorted_lt_app; try apply arange_sorted;
       intros x y Hx Hy; rewrite ?in_app_iff, ?arange_In in *; lia
     | intros c; rewrite !in_app_iff, !arange_In; lia ]).
Qed.

Lemma get_all_anodes_channels_get n :
  dict_get Z.eqb n get_all_anodes_channels
  = if (0 <=? n) && (n <? 8) then Some (get_anode_channels n) else None.
Proof.
  unfold get_all_anodes_channels.
  change (arange 0 8) with [0; 1; 2; 3; 4; 5; 6; 7].
  cbn [map dict_get].
  repeat match goal with
         | |- context [Z.eqb n ?k] =>
             destruct (Z.eqb_spec n k) as [->|?]; [reflexivity|]
         end.
  destruct (Z.leb_spec 0 n); destruct (Z.ltb_spec n 8);
    try reflexivity; lia.
Qed.

(** [get_all_anodes_channels] has the keys 0..7, and every channel of
    0..12287 is in the sequence of exactly one of them; the sequences hold
    no other channel. *)
Theorem get_all_anodes_channels_partition :
  (forall n,
      dict_get Z.eqb n get_all_anodes_channels <> None <-> 0 <= n < 8) /\
  (forall channel,
      0 <= channel < 12288 <->
      exists n chans,
        dict_get Z.eqb n get_all_anodes_channels = Some chans /\
        In channel chans) /\
  (forall channel n n' chans chans',
      dict_get Z.eqb n get_all_anodes_channels = Some chans ->
      dict_get Z.eqb n' get_all_anodes_channels = Some chans' ->
      In channel chans -> In channel chans' -> n = n').
Proof.
  assert (G : forall n chans,
             dict_get Z.eqb n get_all_anodes_channels = Some chans ->
             0 <= n < 8 /\ chans = get_anode_channels n).
  { intros n chans. rewrite get_all_anodes_channels_get.
    destruct (Z.leb_spec 0 n); destruct (Z.ltb_spec n 8); cbn [andb];
      intros E; try discriminate E. injection E as <-. split; [lia|auto]. }
  split; [|split].
  - intros n. rewrite get_all_anodes_channels_get.
    destruct (Z.leb_spec 0 n); destruct (Z.ltb_spec n 8); cbn [andb];
      split; intros H1; try lia; try discriminate; try congruence.
  - intros channel.
    destruct (determine_anode_plane_cases channel)
      as (lo & hi & cru & plane & Hin & Hr & E).
    assert (Hcru : 0 <= cru <= 1).
    { simpl in Hin.
      repeat (destruct Hin as [Hin|Hin];
              [injection Hin as <- <- <- <-; lia|]).
      contradiction. }
    pose proof (Z.div_mod channel 3072 ltac:(lia)) as Hdm.
    pose proof (Z.mod_pos_bound channel 3072 ltac:(lia)) as Hmb.
    split.
    + intros Hc. exists (channel / 3072 * 2 + cru). eexists.
      rewrite get_all_anodes_channels_get.
      destruct (Z.leb_spec 0 (channel / 3072 * 2 + cru)); [|lia].
      destruct (Z.ltb_spec (channel / 3072 * 2 + cru) 8); [|lia].
      cbn [andb]. split; [reflexivity|].
      apply get_anode_channels_In. now rewrite E.
    + intros (n & chans & Hg & Hc). apply G in Hg. destruct Hg as [Hn ->].
      apply get_anode_channels_In in Hc. rewrite E in Hc. cbn [fst] in Hc.
      lia.
  - intros channel n n' chans chans' Hg Hg' Hc Hc'.
    apply G in Hg. apply G in Hg'.
    destruct Hg as [_ ->]. destruct Hg' as [_ ->].
    apply get_anode_channels_In in Hc. apply get_anode_channels_In in Hc'.
    congruence.
Qed.

(* ================================================================= *)
(** ** More on [rebin_sum] *)

Lemma zsum_concat l1 l2 : zsum (l1 ++ l2) = zsum l1 + zsum l2.
Proof. induction l1; simpl; lia. Qed.

Lemma zsum_tabulate2 n0 n1 f :
  zsum (tabulate2 n0 n1 f)
  = zsum (map (fun i => zsum (map (f i) (seq 0 n1))) (seq 0 n0)).
Proof.
  unfold tabulate2. induction (seq 0 n0) as [|i l IH]; simpl; [reflexivity|].
  now rewrite zsum_concat, IH.
Qed.

Lemma zsum_map_seq_shift (g : nat -> Z) s n :
  zsum (map g (seq s n)) = zsum (map (fun r => g (s + r)%nat) (seq 0 n)).
Proof.
  revert g s. induction n as [|n IH]; intros g s; simpl; [reflexivity|].
  rewrite (IH g (S s)), (IH (fun r => g (s + r)%nat) 1%nat).
  rewrite Nat.add_0_r. f_equal.
  apply zsum_map_ext_in. intros r _. f_equal. lia.
Qed.

(** A sum over [N * c] consecutive indices, taken in [N] runs of [c]. *)
Lemma zsum_seq_mul (g : nat -> Z) N c :
  zsum (map (fun i => zsum (map (fun r => g (i * c + r)%nat) (seq 0 c)))
            (seq 0 N))
  = zsum (map g (seq 0 (N * c))).
Proof.
  induction N as [|N IH].
  - reflexivity.
  - rewrite seq_S, map_app, zsum_concat, IH. cbn [map zsum Nat.add].
    replace (S N * c)%nat with (N * c + c)%nat by lia.
    rewrite seq_app, map_app, zsum_concat. cbn [Nat.add].
    rewrite (zsum_map_seq_shift g (N * c) c).
    unfold zsum. cbn [fold_right]. lia.
Qed.

(** A well-formed buffer read cell by cell is the buffer. *)
Lemma tabulate2_get2 n0 n1 (buf : list Z) :
  length buf = (n0 * n1)%nat ->
  tabulate2 n0 n1 (fun i j => nth (i * n1 + j) buf 0) = buf.
Proof.
  intros H. apply nth_ext with (d := 0) (d' := 0).
  - now rewrite tabulate2_length.
  - rewrite tabulate2_length. intros k Hk.
    assert (Hn1 : (0 < n1)%nat) by nia.
    pose proof (Nat.div_mod_eq k n1) as Hdm.
    pose proof (Nat.mod_upper_bound k n1 ltac:(lia)) as Hm.
    assert (Hq : (k / n1 < n0)%nat).
    { apply Nat.Div0.div_lt_upper_bound. lia. }
    replace k with (k / n1 * n1 + k mod n1)%nat at 1 by lia.
    rewrite tabulate2_nth by assumption.
    f_equal. lia.
Qed.

Lemma wf2_eta data :
  wf2 data ->
  mk2 (dim0 data) (dim1 data) (tabulate2 (dim0 data) (dim1 data) (get2 data))
  = data.
Proof.
  destruct data as [n0 n1 buf]. unfold wf2, get2. cbn [dim0 dim1 buf2].
  intros H. now rewrite tabulate2_get2.
Qed.

(** The total of the result of [rebin_sum], as a sum over the rows and
    columns of the complete blocks. *)
Lemma rebin_sum_total data t c :
  zsum (tabulate2 (dim0 data / c) (dim1 data / t)
          (fun i j =>
             zsum (map (fun k =>
                          zsum (map (fun r =>
                                       get2 data (i * c + r) (j * t + k))
                                    (seq 0 c)))
                       (seq 0 t))))
  = zsum (tabulate2 (dim0 data / c * c) (dim1 data / t * t) (get2 data)).
Proof.
  rewrite !zsum_tabulate2.
  rewrite <- (zsum_seq_mul
                (fun row => zsum (map (get2 data row)
                                      (seq 0 (dim1 data / t * t))))
                (dim0 data / c) c).
  apply zsum_map_ext_in. intros i _.
  rewrite (zsum_seq_mul
             (fun col => zsum (map (fun r => get2 data (i * c + r) col)
                                   (seq 0 c)))
             (dim1 data / t) t).
  rewrite (zsum_swap (fun col r => get2 data (i * c + r) col)).
  reflexivity.
Qed.

(** The exact sum of a block, as [rebin_sum] takes it and as the
    specification words it. *)
Lemma block_sum_truncate data t c i j :
  (0 < t)%nat -> (0 < c)%nat ->
  (i < dim0 data / c)%nat -> (j < dim1 data / t)%nat ->
  zsum (map (fun k =>
               zsum (map (fun r => get2 data (i * c + r) (j * t + k))
                         (seq 0 c)))
            (seq 0 t))
  = block_sum (truncate data (dim0 data / c * c) (dim1 data / t * t))
              t c i j.
Proof.
  intros Ht Hc Hi Hj. unfold block_sum.
  rewrite (zsum_swap (fun k r => get2 data (i * c + r) (j * t + k))).
  apply zsum_map_ext_in. intros r Hr. apply in_seq in Hr.
  apply zsum_map_ext_in. intros k Hk. apply in_seq in Hk.
  unfold truncate. rewrite get2_mk2_tabulate; [reflexivity| |].
  - apply (block_index_bound (dim0 data)); lia.
  - apply (block_index_bound (dim1 data)); lia.
Qed.

Lemma tabulate2_map (h : Z -> Z) n0 n1 f :
  tabulate2 n0 n1 (fun i j => h (f i j)) = map h (tabulate2 n0 n1 f).
Proof.
  unfold tabulate2. induction (seq 0 n0) as [|i l IH]; simpl;
    [reflexivity|].
  now rewrite map_app, map_map, IH.
Qed.

(** With both factors 1, [rebin_sum] returns its input. *)
Theorem rebin_sum_identity :
  forall data, wf2 data -> rebin_sum data 1 1 = Ok data.
Proof.
  intros data Hwf.
  change 1 with (Z.of_nat 1). rewrite rebin_sum_pos by lia.
  rewrite !Nat.div_1_r. f_equal.
  transitivity (mk2 (dim0 data) (dim1 data)
                    (tabulate2 (dim0 data) (dim1 data) (get2 data)));
    [|now apply wf2_eta].
  f_equal. apply tabulate2_ext. intros i j _ _.
  cbn [seq map]. rewrite !np_sum_single.
  now rewrite !Nat.mul_1_r, !Nat.add_0_r.
Qed.

Lemma rebin_sum_identity_witness :
  wf2 ex_data_1st /\ rebin_sum ex_data_1st 1 1 = Ok ex_data_1st.
Proof.
  split; [reflexivity|]. apply (rebin_sum_identity ex_data_1st). reflexivity.
Defined.

(** On a frame of a signed integer dtype [rebin_sum] keeps the total of
    the complete blocks modulo 2^64: the cells of the result and the
    cells of the truncated input add up to integers that wrap around to
    the same [int64] value, and to the same integer when no block sum
    overflows [int64].  The truncated input is the whole input when the
    factors divide its shape. *)
Theorem rebin_sum_preserves_total :
  forall d data rebin_time rebin_channel,
    0 < rebin_time -> 0 < rebin_channel ->
    frame_of d data ->
    let rt := Z.to_nat rebin_time in
    let rc := Z.to_nat rebin_channel in
    let complete :=
      truncate data (dim0 data / rc * rc) (dim1 data / rt * rt) in
    exists out,
      rebin_sum data rebin_time rebin_channel = Ok out /\
      wrap Int64 (zsum (buf2 out)) = wrap Int64 (zsum (buf2 complete)) /\
      ((forall i j,
           (i < dim0 out)%nat -> (j < dim1 out)%nat ->
           in_dtype Int64 (block_sum complete rt rc i j)) ->
       zsum (buf2 out) = zsum (buf2 complete)) /\
      (wf2 data ->
       Z.of_nat (dim0 data) mod rebin_channel = 0 ->
       Z.of_nat (dim1 data) mod rebin_time = 0 ->
       complete = data).
Proof.
  intros d data rebin_time rebin_channel Ht Hc Hd rt rc complete.
  apply frame_of_int64 in Hd.
  assert (Et : rebin_time = Z.of_nat rt) by (unfold rt; lia).
  assert (Ec : rebin_channel = Z.of_nat rc) by (unfold rc; lia).
  assert (Ht' : (0 < rt)%nat) by lia.
  assert (Hc' : (0 < rc)%nat) by lia.
  rewrite Et, Ec, rebin_sum_int64 by assumption.
  eexists. split; [reflexivity|]. cbn [buf2 dim0 dim1].
  unfold complete. cbn [truncate buf2].
  split; [|split].
  - rewrite (tabulate2_map (wrap Int64)), wrap_zsum_wrap.
    now rewrite rebin_sum_total.
  - intros Hin. rewrite <- rebin_sum_total. f_equal.
    apply tabulate2_ext. intros i j Hi Hj.
    rewrite block_sum_truncate by assumption.
    apply wrap_id. now apply Hin.
  - intros Hwf H0 H1.
    rewrite <- Nat2Z.inj_mod in H0, H1.
    assert (E0 : (dim0 data / rc * rc = dim0 data)%nat).
    { pose proof (Nat.div_mod_eq (dim0 data) rc). lia. }
    assert (E1 : (dim1 data / rt * rt = dim1 data)%nat).
    { pose proof (Nat.div_mod_eq (dim1 data) rt). lia. }
    rewrite E0, E1. now apply wf2_eta.
Qed.

Lemma rebin_sum_preserves_total_witness :
  0 < 2 /\ 0 < 3 /\ frame_of Int8 (mk2 7 5 (arange 0 35)) /\
  exists out,
    rebin_sum (mk2 7 5 (arange 0 35)) 2 3 = Ok out /\
    wrap Int64 (zsum (buf2 out))
    = wrap Int64 (zsum (buf2 (truncate (mk2 7 5 (arange 0 35)) 6 4))) /\
    ((forall i j,
         (i < dim0 out)%nat -> (j < dim1 out)%nat ->
         in_dtype Int64
           (block_sum (truncate (mk2 7 5 (arange 0 35)) 6 4) 2 3 i j)) ->
     zsum (buf2 out) = zsum (buf2 (truncate (mk2 7 5 (arange 0 35)) 6 4)))
    /\
    (wf2 (mk2 7 5 (arange 0 35)) ->
     7 mod 3 = 0 -> 5 mod 2 = 0 ->
     truncate (mk2 7 5 (arange 0 35)) 6 4 = mk2 7 5 (arange 0 35)).
Proof.
  assert (Hf : frame_of Int8 (mk2 7 5 (arange 0 35))).
  { unfold frame_of. cbn [buf2]. apply Forall_forall. intros x Hx.
    apply arange_In in Hx. unfold in_dtype. simpl. lia. }
  split; [lia|]. split; [lia|]. split; [exact Hf|].
  exact (rebin_sum_preserves_total Int8 (mk2 7 5 (arange 0 35)) 2 3
           eq_refl eq_refl Hf).
Defined.

(** On a frame of a signed integer dtype, rebinning twice is rebinning
    once with the products of the factors, wrap-around included. *)
Theorem rebin_sum_compose :
  forall d data t1 c1 t2 c2,
    0 < t1 -> 0 < c1 -> 0 < t2 -> 0 < c2 ->
    frame_of d data ->
    exists mid out,
      rebin_sum data t1 c1 = Ok mid /\
      rebin_sum mid t2 c2 = Ok out /\
      rebin_sum data (t1 * t2) (c1 * c2) = Ok out.
Proof.
  intros d data t1 c1 t2 c2 Ht1 Hc1 Ht2 Hc2 Hd.
  apply frame_of_int64 in Hd.
  assert (E : forall z, 0 < z -> z = Z.of_nat (Z.to_nat z)) by (intros; lia).
  rewrite (E t1 Ht1), (E c1 Hc1), (E t2 Ht2), (E c2 Hc2).
  set (a := Z.to_nat t1). set (b := Z.to_nat c1).
  set (a' := Z.to_nat t2). set (b' := Z.to_nat c2).
  assert (Ha : (0 < a)%nat) by (unfold a; lia).
  assert (Hb : (0 < b)%nat) by (unfold b; lia).
  assert (Ha' : (0 < a')%nat) by (unfold a'; lia).
  assert (Hb' : (0 < b')%nat) by (unfold b'; lia).
  clearbody a b a' b'. clear E Ht1 Hc1 Ht2 Hc2.
  rewrite <- !Nat2Z.inj_mul.
  rewrite (rebin_sum_int64 data a b),
    (rebin_sum_int64 data (a * a') (b * b')) by (assumption || nia).
  do 2 eexists. split; [reflexivity|].
  rewrite rebin_sum_int64;
    [| assumption | assumption
     | unfold frame_of; cbn [buf2]; apply tabulate2_Forall;
       intros; apply wrap_in].
  cbn [dim0 dim1].
  split; [reflexivity|].
  rewrite !Nat.Div0.div_div. f_equal. f_equal. symmetry.
  apply tabulate2_ext. intros i j Hi Hj.
  rewrite <- !Nat.Div0.div_div in Hi, Hj.
  (* the cells of the intermediate array, without their wrap-around *)
  transitivity
    (wrap Int64
       (zsum (map (fun k2 =>
          zsum (map (fun r2 =>
            zsum (map (fun k1 =>
              zsum (map (fun r1 =>
                get2 data ((i * b' + r2) * b + r1) ((j * a' + k2) * a + k1))
                (seq 0 b))) (seq 0 a))) (seq 0 b'))) (seq 0 a')))).
  { apply wrap_zsum_map. intros k2 Hk2. apply in_seq in Hk2.
    apply wrap_zsum_map. intros r2 Hr2. apply in_seq in Hr2.
    rewrite get2_mk2_tabulate; [apply wrap_wrap| |].
    - pose proof (block_index_bound (dim0 data / b) b' i r2). lia.
    - pose proof (block_index_bound (dim1 data / a) a' j k2). lia. }
  f_equal.
  (* the time sum of the product factor, in runs of [a] *)
  rewrite (Nat.mul_comm a a'), (Nat.mul_comm b b').
  rewrite <- (zsum_seq_mul
                (fun k => zsum (map (fun r =>
                   get2 data (i * (b' * b) + r) (j * (a' * a) + k))
                   (seq 0 (b' * b)))) a' a).
  apply zsum_map_ext_in. intros k2 _.
  rewrite (zsum_swap (fun r2 k1 =>
             zsum (map (fun r1 =>
               get2 data ((i * b' + r2) * b + r1) ((j * a' + k2) * a + k1))
               (seq 0 b)))).
  apply zsum_map_ext_in. intros k1 _.
  rewrite <- (zsum_seq_mul
                (fun r => get2 data (i * (b' * b) + r)
                               (j * (a' * a) + (k2 * a + k1))) b' b).
  apply zsum_map_ext_in. intros r2 _.
  apply zsum_map_ext_in. intros r1 _.
  f_equal; nia.
Qed.

Lemma rebin_sum_compose_witness :
  0 < 2 /\ 0 < 1 /\ 0 < 1 /\ 0 < 3 /\
  frame_of Int8 (mk2 7 5 (arange 0 35)) /\
  exists mid out,
    rebin_sum (mk2 7 5 (arange 0 35)) 2 1 = Ok mid /\
    rebin_sum mid 1 3 = Ok out /\
    rebin_sum (mk2 7 5 (arange 0 35)) (2 * 1) (1 * 3) = Ok out.
Proof.
  assert (Hf : frame_of Int8 (mk2 7 5 (arange 0 35))).
  { unfold frame_of. cbn [buf2]. apply Forall_forall. intros x Hx.
    apply arange_In in Hx. unfold in_dtype. simpl. lia. }
  repeat (split; [lia|]). split; [exact Hf|].
  exact (rebin_sum_compose Int8 (mk2 7 5 (arange 0 35)) 2 1 1 3
           eq_refl eq_refl eq_refl eq_refl Hf).
Defined.

(* ================================================================= *)
(** ** More on [rebin_track_first_second] *)

Lemma div_pos_neg a b : 0 < a -> b < 0 -> a / b < 0.
Proof.
  intros Ha Hb.
  pose proof (Z.div_mod a b ltac:(lia)).
  pose proof (Z.mod_neg_bound a b Hb).
  nia.
Qed.

(** The pairs of a block are the positive charges of its cells, each with
    the label stored beside it. *)
Lemma In_block_pairs data_1st data_2nd charge_1st charge_2nd rt rc i j q l :
  In (q, l) (block_pairs data_1st data_2nd charge_1st charge_2nd rt rc i j)
  <-> exists ch tick,
        (i * rc <= ch < i * rc + rc)%nat /\
        (j * rt <= tick < j * rt + rt)%nat /\
        0 < q /\
        ((q = get2 charge_1st ch tick /\ l = get2 data_1st ch tick) \/
         (q = get2 charge_2nd ch tick /\ l = get2 data_2nd ch tick)).
Proof.
  unfold block_pairs. rewrite in_flat_map. split.
  - intros (ch & Hch & H). apply in_seq in Hch.
    apply in_flat_map in H. destruct H as (tick & Htick & H).
    apply in_seq in Htick. exists ch, tick.
    split; [lia|]. split; [lia|].
    unfold cell_pairs in H. apply in_app_or in H.
    destruct H as [H|H];
      [ destruct (Z.gtb_spec (get2 charge_1st ch tick) 0)
      | destruct (Z.gtb_spec (get2 charge_2nd ch tick) 0) ];
      simpl in H; try contradiction;
      destruct H as [H|[]]; injection H as <- <-;
      (split; [lia|]); [left | right]; split; reflexivity.
  - intros (ch & tick & Hch & Htick & Hq & H).
    exists ch. split; [apply in_seq; lia|].
    apply in_flat_map. exists tick. split; [apply in_seq; lia|].
    unfold cell_pairs. apply in_or_app.
    destruct H as [[-> ->]|[-> ->]]; [left | right];
      match goal with
      | |- context [?x >? 0] => destruct (Z.gtb_spec x 0); [|lia]
      end; simpl; auto.
Qed.

(** The stable sort puts first the first pair of largest charge. *)
Lemma sort_desc_head pre x post :
  Forall (fun p => fst p < fst x) pre ->
  Forall (fun p => fst p <= fst x) post ->
  exists rest, sort_desc (pre ++ x :: post) = x :: rest.
Proof.
  intros Hpre Hpost. induction Hpre as [|p pre Hp Hpre IH].
  - cbn [app]. unfold sort_desc. cbn [fold_right].
    fold (sort_desc post).
    assert (Hs : Forall (fun p => fst p <= fst x) (sort_desc post)).
    { eapply Permutation_Forall; [apply sort_desc_perm | exact Hpost]. }
    destruct (sort_desc post) as [|y t]; cbn [insert_desc];
      [eexists; reflexivity|].
    inversion Hs; subst.
    destruct (Z.leb_spec (fst y) (fst x)); [eexists; reflexivity | lia].
  - destruct IH as [rest E]. cbn [app]. unfold sort_desc in *.
    cbn [fold_right]. rewrite E. cbn [insert_desc].
    destruct (Z.leb_spec (fst x) (fst p)); [lia | eexists; reflexivity].
Qed.

(** With a factor that is not positive and a non-empty input shape,
    [rebin_track_first_second] raises: ZeroDivisionError for a zero factor,
    ValueError (from np.zeros) for a negative one. *)
Theorem rebin_track_first_second_nonpositive_factor :
  forall data_1st data_2nd charge_1st charge_2nd rebin_time rebin_channel,
    rebin_time <= 0 \/ rebin_channel <= 0 ->
    (0 < dim0 data_1st)%nat -> (0 < dim1 data_1st)%nat ->
    rebin_track_first_second data_1st data_2nd charge_1st charge_2nd
                             rebin_time rebin_channel
    = Raise (if (rebin_time =? 0) || (rebin_channel =? 0)
             then ZeroDivisionError else ValueError).
Proof.
  intros d1 d2 c1 c2 rt rc Hf H0 H1.
  unfold rebin_track_first_second, floordiv.
  destruct (Z.eqb_spec rc 0) as [->|Hrc]; [now rewrite orb_true_r|].
  cbn [rbind]. destruct (Z.eqb_spec rt 0) as [->|Hrt]; [reflexivity|].
  cbn [rbind orb]. unfold np_zeros.
  replace ((Z.of_nat (dim0 d1) / rc <? 0) || (Z.of_nat (dim1 d1) / rt <? 0))
    with true; [reflexivity|].
  symmetry. apply orb_true_iff.
  destruct (Z_lt_le_dec rc 0).
  - left. apply Z.ltb_lt. apply div_pos_neg; lia.
  - right. apply Z.ltb_lt. apply div_pos_neg; lia.
Qed.

Lemma rebin_track_first_second_nonpositive_factor_witness :
  (-1 <= 0 \/ 2 <= 0) /\
  (0 < dim0 ex_data_1st)%nat /\ (0 < dim1 ex_data_1st)%nat /\
  rebin_track_first_second ex_data_1st ex_data_2nd
                           ex_charge_1st ex_charge_2nd (-1) 2
  = Raise ValueError.
Proof.
  split; [left; lia|]. split; [simpl; lia|]. split; [simpl; lia|].
  apply (rebin_track_first_second_nonpositive_factor
           ex_data_1st ex_data_2nd ex_charge_1st ex_charge_2nd (-1) 2);
    [left; lia | simpl; lia | simpl; lia].
Defined.

(** In a block that holds a positive charge, the 1st output is the label
    stored at a cell of the block, in the 1st or the 2nd array, whose
    charge is positive and at least every charge of the block. *)
Theorem rebin_track_first_second_largest_charge :
  forall data_1st data_2nd charge_1st charge_2nd rebin_time rebin_channel,
    shape2 data_2nd = shape2 data_1st ->
    shape2 charge_1st = shape2 data_1st ->
    shape2 charge_2nd = shape2 data_1st ->
    0 < rebin_time -> 0 < rebin_channel ->
    let rt := Z.to_nat rebin_time in
    let rc := Z.to_nat rebin_channel in
    exists out_1st out_2nd,
      rebin_track_first_second data_1st data_2nd charge_1st charge_2nd
                               rebin_time rebin_channel
      = Ok (out_1st, out_2nd) /\
      forall i j ch tick,
        (i < dim0 out_1st)%nat -> (j < dim1 out_1st)%nat ->
        (i * rc <= ch < i * rc + rc)%nat ->
        (j * rt <= tick < j * rt + rt)%nat ->
        0 < get2 charge_1st ch tick \/ 0 < get2 charge_2nd ch tick ->
        exists ch' tick' q,
          (i * rc <= ch' < i * rc + rc)%nat /\
          (j * rt <= tick' < j * rt + rt)%nat /\
          0 < q /\
          ((q = get2 charge_1st ch' tick' /\
            get2 out_1st i j = get2 data_1st ch' tick') \/
           (q = get2 charge_2nd ch' tick' /\
            get2 out_1st i j = get2 data_2nd ch' tick')) /\
          forall ch'' tick'',
            (i * rc <= ch'' < i * rc + rc)%nat ->
            (j * rt <= tick'' < j * rt + rt)%nat ->
            get2 charge_1st ch'' tick'' <= q /\
            get2 charge_2nd ch'' tick'' <= q.
Proof.
  intros data_1st data_2nd charge_1st charge_2nd rebin_time rebin_channel
         Hs2 Hc1 Hc2 Ht Hc rt rc.
  assert (Et : rebin_time = Z.of_nat rt) by (unfold rt; lia).
  assert (Ec : rebin_channel = Z.of_nat rc) by (unfold rc; lia).
  destruct (rebin_track_first_second_pos data_1st data_2nd charge_1st
              charge_2nd rt rc Hs2 Hc1 Hc2 ltac:(lia) ltac:(lia))
    as (o1 & o2 & E & S1 & S2 & _ & _ & Hcells).
  exists o1, o2. rewrite Et, Ec. split; [exact E|].
  unfold shape2 in S1. injection S1 as D0 D1.
  intros i j ch tick Hi Hj Hch Htick Hpos.
  rewrite D0 in Hi. rewrite D1 in Hj.
  destruct (Hcells i j Hi Hj) as [G1 _]. rewrite G1.
  set (pairs := block_pairs data_1st data_2nd charge_1st charge_2nd rt rc i j).
  assert (Hne : exists p0, In p0 pairs).
  { destruct Hpos as [Hp|Hp]; eexists; apply In_block_pairs;
      exists ch, tick; (split; [exact Hch|]); (split; [exact Htick|]);
      (split; [exact Hp|]); [left | right]; split; reflexivity. }
  pose proof (sort_desc_perm pairs) as Hperm.
  pose proof (sort_desc_sorted pairs) as Hsorted.
  destruct (sort_desc pairs) as [|[q l] rest] eqn:Es.
  { destruct Hne as [p0 Hp0].
    apply (Permutation_in _ Hperm) in Hp0. contradiction. }
  assert (Hin : In (q, l) pairs).
  { apply (Permutation_in _ (Permutation_sym Hperm)). simpl; auto. }
  assert (Hmax : forall p, In p pairs -> fst p <= q).
  { intros p Hp. apply (Permutation_in _ Hperm) in Hp.
    apply StronglySorted_inv in Hsorted. destruct Hsorted as [_ Hall].
    destruct Hp as [<-|Hp]; [simpl; lia|].
    rewrite Forall_forall in Hall. apply (Hall p Hp). }
  apply In_block_pairs in Hin.
  destruct Hin as (ch' & tick' & Hch' & Htick' & Hq & Hsrc).
  exists ch', tick', q. cbn [first_label snd].
  split; [exact Hch'|]. split; [exact Htick'|]. split; [exact Hq|].
  split; [exact Hsrc|].
  intros ch'' tick'' Hch'' Htick''.
  split.
  - destruct (Z_lt_le_dec 0 (get2 charge_1st ch'' tick'')) as [Hp|Hp];
      [|lia].
    apply (Hmax (get2 charge_1st ch'' tick'', get2 data_1st ch'' tick'')).
    apply In_block_pairs. exists ch'', tick''.
    split; [exact Hch''|]. split; [exact Htick''|]. split; [exact Hp|].
    left; split; reflexivity.
  - destruct (Z_lt_le_dec 0 (get2 charge_2nd ch'' tick'')) as [Hp|Hp];
      [|lia].
    apply (Hmax (get2 charge_2nd ch'' tick'', get2 data_2nd ch'' tick'')).
    apply In_block_pairs. exists ch'', tick''.
    split; [exact Hch''|]. split; [exact Htick''|]. split; [exact Hp|].
    right; split; reflexivity.
Qed.

Lemma rebin_track_first_second_largest_charge_witness :
  shape2 ex_data_2nd = shape2 ex_data_1st /\
  shape2 ex_charge_1st = shape2 ex_data_1st /\
  shape2 ex_charge_2nd = shape2 ex_data_1st /\
  0 < 1 /\ 0 < 2 /\
  exists out_1st out_2nd,
    rebin_track_first_second ex_data_1st ex_data_2nd
                             ex_charge_1st ex_charge_2nd 1 2
    = Ok (out_1st, out_2nd) /\
    forall i j ch tick,
      (i < dim0 out_1st)%nat -> (j < dim1 out_1st)%nat ->
      (i * 2 <= ch < i * 2 + 2)%nat ->
      (j * 1 <= tick < j * 1 + 1)%nat ->
      0 < get2 ex_charge_1st ch tick \/ 0 < get2 ex_charge_2nd ch tick ->
      exists ch' tick' q,
        (i * 2 <= ch' < i * 2 + 2)%nat /\
        (j * 1 <= tick' < j * 1 + 1)%nat /\
        0 < q /\
        ((q = get2 ex_charge_1st ch' tick' /\
          get2 out_1st i j = get2 ex_data_1st ch' tick') \/
         (q = get2 ex_charge_2nd ch' tick' /\
          get2 out_1st i j = get2 ex_data_2nd ch' tick')) /\
        forall ch'' tick'',
          (i * 2 <= ch'' < i * 2 + 2)%nat ->
          (j * 1 <= tick'' < j * 1 + 1)%nat ->
          get2 ex_charge_1st ch'' tick'' <= q /\
          get2 ex_charge_2nd ch'' tick'' <= q.
Proof.
  split; [reflexivity|]. split; [reflexivity|]. split; [reflexivity|].
  split; [lia|]. split; [lia|].
  apply (rebin_track_first_second_largest_charge
           ex_data_1st ex_data_2nd ex_charge_1st ex_charge_2nd 1 2);
    first [reflexivity | lia].
Defined.

(** Ties are broken by the order of collection: when the pairs of a block,
    in row-major order with the 1st pair of a cell before its 2nd, have
    their largest charge first reached at some pair, the 1st output is
    that pair's label. *)
Theorem rebin_track_first_second_first_of_ties :
  forall data_1st data_2nd charge_1st charge_2nd rebin_time rebin_channel,
    shape2 data_2nd = shape2 data_1st ->
    shape2 charge_1st = shape2 data_1st ->
    shape2 charge_2nd = shape2 data_1st ->
    0 < rebin_time -> 0 < rebin_channel ->
    exists out_1st out_2nd,
      rebin_track_first_second data_1st data_2nd charge_1st charge_2nd
                               rebin_time rebin_channel
      = Ok (out_1st, out_2nd) /\
      forall i j pre q l post,
        (i < dim0 out_1st)%nat -> (j < dim1 out_1st)%nat ->
        block_pairs data_1st data_2nd charge_1st charge_2nd
                    (Z.to_nat rebin_time) (Z.to_nat rebin_channel) i j
        = pre ++ (q, l) :: post ->
        Forall (fun p => fst p < q) pre ->
        Forall (fun p => fst p <= q) post ->
        get2 out_1st i j = l.
Proof.
  intros data_1st data_2nd charge_1st charge_2nd rebin_time rebin_channel
         Hs2 Hc1 Hc2 Ht Hc.
  set (rt := Z.to_nat rebin_time). set (rc := Z.to_nat rebin_channel).
  assert (Et : rebin_time = Z.of_nat rt) by (unfold rt; lia).
  assert (Ec : rebin_channel = Z.of_nat rc) by (unfold rc; lia).
  destruct (rebin_track_first_second_pos data_1st data_2nd charge_1st
              charge_2nd rt rc Hs2 Hc1 Hc2 ltac:(lia) ltac:(lia))
    as (o1 & o2 & E & S1 & S2 & _ & _ & Hcells).
  exists o1, o2. rewrite Et, Ec. split; [exact E|].
  unfold shape2 in S1. injection S1 as D0 D1.
  intros i j pre q l post Hi Hj Hp Hpre Hpost.
  rewrite D0 in Hi. rewrite D1 in Hj.
  destruct (Hcells i j Hi Hj) as [G1 _]. rewrite G1, Hp.
  destruct (sort_desc_head pre (q, l) post Hpre Hpost) as [rest ->].
  reflexivity.
Qed.

Lemma rebin_track_first_second_first_of_ties_witness :
  shape2 ex_data_2nd = shape2 ex_data_1st /\
  shape2 ex_charge_1st = shape2 ex_data_1st /\
  shape2 ex_charge_2nd = shape2 ex_data_1st /\
  0 < 1 /\ 0 < 2 /\
  exists out_1st out_2nd,
    rebin_track_first_second ex_data_1st ex_data_2nd
                             ex_charge_1st ex_charge_2nd 1 2
    = Ok (out_1st, out_2nd) /\
    forall i j pre q l post,
      (i < dim0 out_1st)%nat -> (j < dim1 out_1st)%nat ->
      block_pairs ex_data_1st ex_data_2nd ex_charge_1st ex_charge_2nd
                  (Z.to_nat 1) (Z.to_nat 2) i j
      = pre ++ (q, l) :: post ->
      Forall (fun p => fst p < q) pre ->
      Forall (fun p => fst p <= q) post ->
      get2 out_1st i j = l.
Proof.
  split; [reflexivity|]. split; [reflexivity|]. split; [reflexivity|].
  split; [lia|]. split; [lia|].
  apply (rebin_track_first_second_first_of_ties
           ex_data_1st ex_data_2nd ex_charge_1st ex_charge_2nd 1 2);
    first [reflexivity | lia].
Defined.

(* ================================================================= *)
(** ** More on the run *)

(** [verify_dimensions] never raises.  It returns True, printing nothing,
    exactly when all frames have one shape; otherwise it returns False
    after one error line, which names the first frame, in dictionary
    order, whose shape differs from the shape of the first frame. *)
Theorem verify_dimensions_spec :
  forall fr : frames,
    (verify_dimensions fr = ([], Ok true) /\
     forall a b, In a (map snd fr) -> In b (map snd fr) ->
                 shape2 a = shape2 b) \/
    (exists name0 first pre name data post,
        fr = (name0, first) :: pre ++ (name, data) :: post /\
        Forall (fun kd => shape2 (snd kd) = shape2 first) pre /\
        shape2 data <> shape2 first /\
        verify_dimensions fr
        = ([MsgShapeError name (shape2 data) (shape2 first)], Ok false)).
Proof.
  intros [|[name0 first] rest].
  - left. split; [reflexivity|]. intros a b [].
  - cbn [verify_dimensions verify_loop].
    destruct (verify_loop_first (shape2 first) rest)
      as [[Hall Hv]|(pre & n & d & post & -> & Hpre & Hne & Hv)].
    + left. split; [exact Hv|].
      assert (G : forall x, In x (map snd ((name0, first) :: rest)) ->
                            shape2 x = shape2 first).
      { intros x [<-|Hx]; [reflexivity|].
        apply in_map_iff in Hx. destruct Hx as (kd & <- & Hkd).
        rewrite Forall_forall in Hall. now apply Hall. }
      intros a b Ha Hb. now rewrite (G a Ha), (G b Hb).
    + right. exists name0, first, pre, n, d, post.
      split; [reflexivity|]. split; [exact Hpre|]. split; assumption.
Qed.

Lemma substring_full s : substring 0 (String.length s) s = s.
Proof. induction s as [|c s IH]; simpl; [reflexivity | now rewrite IH]. Qed.

(** A name that starts with [frame_] is stored without it; any other name
    is stored as it is. *)
Lemma strip_frame_prefix key :
  let clean_key :=
    if prefix "frame_" key then replace_first "frame_" EmptyString key
    else key in
  (prefix "frame_" key = true /\ key = ("frame_" ++ clean_key)%string) \/
  (prefix "frame_" key = false /\ clean_key = key).
Proof.
  cbv zeta. destruct (prefix "frame_" key) eqn:E; [left | right; auto].
  split; [reflexivity|].
  repeat (destruct key as [|? key]; [discriminate E|];
          cbn [prefix] in E;
          match type of E with
          | context [ascii_dec ?a ?b] =>
              destruct (ascii_dec a b) as [<-|]; [|discriminate E]
          end).
  unfold replace_first. cbn [index prefix]. cbv [ascii_dec ascii_rec ascii_rect
    Bool.bool_dec bool_rec bool_rect sumbool_rec sumbool_rect eq_rec_r eq_rec
    eq_rect eq_sym f_equal].
  rewrite E. cbn. now rewrite Nat.sub_0_r, substring_full.
Qed.

Lemma prefix_frame_app k : prefix "frame_" ("frame_" ++ k) = true.
Proof. apply prefix_correct. destruct k; reflexivity. Qed.

Lemma load_member_frames fr m :
  snd (load_member fr m)
  = Ok (if contains "frame" (lower (fst m))
        then dict_set String.eqb
               (if prefix "frame_" (fst m)
                then replace_first "frame_" EmptyString (fst m) else fst m)
               (snd m) fr
        else fr).
Proof.
  unfold load_member. destruct (contains "frame" (lower (fst m)));
    [|reflexivity].
  cbv zeta. destruct (negb _); reflexivity.
Qed.

Lemma dict_set_In_keys {V} k k' (v : V) d :
  In k (map fst (dict_set String.eqb k' v d)) <-> In k (map fst d) \/ k = k'.
Proof.
  rewrite dict_set_keys.
  destruct (dict_mem String.eqb k' d) eqn:E.
  - apply dict_mem_In in E. split; [auto | intros [H| ->]; assumption].
  - rewrite in_app_iff. simpl. split; intros [H|H]; auto.
    + destruct H as [H|[]]; auto.
Qed.

(** The names in the loaded dictionary: the stored names of the members
    whose lower-cased name holds [frame]. *)
Lemma load_loop_keys members :
  forall fr l fr',
    io_for_each members load_member fr = (l, Ok fr') ->
    forall k,
      In k (map fst fr') <->
      In k (map fst fr) \/
      exists m, In m members /\
                contains "frame" (lower (fst m)) = true /\
                k = (if prefix "frame_" (fst m)
                     then replace_first "frame_" EmptyString (fst m)
                     else fst m).
Proof.
  induction members as [|m members IH]; intros fr l fr' E k;
    cbn [io_for_each] in E.
  - injection E as _ <-. split; [auto|].
    intros [H|(m & [] & _)]. exact H.
  - pose proof (load_member_frames fr m) as Hm.
    destruct (load_member fr m) as [l1 [fr1|e]]; [|discriminate Hm].
    cbn [snd] in Hm. injection Hm as Hm.
    rewrite io_bind_ok in E.
    rewrite (io_surj (io_for_each members load_member fr1)) in E.
    cbn [fst snd] in E. injection E as _ E.
    rewrite (IH fr1 (fst (io_for_each members load_member fr1)) fr'
               ltac:(rewrite <- E; apply io_surj) k).
    subst fr1.
    destruct (contains "frame" (lower (fst m))) eqn:Ec.
    + rewrite dict_set_In_keys. split.
      * intros [[H|H]|(m' & Hin & Hc & Hk)]; auto.
        -- right. exists m. simpl. auto.
        -- right. exists m'. simpl. auto.
      * intros [H|(m' & [<-|Hin] & Hc & Hk)]; auto.
        right. exists m'. auto.
    + split.
      * intros [H|(m' & Hin & Hc & Hk)]; auto.
        right. exists m'. simpl. auto.
      * intros [H|(m' & [<-|Hin] & Hc & Hk)]; auto.
        -- congruence.
        -- right. exists m'. auto.
Qed.

Lemma loaded_frames_keys f k :
  In k (map fst (loaded_frames f)) <->
  exists members key data,
    group1 f = Some members /\ In (key, data) members /\
    contains "frame" (lower key) = true /\
    ((prefix "frame_" key = false /\ k = key) \/
     key = ("frame_" ++ k)%string).
Proof.
  destruct (load_frames_ok f) as [E _]. revert E.
  unfold load_frames at 1. destruct (group1 f) as [members|].
  - intros E. rewrite (load_loop_keys members [] _ _ E k). split.
    + intros [[]|([key data] & Hin & Hc & Hk)].
      exists members, key, data. cbn [fst] in *.
      split; [reflexivity|]. split; [exact Hin|]. split; [exact Hc|].
      destruct (strip_frame_prefix key) as [[Hp Hkey]|[Hp Hkey]];
        cbv zeta in Hkey; rewrite Hp in Hk, Hkey.
      * right. now rewrite <- Hk in Hkey.
      * left. auto.
    + intros (members' & key & data & Hg & Hin & Hc & Hk).
      injection Hg as <-. right. exists (key, data).
      split; [exact Hin|]. split; [exact Hc|]. cbn [fst].
      destruct (strip_frame_prefix key) as [[Hp Hkey]|[Hp Hkey]];
        cbv zeta in Hkey; rewrite Hp in Hkey |- *.
      * destruct Hk as [[Hf _]|Hk]; [congruence|].
        rewrite Hk in Hkey at 1.
        injection Hkey as Hkey. exact Hkey.
      * destruct Hk as [[_ Hk]|Hk]; [exact Hk|].
        subst key. rewrite prefix_frame_app in Hp. discriminate Hp.
  - unfold io_ret. intros E. injection E as _ <-. split.
    + intros [].
    + intros (members & key & data & Hg & _). discriminate Hg.
Qed.

(** The names of the loaded dictionary: a group member is loaded when its
    lower-cased name holds [frame]; it is stored under its name without a
    leading [frame_], or under its own name when it has no such prefix. *)
Theorem loaded_frames_names :
  forall f k,
    In k (map fst (loaded_frames f)) <->
    exists members key data,
      group1 f = Some members /\ In (key, data) members /\
      contains "frame" (lower key) = true /\
      ((prefix "frame_" key = false /\ k = key) \/
       key = ("frame_" ++ k)%string).
Proof. exact loaded_frames_keys. Qed.

(** The signal block of [process] asks for the loaded name [frame_gauss]:
    a dataset named [frame_gauss] is loaded as [gauss] and does not
    qualify; only a dataset named [frame_frame_gauss] does.  Without one,
    the signal block of every unit stores nothing. *)
Theorem gauss_block_needs_double_prefix :
  (forall f,
      dict_mem String.eqb "frame_gauss"%string (loaded_frames f) = true <->
      exists members data,
        group1 f = Some members /\
        In ("frame_frame_gauss"%string, data) members) /\
  (forall f members data,
      group1 f = Some members ->
      In ("frame_gauss"%string, data) members ->
      dict_mem String.eqb "gauss"%string (loaded_frames f) = true) /\
  (forall rec_file rebin_time rebin_channel plane_channels plane_key
          rebinned_data,
      (forall members data,
          group1 rec_file = Some members ->
          ~ In ("frame_frame_gauss"%string, data) members) ->
      handle_gauss (loaded_frames rec_file) rebin_time rebin_channel
                   plane_channels plane_key rebinned_data
      = Ok rebinned_data).
Proof.
  assert (G : forall f,
      dict_mem String.eqb "frame_gauss"%string (loaded_frames f) = true <->
      exists members data,
        group1 f = Some members /\
        In ("frame_frame_gauss"%string, data) members).
  { intros f. rewrite dict_mem_In, loaded_frames_keys. split.
    - intros (members & key & data & Hg & Hin & Hc & [[Hp <-]| ->]).
      + discriminate Hp.
      + exists members, data. auto.
    - intros (members & data & Hg & Hin).
      exists members, "frame_frame_gauss"%string, data.
      split; [exact Hg|]. split; [exact Hin|]. split; [reflexivity|].
      right. reflexivity. }
  split; [exact G|]. split.
  - intros f members data Hg Hin. rewrite dict_mem_In, loaded_frames_keys.
    exists members, "frame_gauss"%string, data.
    split; [exact Hg|]. split; [exact Hin|]. split; [reflexivity|].
    right. reflexivity.
  - intros rec_file rt rc chans key rd Hno. unfold handle_gauss.
    destruct (dict_mem String.eqb "frame_gauss"%string
                       (loaded_frames rec_file)) eqn:E; [|reflexivity].
    apply G in E. destruct E as (members & data & Hg & Hin).
    exfalso. exact (Hno members data Hg Hin).
Qed.

Lemma gauss_block_needs_double_prefix_witness :
  dict_mem String.eqb "gauss"%string (loaded_frames ex_mismatch_rec) = true /\
  handle_gauss (loaded_frames ex_mismatch_rec) 2 2 [0] "anode0_plane0" []
  = Ok [].
Proof.
  split.
  - apply (proj1 (proj2 gauss_block_needs_double_prefix) ex_mismatch_rec
                 [("frame_gauss"%string, mk2 1 1 [1])] (mk2 1 1 [1]));
      [reflexivity | simpl; auto].
  - apply (proj2 (proj2 gauss_block_needs_double_prefix) ex_mismatch_rec).
    intros members data Hg Hin. injection Hg as <-.
    destruct Hin as [Hin|[]]. discriminate Hin.
Defined.

(* ================================================================= *)
(** ** Loops that keep, reach or never miss a property *)

Lemma string_app_assoc (x y z : string) :
  ((x ++ y) ++ z)%string = (x ++ (y ++ z))%string.
Proof. induction x as [|c x IH]; simpl; [reflexivity | now rewrite IH]. Qed.

Lemma output_name_of_plane_key a p y :
  ("frame_" ++ (("anode" ++ str a ++ "_plane" ++ str p) ++ y))%string
  = ("frame_anode" ++ str a ++ "_plane" ++ str p ++ y)%string.
Proof.
  rewrite !string_app_assoc. reflexivity.
Qed.

Lemma io_ok {A} (m : io A) a : snd m = Ok a -> m = (fst m, Ok a).
Proof. intros <-. apply io_surj. Qed.

Lemma io_for_each_cons {A S} (body : S -> A -> io S) a l s l' s' :
  io_for_each (a :: l) body s = (l', Ok s') ->
  exists l1 s1 l2,
    body s a = (l1, Ok s1) /\ io_for_each l body s1 = (l2, Ok s').
Proof.
  cbn [io_for_each]. intros E.
  destruct (body s a) as [l1 [s1|e]] eqn:E1; [|discriminate].
  rewrite io_bind_ok in E. injection E as _ E.
  exists l1, s1, (fst (io_for_each l body s1)). split; [reflexivity|].
  now apply io_ok.
Qed.

Lemma io_for_each_invariant_in {A S} (P : S -> Prop)
    (body : S -> A -> io S) l :
  (forall s a l' s', In a l -> P s -> body s a = (l', Ok s') -> P s') ->
  forall s l' s', P s -> io_for_each l body s = (l', Ok s') -> P s'.
Proof.
  induction l as [|a l IH]; intros H s l' s' Hs E.
  - cbn [io_for_each] in E. unfold io_ret in E. injection E as _ <-.
    exact Hs.
  - apply io_for_each_cons in E. destruct E as (l1 & s1 & l2 & E1 & E2).
    eapply (IH (fun s a l' s' Ha => H s a l' s' (or_intror Ha)) s1);
      [|exact E2].
    eapply H; [left; reflexivity | exact Hs | exact E1].
Qed.

Lemma for_each_invariant_in {A S} (P : S -> Prop)
    (body : S -> A -> result S) l :
  (forall s a s', In a l -> P s -> body s a = Ok s' -> P s') ->
  forall s s', P s -> for_each l body s = Ok s' -> P s'.
Proof.
  induction l as [|a l IH]; intros H s s' Hs E; simpl in E.
  - now injection E as <-.
  - destruct (body s a) as [s1|e] eqn:E1; [|discriminate].
    cbn [rbind] in E.
    eapply (IH (fun s a s' Ha => H s a s' (or_intror Ha)) s1); [|exact E].
    eapply H; [left; reflexivity | exact Hs | exact E1].
Qed.

(** What each round establishes for its own element, and no later round
    undoes, holds of every element at the end. *)
Lemma io_for_each_covers {A S} (Q : A -> S -> Prop)
    (body : S -> A -> io S) l :
  (forall s a l' s', In a l -> body s a = (l', Ok s') -> Q a s') ->
  (forall a s b l' s',
      In a l -> In b l -> Q a s -> body s b = (l', Ok s') -> Q a s') ->
  forall s l' s', io_for_each l body s = (l', Ok s') ->
  forall a, In a l -> Q a s'.
Proof.
  induction l as [|b l IH]; intros H1 H2 s l' s' E a Ha;
    [contradiction|].
  apply io_for_each_cons in E. destruct E as (l1 & s1 & l2 & E1 & E2).
  destruct Ha as [->|Ha].
  - revert E2. apply (io_for_each_invariant_in (Q a)).
    + intros s0 b l0 s0' Hb. apply H2; [now left | now right].
    + eapply H1; [left; reflexivity | exact E1].
  - eapply IH; [| | exact E2 | exact Ha].
    + intros s0 a0 l0 s0' Hin. apply H1. now right.
    + intros a0 s0 b0 l0 s0' Ha0 Hb0. apply H2; now right.
Qed.

Lemma for_each_covers {A S} (Q : A -> S -> Prop)
    (body : S -> A -> result S) l :
  (forall s a s', In a l -> body s a = Ok s' -> Q a s') ->
  (forall a s b s', In a l -> In b l -> Q a s -> body s b = Ok s' -> Q a s') ->
  forall s s', for_each l body s = Ok s' ->
  forall a, In a l -> Q a s'.
Proof.
  induction l as [|b l IH]; intros H1 H2 s s' E a Ha;
    [contradiction|].
  simpl in E. destruct (body s b) as [s1|e] eqn:E1; [|discriminate].
  cbn [rbind] in E. destruct Ha as [->|Ha].
  - revert E. apply (for_each_invariant_in (Q a)).
    + intros s0 b s0' Hb. apply H2; [now left | now right].
    + eapply H1; [left; reflexivity | exact E1].
  - eapply IH; [| | exact E | exact Ha].
    + intros s0 a0 s0' Hin. apply H1. now right.
    + intros a0 s0 b0 s0' Ha0 Hb0. apply H2; now right.
Qed.

(** A loop whose body returns on every element returns. *)
Lemma io_for_each_total {A S} (body : S -> A -> io S) l :
  (forall s a, In a l -> exists l' s', body s a = (l', Ok s')) ->
  forall s, exists l' s', io_for_each l body s = (l', Ok s').
Proof.
  induction l as [|a l IH]; intros H s; cbn [io_for_each].
  - eexists _, _. reflexivity.
  - destruct (H s a (or_introl eq_refl)) as (l1 & s1 & E1).
    destruct (IH (fun s a Ha => H s a (or_intror Ha)) s1)
      as (l2 & s2 & E2).
    rewrite E1, io_bind_ok, E2. eexists _, _. reflexivity.
Qed.

Lemma for_each_total {A S} (body : S -> A -> result S) l :
  (forall s a, In a l -> exists s', body s a = Ok s') ->
  forall s, exists s', for_each l body s = Ok s'.
Proof.
  induction l as [|a l IH]; intros H s; simpl.
  - eexists. reflexivity.
  - destruct (H s a (or_introl eq_refl)) as (s1 & E1).
    rewrite E1. cbn [rbind]. apply IH. intros s0 a0 Ha. apply H. now right.
Qed.

(* ================================================================= *)
(** ** The names of the datasets written *)

Section WrittenNames.
Variables (frames_rec frames_tru : frames) (rt rc : Z).

Lemma keys_ok_set k v rd :
  keys_ok frames_rec frames_tru rd -> key_ok frames_rec frames_tru k ->
  keys_ok frames_rec frames_tru (dict_set String.eqb k v rd).
Proof.
  intros Hrd Hk k' Hin. apply dict_set_In_keys in Hin.
  destruct Hin as [Hin| ->]; auto.
Qed.

(** The handlers unfolded: what a returning handler has stored. *)
Lemma handle_gauss_inv chans key rd rd' :
  handle_gauss frames_rec rt rc chans key rd = Ok rd' ->
  if dict_mem String.eqb "frame_gauss"%string frames_rec
  then exists v, rd' = dict_set String.eqb (key ++ "_gauss")%string v rd
  else rd' = rd.
Proof.
  unfold handle_gauss.
  destruct (dict_mem String.eqb "frame_gauss"%string frames_rec);
    [|intros E; now injection E as <-].
  repeat match goal with
         | |- rbind ?m _ = _ -> _ =>
             destruct m; [|discriminate]; cbn [rbind]
         end.
  intros E. injection E as <-. eexists. reflexivity.
Qed.

Lemma handle_kind_inv chans key rd kind rd' :
  handle_kind frames_tru rt rc chans key rd kind = Ok rd' ->
  if dict_mem String.eqb (kind ++ "_1st")%string frames_tru
  then exists v1 v2,
      rd' = dict_set String.eqb (key ++ "_" ++ kind ++ "_2nd")%string v2
              (dict_set String.eqb (key ++ "_" ++ kind ++ "_1st")%string
                        v1 rd)
  else rd' = rd.
Proof.
  unfold handle_kind.
  destruct (dict_mem String.eqb (kind ++ "_1st")%string frames_tru);
    [|intros E; now injection E as <-].
  repeat match goal with
         | |- rbind ?m _ = _ -> _ =>
             destruct m; [|discriminate]; cbn [rbind]
         end.
  intros E. injection E as <-. eexists _, _. reflexivity.
Qed.

Lemma handle_charge_inv chans key rd rd' :
  handle_charge frames_tru rt rc chans key rd = Ok rd' ->
  if dict_mem String.eqb "charge_1st"%string frames_tru
  then exists v1 v2,
      rd' = dict_set String.eqb (key ++ "_charge_2nd")%string v2
              (dict_set String.eqb (key ++ "_charge_1st")%string v1 rd)
  else rd' = rd.
Proof.
  unfold handle_charge.
  destruct (dict_mem String.eqb "charge_1st"%string frames_tru);
    [|intros E; now injection E as <-].
  repeat match goal with
         | |- rbind ?m _ = _ -> _ =>
             destruct m; [|discriminate]; cbn [rbind]
         end.
  intros E. injection E as <-. eexists _, _. reflexivity.
Qed.

Lemma aggregate_plane_inv chans key kinds rd rd' :
  aggregate_plane frames_rec frames_tru rt rc chans key kinds rd = Ok rd' ->
  exists rd1 rd2,
    handle_gauss frames_rec rt rc chans key rd = Ok rd1 /\
    for_each kinds (handle_kind frames_tru rt rc chans key) rd1 = Ok rd2 /\
    handle_charge frames_tru rt rc chans key rd2 = Ok rd'.
Proof.
  unfold aggregate_plane.
  destruct (handle_gauss _ _ _ _ _ rd) as [rd1|] eqn:E1; [|discriminate].
  cbn [rbind].
  destruct (for_each kinds _ rd1) as [rd2|] eqn:E2; [|discriminate].
  cbn [rbind]. intros E. exists rd1, rd2.
  split; [reflexivity|]. split; [exact E2 | exact E].
Qed.

Lemma handle_kind_grows chans key rd kind rd' k :
  handle_kind frames_tru rt rc chans key rd kind = Ok rd' ->
  In k (map fst rd) -> In k (map fst rd').
Proof.
  intros E Hk. apply handle_kind_inv in E.
  destruct (dict_mem String.eqb (kind ++ "_1st")%string frames_tru);
    [|now subst].
  destruct E as (v1 & v2 & ->). rewrite !dict_set_In_keys. auto.
Qed.

Lemma aggregate_plane_grows chans key kinds rd rd' k :
  aggregate_plane frames_rec frames_tru rt rc chans key kinds rd = Ok rd' ->
  In k (map fst rd) -> In k (map fst rd').
Proof.
  intros E Hk. apply aggregate_plane_inv in E.
  destruct E as (rd1 & rd2 & E1 & E2 & E3).
  apply handle_gauss_inv in E1. apply handle_charge_inv in E3.
  assert (H1 : In k (map fst rd1)).
  { destruct (dict_mem String.eqb "frame_gauss"%string frames_rec);
      [|now subst].
    destruct E1 as (v & ->). rewrite dict_set_In_keys. auto. }
  assert (H2 : In k (map fst rd2)).
  { revert E2.
    apply (for_each_invariant_in (fun s => In k (map fst s))); [|exact H1].
    intros s kind s' _ Hs E. eapply handle_kind_grows; eauto. }
  destruct (dict_mem String.eqb "charge_1st"%string frames_tru);
    [|now subst].
  destruct E3 as (v1 & v2 & ->). rewrite !dict_set_In_keys. auto.
Qed.

(** A unit stores nothing but its own keys of the types whose block
    ran ... *)
Lemma aggregate_plane_keys a p chans rd rd' :
  0 <= a < 8 -> 0 <= p < 3 ->
  keys_ok frames_rec frames_tru rd ->
  aggregate_plane frames_rec frames_tru rt rc chans
                  ("anode" ++ str a ++ "_plane" ++ str p) label_kinds rd
  = Ok rd' ->
  keys_ok frames_rec frames_tru rd'.
Proof.
  intros Ha Hp Hrd E. apply aggregate_plane_inv in E.
  destruct E as (rd1 & rd2 & E1 & E2 & E3).
  apply handle_gauss_inv in E1. apply handle_charge_inv in E3.
  assert (Hkey : forall ftype,
             stored_type frames_rec frames_tru ftype ->
             key_ok frames_rec frames_tru
               (("anode" ++ str a ++ "_plane" ++ str p) ++ "_" ++ ftype)).
  { intros ftype Hs. exists a, p, ftype. auto. }
  assert (H1 : keys_ok frames_rec frames_tru rd1).
  { destruct (dict_mem String.eqb "frame_gauss"%string frames_rec) eqn:Em;
      [|now subst].
    destruct E1 as (v & ->). apply keys_ok_set; [exact Hrd|].
    apply (Hkey "gauss"%string). left. auto. }
  assert (H2 : keys_ok frames_rec frames_tru rd2).
  { revert E2. apply for_each_invariant_in; [|exact H1].
    intros s kind s' Hkind Hs E. apply handle_kind_inv in E.
    destruct (dict_mem String.eqb (kind ++ "_1st")%string frames_tru) eqn:Em;
      [|now subst].
    destruct E as (v1 & v2 & ->).
    apply keys_ok_set; [apply keys_ok_set; [exact Hs|]|];
      apply Hkey; right; left; exists kind; auto. }
  destruct (dict_mem String.eqb "charge_1st"%string frames_tru) eqn:Em;
    [|now subst].
  destruct E3 as (v1 & v2 & ->).
  apply keys_ok_set; [apply keys_ok_set; [exact H2|]|].
  - apply (Hkey "charge_1st"%string). right; right. auto.
  - apply (Hkey "charge_2nd"%string). right; right. auto.
Qed.

(** ... and stores every one of them. *)
Lemma aggregate_plane_stores chans key rd rd' ftype :
  aggregate_plane frames_rec frames_tru rt rc chans key label_kinds rd
  = Ok rd' ->
  stored_type frames_rec frames_tru ftype ->
  In (key ++ "_" ++ ftype)%string (map fst rd').
Proof.
  intros E Hs. apply aggregate_plane_inv in E.
  destruct E as (rd1 & rd2 & E1 & E2 & E3).
  apply handle_gauss_inv in E1. apply handle_charge_inv in E3.
  assert (G3 : forall k, In k (map fst rd2) -> In k (map fst rd')).
  { intros k Hk.
    destruct (dict_mem String.eqb "charge_1st"%string frames_tru);
      [|now subst].
    destruct E3 as (v1 & v2 & ->). rewrite !dict_set_In_keys. auto. }
  assert (G2 : forall k, In k (map fst rd1) -> In k (map fst rd2)).
  { intros k Hk. revert E2.
    apply (for_each_invariant_in (fun s => In k (map fst s))); [|exact Hk].
    intros s kind s' _ Hin E. eapply handle_kind_grows; eauto. }
  destruct Hs as [[-> Hm]|[(kind & Hkind & Hf & Hm)|[Hf Hm]]].
  - apply G3, G2. rewrite Hm in E1. destruct E1 as (v & ->).
    rewrite dict_set_In_keys. right. reflexivity.
  - apply G3.
    assert (K : dict_mem String.eqb (kind ++ "_1st")%string frames_tru
                = true ->
                In (key ++ "_" ++ kind ++ "_1st")%string (map fst rd2) /\
                In (key ++ "_" ++ kind ++ "_2nd")%string (map fst rd2)).
    { apply (for_each_covers
               (fun kind s =>
                  dict_mem String.eqb (kind ++ "_1st")%string frames_tru
                  = true ->
                  In (key ++ "_" ++ kind ++ "_1st")%string (map fst s) /\
                  In (key ++ "_" ++ kind ++ "_2nd")%string (map fst s))
               (handle_kind frames_tru rt rc chans key) label_kinds)
        with (s := rd1); [| | exact E2 | exact Hkind].
      - intros s k s' _ E Hk. apply handle_kind_inv in E. rewrite Hk in E.
        destruct E as (v1 & v2 & ->). rewrite !dict_set_In_keys. auto.
      - intros k s b s' _ _ Hq E Hk. destruct (Hq Hk) as [K1 K2].
        split; eapply handle_kind_grows; eauto. }
    destruct (K Hm) as [K1 K2]. destruct Hf as [-> | ->]; assumption.
  - rewrite Hm in E3. destruct E3 as (v1 & v2 & ->).
    rewrite !dict_set_In_keys. destruct Hf as [-> | ->]; auto.
Qed.

Lemma process_plane_inv a planes rd p l rd' :
  process_plane rt rc label_kinds frames_rec frames_tru a planes rd p
  = (l, Ok rd') ->
  exists chans,
    dict_get Z.eqb p planes = Some chans /\
    aggregate_plane frames_rec frames_tru rt rc chans
      ("anode" ++ str a ++ "_plane" ++ str p) label_kinds rd = Ok rd'.
Proof.
  unfold process_plane, lift, print.
  destruct (dict_get Z.eqb p planes) as [chans|]; [|discriminate].
  io_steps. intros E. injection E as _ E. exists chans. auto.
Qed.

Lemma process_anodes_keys l rd :
  process_anodes rt rc label_kinds frames_rec frames_tru = (l, Ok rd) ->
  keys_ok frames_rec frames_tru rd.
Proof.
  unfold process_anodes.
  apply (io_for_each_invariant_in (keys_ok frames_rec frames_tru));
    [|intros k []].
  intros s a l' s' Ha Hs. apply arange_In in Ha.
  apply (io_for_each_invariant_in (keys_ok frames_rec frames_tru));
    [|exact Hs].
  intros s0 p l0 s0' Hp Hs0 E. apply arange_In in Hp.
  apply process_plane_inv in E. destruct E as (chans & _ & E).
  eapply aggregate_plane_keys; [| | exact Hs0 | exact E]; lia.
Qed.

Lemma process_anodes_stores l rd a p ftype :
  process_anodes rt rc label_kinds frames_rec frames_tru = (l, Ok rd) ->
  0 <= a < 8 -> 0 <= p < 3 ->
  stored_type frames_rec frames_tru ftype ->
  In (("anode" ++ str a ++ "_plane" ++ str p) ++ "_" ++ ftype)%string
     (map fst rd).
Proof.
  intros E Ha Hp Hs. unfold process_anodes in E.
  assert (Hgrow : forall a planes s p l s' k,
             process_plane rt rc label_kinds frames_rec frames_tru
                           a planes s p = (l, Ok s') ->
             In k (map fst s) -> In k (map fst s')).
  { intros a0 planes s p0 l0 s' k E0 Hk. apply process_plane_inv in E0.
    destruct E0 as (chans & _ & E0). eapply aggregate_plane_grows; eauto. }
  refine (io_for_each_covers
            (fun a s =>
               forall p, 0 <= p < 3 ->
                 In (("anode" ++ str a ++ "_plane" ++ str p)
                       ++ "_" ++ ftype)%string (map fst s))
            _ _ _ _ _ _ _ E a _ p Hp); cbv beta;
    [| | apply arange_In; lia].
  - intros s a0 l0 s' _ E0 p0 Hp0.
    refine (io_for_each_covers
              (fun p s =>
                 In (("anode" ++ str a0 ++ "_plane" ++ str p)
                       ++ "_" ++ ftype)%string (map fst s))
              _ _ _ _ _ _ _ E0 p0 _); cbv beta;
      [| | apply arange_In; lia].
    + intros s0 p1 l1 s1 _ E1. apply process_plane_inv in E1.
      destruct E1 as (chans & _ & E1).
      eapply aggregate_plane_stores; eauto.
    + intros p1 s0 b l1 s1 _ _ Hq E1. eapply Hgrow; eauto.
  - intros a0 s b l0 s' _ _ Hq E0 p0 Hp0. revert E0.
    apply (io_for_each_invariant_in
             (fun s =>
                In (("anode" ++ str a0 ++ "_plane" ++ str p0)
                      ++ "_" ++ ftype)%string (map fst s)));
      [|now apply Hq].
    intros s0 p1 l1 s1 _ Hin E1. eapply Hgrow; eauto.
Qed.

(** The names [process_frames] writes. *)
Lemma process_frames_written log r ds name :
  process_frames rt rc label_kinds frames_rec frames_tru = (log, Ok r) ->
  written r = Some ds ->
  In name (map fst ds) <->
  exists a p ftype,
    0 <= a < 8 /\ 0 <= p < 3 /\
    stored_type frames_rec frames_tru ftype /\
    hd_error (possible_keys a p ftype) = Some name.
Proof.
  intros E Hw.
  destruct (dict_merge String.eqb frames_rec frames_tru)
    as [|[name0 first] rest] eqn:Eall.
  { rewrite (process_frames_empty rt rc label_kinds _ _ Eall) in E.
    discriminate E. }
  destruct (verify_loop_spec (shape2 first) rest)
    as [[_ Hv]|(n & d & _ & _ & Hv)].
  2:{ rewrite (process_frames_mismatch rt rc label_kinds _ _ name0 first rest
                 _ Eall Hv) in E.
      injection E as _ <-. discriminate Hw. }
  rewrite (process_frames_pass rt rc label_kinds _ _ name0 first rest
             Eall Hv) in E.
  destruct (process_anodes rt rc label_kinds frames_rec frames_tru)
    as [l [rd|e]] eqn:Ea; [|discriminate E].
  injection E as _ <-. cbn [written] in Hw. injection Hw as <-.
  rewrite map_map. cbn [fst]. unfold possible_keys. cbn [hd_error].
  split.
  - intros Hin. apply in_map_iff in Hin. destruct Hin as ([k v] & <- & Hkv).
    cbn [fst].
    assert (Hk : key_ok frames_rec frames_tru k).
    { apply (process_anodes_keys l rd Ea). apply in_map_iff.
      exists (k, v). auto. }
    destruct Hk as (a & p & ftype & Ha & Hp & -> & Hs).
    exists a, p, ftype. repeat (split; [assumption|]).
    f_equal. symmetry. apply output_name_of_plane_key.
  - intros (a & p & ftype & Ha & Hp & Hs & Hn).
    pose proof (process_anodes_stores l rd a p ftype Ea Ha Hp Hs) as Hin.
    apply in_map_iff in Hin. destruct Hin as ([k v] & Hk & Hkv).
    cbn [fst] in Hk. subst k. apply in_map_iff.
    eexists. split; [|exact Hkv]. cbn [fst].
    injection Hn as <-. apply output_name_of_plane_key.
Qed.
End WrittenNames.

Lemma stored_type_frame_types frames_rec frames_tru ftype :
  stored_type frames_rec frames_tru ftype -> In ftype frame_types.
Proof.
  intros [[-> _]|[(kind & Hk & Hf & _)|[Hf _]]].
  - simpl; auto.
  - simpl in Hk.
    destruct Hk as [<-|[<-|[<-|[]]]]; destruct Hf as [-> | ->];
      simpl; auto 10.
  - destruct Hf as [-> | ->]; simpl; auto 10.
Qed.

(* ================================================================= *)
(** ** When the run succeeds *)

Lemma dict_set_In {V} k (v : V) d k' v' :
  In (k', v') (dict_set String.eqb k v d) ->
  (k', v') = (k, v) \/ In (k', v') d.
Proof.
  induction d as [|[k0 v0] d IH]; simpl.
  - intros [H|[]]; auto.
  - destruct (String.eqb_spec k k0) as [->|Hne]; simpl.
    + intros [H|H]; auto.
    + intros [H|H]; auto. destruct (IH H); auto.
Qed.

Lemma dict_set_nonempty {V} k (v : V) d : dict_set String.eqb k v d <> [].
Proof.
  destruct d as [|[k0 v0] d]; simpl; [discriminate|].
  destruct (String.eqb k k0); discriminate.
Qed.

Lemma dict_merge_In {V} (d1 d2 : list (string * V)) k v :
  In (k, v) (dict_merge String.eqb d1 d2) -> In (k, v) d1 \/ In (k, v) d2.
Proof.
  unfold dict_merge. revert d1.
  induction d2 as [|[k2 v2] d2 IH]; intros d1; simpl; [auto|].
  intros H. apply IH in H. destruct H as [H|H]; [|auto].
  apply dict_set_In in H. destruct H as [H|H]; auto.
Qed.

Lemma dict_merge_nonempty {V} (d1 d2 : list (string * V)) :
  d1 ++ d2 <> [] -> dict_merge String.eqb d1 d2 <> [].
Proof.
  unfold dict_merge.
  assert (H : forall d2 d1 : list (string * V),
             d1 <> [] ->
             fold_left (fun acc kv => dict_set String.eqb (fst kv) (snd kv) acc)
                       d2 d1 <> []).
  { clear. induction d2 as [|kv d2 IH]; intros d1 Hd; simpl; [exact Hd|].
    apply IH, dict_set_nonempty. }
  destruct d2 as [|kv d2]; simpl.
  - now rewrite app_nil_r.
  - intros _. apply H, dict_set_nonempty.
Qed.

Lemma dict_mem_lookup k (d : frames) :
  dict_mem String.eqb k d = true ->
  exists a, frame_lookup k d = Ok a /\ In (k, a) d.
Proof.
  unfold dict_mem, frame_lookup.
  induction d as [|[k0 v0] d IH]; simpl; [discriminate|].
  destruct (String.eqb_spec k k0) as [->|Hne].
  - intros _. exists v0. auto.
  - intros H. destruct (IH H) as (a & E & Hin). exists a. auto.
Qed.

(** Indexing by rows that are all inside the array. *)
Lemma take_rows_ok a rows :
  (forall r, In r rows -> 0 <= r < Z.of_nat (dim0 a)) ->
  take_rows a rows
  = Ok (mk2 (length rows) (dim1 a)
          (tabulate2 (length rows) (dim1 a)
             (fun i j => get2 a (nth i (map Z.to_nat rows) 0%nat) j))).
Proof.
  intros H. unfold take_rows.
  assert (E : forall acc,
             for_each rows
               (fun acc r =>
                  r' <- norm_index (dim0 a) r ;; Ok (acc ++ [r'])) acc
             = Ok (acc ++ map Z.to_nat rows)).
  { induction rows as [|r rows IH]; intros acc; simpl.
    - now rewrite app_nil_r.
    - unfold norm_index at 1.
      destruct (H r (or_introl eq_refl)) as [H0 H1].
      destruct (Z.leb_spec 0 r); [|lia].
      destruct (Z.ltb_spec r (Z.of_nat (dim0 a))); [|lia].
      cbn [andb rbind]. rewrite IH by (intros; apply H; now right).
      now rewrite <- app_assoc. }
  rewrite E. cbn [rbind app]. now rewrite length_map.
Qed.

(** The channels of a plane of one of the eight anodes are below 12287. *)
Lemma plane_channels_range a p :
  0 <= a < 8 -> 0 <= p < 3 ->
  exists chans,
    dict_get Z.eqb p (get_anode_planes a) = Some chans /\
    forall c, In c chans -> 0 <= c < 12287.
Proof.
  intros Ha Hp. rewrite get_anode_planes_eq. cbv zeta.
  assert (Hd : 0 <= a / 2 <= 3).
  { split; [apply Z.div_pos; lia|].
    apply Z.lt_succ_r, Z.div_lt_upper_bound; lia. }
  assert (Hp' : p = 0 \/ p = 1 \/ p = 2) by lia.
  destruct (a mod 2 =? 0); destruct Hp' as [->|[->| ->]];
    cbn [dict_get Z.eqb Pos.eqb]; eexists; (split; [reflexivity|]);
    intros c Hc; apply arange_In in Hc; lia.
Qed.

Section ProcessSucceeds.
Variables (frames_rec frames_tru : frames) (t c n0 n1 : nat).
Hypothesis Ht : (0 < t)%nat.
Hypothesis Hc : (0 < c)%nat.
Hypothesis Hrows : 12287 <= Z.of_nat n0.
Hypothesis Hrec : forall k a, In (k, a) frames_rec -> shape2 a = (n0, n1).
Hypothesis Htru : forall k a, In (k, a) frames_tru -> shape2 a = (n0, n1).
Hypothesis Hcharge :
  dict_mem String.eqb "charge_1st"%string frames_tru = true ->
  dict_mem String.eqb "charge_2nd"%string frames_tru = true.
Hypothesis Hkinds :
  forall kind,
    In kind label_kinds ->
    dict_mem String.eqb (kind ++ "_1st")%string frames_tru = true ->
    dict_mem String.eqb (kind ++ "_2nd")%string frames_tru = true /\
    dict_mem String.eqb "charge_1st"%string frames_tru = true.

Variables (chans : list Z) (key : string).
Hypothesis Hchans : forall r, In r chans -> 0 <= r < 12287.

Lemma take_plane_rows (fr : frames) k :
  (forall k a, In (k, a) fr -> shape2 a = (n0, n1)) ->
  dict_mem String.eqb k fr = true ->
  exists whole data,
    frame_lookup k fr = Ok whole /\
    take_rows whole chans = Ok data /\
    shape2 data = (length chans, n1).
Proof.
  intros Hfr Hm. destruct (dict_mem_lookup k fr Hm) as (whole & E & Hin).
  apply Hfr in Hin. injection Hin as H0 H1.
  eexists whole, _. split; [exact E|]. split.
  - apply take_rows_ok. intros r Hr. apply Hchans in Hr. lia.
  - unfold shape2. cbn [dim0 dim1]. now rewrite H1.
Qed.

Lemma handle_gauss_ok rd :
  exists rd',
    handle_gauss frames_rec (Z.of_nat t) (Z.of_nat c) chans key rd = Ok rd'.
Proof.
  unfold handle_gauss.
  case_eq (dict_mem String.eqb "frame_gauss"%string frames_rec); intros Em;
    [|eexists; reflexivity].
  destruct (take_plane_rows frames_rec _ Hrec Em)
    as (whole & data & E1 & E2 & _).
  rewrite E1. cbn [rbind]. rewrite E2. cbn [rbind].
  rewrite (rebin_sum_pos data t c Ht Hc). cbn [rbind].
  eexists. reflexivity.
Qed.

Lemma handle_charge_ok rd :
  exists rd',
    handle_charge frames_tru (Z.of_nat t) (Z.of_nat c) chans key rd = Ok rd'.
Proof.
  unfold handle_charge.
  case_eq (dict_mem String.eqb "charge_1st"%string frames_tru); intros Em;
    [|eexists; reflexivity].
  destruct (take_plane_rows frames_tru _ Htru Em)
    as (w1 & c1 & L1 & T1 & _).
  destruct (take_plane_rows frames_tru _ Htru (Hcharge Em))
    as (w2 & c2 & L2 & T2 & _).
  rewrite L1. cbn [rbind]. rewrite T1. cbn [rbind].
  rewrite L2. cbn [rbind]. rewrite T2. cbn [rbind].
  rewrite (rebin_sum_pos c1 t c Ht Hc). cbn [rbind].
  rewrite (rebin_sum_pos c2 t c Ht Hc). cbn [rbind].
  eexists. reflexivity.
Qed.

Lemma handle_kind_ok rd kind :
  In kind label_kinds ->
  exists rd',
    handle_kind frames_tru (Z.of_nat t) (Z.of_nat c) chans key rd kind
    = Ok rd'.
Proof.
  intros Hkind. unfold handle_kind.
  case_eq (dict_mem String.eqb (kind ++ "_1st")%string frames_tru);
    intros Em; [|eexists; reflexivity].
  destruct (Hkinds kind Hkind Em) as [Em2 Ec1].
  destruct (take_plane_rows frames_tru _ Htru Ec1)
    as (w1 & c1 & L1 & T1 & S1).
  destruct (take_plane_rows frames_tru _ Htru (Hcharge Ec1))
    as (w2 & c2 & L2 & T2 & S2).
  destruct (take_plane_rows frames_tru _ Htru Em)
    as (w3 & d1 & L3 & T3 & S3).
  destruct (take_plane_rows frames_tru _ Htru Em2)
    as (w4 & d2 & L4 & T4 & S4).
  rewrite L1. cbn [rbind]. rewrite T1. cbn [rbind].
  rewrite L2. cbn [rbind]. rewrite T2. cbn [rbind].
  rewrite L3. cbn [rbind]. rewrite T3. cbn [rbind].
  rewrite L4. cbn [rbind]. rewrite T4. cbn [rbind].
  destruct (rebin_track_first_second_pos d1 d2 c1 c2 t c)
    as (o1 & o2 & E & _); try congruence; try assumption.
  rewrite E. cbn [rbind]. eexists. reflexivity.
Qed.

Lemma aggregate_plane_ok rd :
  exists rd',
    aggregate_plane frames_rec frames_tru (Z.of_nat t) (Z.of_nat c)
                    chans key label_kinds rd = Ok rd'.
Proof.
  unfold aggregate_plane.
  destruct (handle_gauss_ok rd) as (rd1 & ->). cbn [rbind].
  destruct (for_each_total
              (handle_kind frames_tru (Z.of_nat t) (Z.of_nat c) chans key)
              label_kinds (fun s k Hk => handle_kind_ok s k Hk) rd1)
    as (rd2 & E2).
  rewrite E2. cbn [rbind]. apply handle_charge_ok.
Qed.
End ProcessSucceeds.

Lemma process_anodes_ok frames_rec frames_tru rt rc n0 n1 :
  0 < rt -> 0 < rc ->
  12287 <= Z.of_nat n0 ->
  (forall k a, In (k, a) frames_rec -> shape2 a = (n0, n1)) ->
  (forall k a, In (k, a) frames_tru -> shape2 a = (n0, n1)) ->
  (dict_mem String.eqb "charge_1st"%string frames_tru = true ->
   dict_mem String.eqb "charge_2nd"%string frames_tru = true) ->
  (forall kind,
      In kind label_kinds ->
      dict_mem String.eqb (kind ++ "_1st")%string frames_tru = true ->
      dict_mem String.eqb (kind ++ "_2nd")%string frames_tru = true /\
      dict_mem String.eqb "charge_1st"%string frames_tru = true) ->
  exists l rd,
    process_anodes rt rc label_kinds frames_rec frames_tru = (l, Ok rd).
Proof.
  intros Ht Hc Hrows Hrec Htru Hcharge Hkinds.
  rewrite <- (Z2Nat.id rt), <- (Z2Nat.id rc) by lia.
  unfold process_anodes. apply io_for_each_total.
  intros s a Ha. apply arange_In in Ha.
  apply io_for_each_total. intros s0 p Hp. apply arange_In in Hp.
  destruct (plane_channels_range a p) as (chans & Eg & Hch); [lia | lia |].
  unfold process_plane, lift, print. rewrite Eg. io_steps.
  destruct (aggregate_plane_ok frames_rec frames_tru
              (Z.to_nat rt) (Z.to_nat rc) n0 n1) with
    (chans := chans)
    (key := ("anode" ++ str a ++ "_plane" ++ str p)%string) (rd := s0)
    as (rd' & E); try assumption; try lia.
  rewrite E. eexists _, _. reflexivity.
Qed.

Lemma process_frames_succeeds frames_rec frames_tru rt rc n0 n1 :
  0 < rt -> 0 < rc ->
  12287 <= Z.of_nat n0 ->
  frames_rec ++ frames_tru <> [] ->
  (forall k a, In (k, a) (frames_rec ++ frames_tru) -> shape2 a = (n0, n1)) ->
  (dict_mem String.eqb "charge_1st"%string frames_tru = true ->
   dict_mem String.eqb "charge_2nd"%string frames_tru = true) ->
  (forall kind,
      In kind label_kinds ->
      dict_mem String.eqb (kind ++ "_1st")%string frames_tru = true ->
      dict_mem String.eqb (kind ++ "_2nd")%string frames_tru = true /\
      dict_mem String.eqb "charge_1st"%string frames_tru = true) ->
  exists log ds,
    process_frames rt rc label_kinds frames_rec frames_tru
    = (log, Ok (mk_run true (Some ds))).
Proof.
  intros Ht Hc Hrows Hne Hshape Hcharge Hkinds.
  destruct (dict_merge String.eqb frames_rec frames_tru)
    as [|[name0 first] rest] eqn:Eall.
  { now apply dict_merge_nonempty in Hne. }
  assert (Hall : forall k a,
             In (k, a) ((name0, first) :: rest) -> shape2 a = (n0, n1)).
  { intros k a Hin. rewrite <- Eall in Hin. apply dict_merge_In in Hin.
    apply (Hshape k). apply in_or_app. exact Hin. }
  destruct (verify_loop_spec (shape2 first) rest)
    as [[_ Hv]|(n & d & Hin & Hd & _)].
  2:{ exfalso. apply Hd.
      rewrite (Hall n d (or_intror Hin)).
      symmetry. apply (Hall name0). now left. }
  rewrite (process_frames_pass rt rc label_kinds _ _ name0 first rest
             Eall Hv).
  destruct (process_anodes_ok frames_rec frames_tru rt rc n0 n1)
    as (l & rd & ->); try assumption.
  - intros k a Hin. apply (Hshape k). apply in_or_app. now left.
  - intros k a Hin. apply (Hshape k). apply in_or_app. now right.
  - eexists _, _. reflexivity.
Qed.

(** A run that returns is the run of [process_frames] on the loaded
    frames. *)
Lemma process_run_frames rec_file tru_file rt rc r :
  snd (process rec_file tru_file rt rc) = Ok r ->
  process_frames rt rc label_kinds (loaded_frames rec_file)
                 (loaded_frames tru_file)
  = (fst (process_frames rt rc label_kinds (loaded_frames rec_file)
                         (loaded_frames tru_file)),
     Ok r).
Proof.
  intros E. unfold process in E. rewrite process_kinds_eq in E.
  cbn [snd] in E. now apply io_ok.
Qed.

Lemma ex_full_charge_loaded :
  loaded_frames ex_full_charge_tru
  = [("charge_1st"%string, ex_column (Z.to_nat 12288) 1);
     ("charge_2nd"%string, ex_column (Z.to_nat 12288) 2)].
Proof. reflexivity. Qed.

Lemma ex_full_charge_run :
  exists log ds,
    process ex_no_group ex_full_charge_tru 1 1
    = (log, Ok (mk_run true (Some ds))).
Proof.
  unfold process. rewrite process_kinds_eq.
  destruct (process_frames_succeeds (loaded_frames ex_no_group)
              (loaded_frames ex_full_charge_tru) 1 1 (Z.to_nat 12288) 1)
    as (log & ds & E); try lia.
  - rewrite ex_full_charge_loaded. discriminate.
  - rewrite ex_full_charge_loaded. intros k a [H|[H|[]]];
      injection H as _ <-; reflexivity.
  - reflexivity.
  - rewrite ex_full_charge_loaded. intros kind Hk.
    simpl in Hk. destruct Hk as [<-|[<-|[<-|[]]]]; discriminate.
  - rewrite E. eexists _, _. reflexivity.
Qed.

(** With positive factors, at least one frame loaded, every loaded frame
    of one shape with at least 12287 channel rows, [charge_2nd] present
    whenever [charge_1st] is, and the [_2nd] frame of a label kind and
    [charge_1st] present whenever the kind's [_1st] frame is, the run
    raises nothing, passes the dimension check and returns [True] after
    writing its datasets. *)
Theorem process_succeeds rec_file tru_file rebin_time rebin_channel n0 n1 :
  0 < rebin_time -> 0 < rebin_channel ->
  12287 <= Z.of_nat n0 ->
  loaded_frames rec_file ++ loaded_frames tru_file <> [] ->
  (forall k a,
      In (k, a) (loaded_frames rec_file ++ loaded_frames tru_file) ->
      shape2 a = (n0, n1)) ->
  (dict_mem String.eqb "charge_1st"%string (loaded_frames tru_file) = true ->
   dict_mem String.eqb "charge_2nd"%string (loaded_frames tru_file) = true) ->
  (forall kind,
      In kind label_kinds ->
      dict_mem String.eqb (kind ++ "_1st")%string (loaded_frames tru_file)
      = true ->
      dict_mem String.eqb (kind ++ "_2nd")%string (loaded_frames tru_file)
      = true /\
      dict_mem String.eqb "charge_1st"%string (loaded_frames tru_file)
      = true) ->
  exists ds,
    snd (process rec_file tru_file rebin_time rebin_channel)
    = Ok (mk_run true (Some ds)).
Proof.
  intros Ht Hc Hrows Hne Hshape Hcharge Hkinds.
  unfold process. rewrite process_kinds_eq. cbn [snd].
  destruct (process_frames_succeeds (loaded_frames rec_file)
              (loaded_frames tru_file) rebin_time rebin_channel n0 n1)
    as (log & ds & E); try assumption.
  rewrite E. exists ds. reflexivity.
Qed.

Lemma process_succeeds_witness :
  exists ds,
    snd (process ex_no_group ex_full_charge_tru 2 4)
    = Ok (mk_run true (Some ds)).
Proof.
  apply (process_succeeds ex_no_group ex_full_charge_tru 2 4
           (Z.to_nat 12288) 1); try lia.
  - rewrite ex_full_charge_loaded. discriminate.
  - rewrite ex_full_charge_loaded. intros k a [H|[H|[]]];
      injection H as _ <-; reflexivity.
  - reflexivity.
  - rewrite ex_full_charge_loaded. intros kind Hk.
    simpl in Hk. destruct Hk as [<-|[<-|[<-|[]]]]; discriminate.
Defined.

(** The datasets a returning run writes are named exactly
    [frame_anode{A}_plane{P}_{type}] -- the first of the two names
    [get_channel_data] tries -- for every anode [A] of the eight, every
    plane [P] of the three and every frame type whose block ran: [gauss]
    when the reconstruction file gave a frame [frame_gauss], the [_1st]
    and [_2nd] outputs of a label kind when the truth file gave the
    kind's [_1st] frame, the two charges when it gave [charge_1st].  Each
    such type is one of the nine [get_channel_data] looks for. *)
Theorem process_written_names rec_file tru_file rebin_time rebin_channel
    r ds :
  snd (process rec_file tru_file rebin_time rebin_channel) = Ok r ->
  written r = Some ds ->
  (forall name,
      In name (map fst ds) <->
      exists anode_id plane_id frame_type,
        0 <= anode_id < 8 /\ 0 <= plane_id < 3 /\
        stored_type (loaded_frames rec_file) (loaded_frames tru_file)
                    frame_type /\
        hd_error (possible_keys anode_id plane_id frame_type) = Some name) /\
  (forall frame_type,
      stored_type (loaded_frames rec_file) (loaded_frames tru_file)
                  frame_type ->
      In frame_type frame_types).
Proof.
  intros E Hw. split; [|apply stored_type_frame_types].
  intros name. unfold process in E. rewrite process_kinds_eq in E.
  cbn [snd] in E. apply io_ok in E.
  exact (process_frames_written _ _ _ _ _ r ds name E Hw).
Qed.

Lemma process_written_names_witness :
  exists r ds,
    snd (process ex_no_group ex_full_charge_tru 1 1) = Ok r /\
    written r = Some ds /\
    In "frame_anode7_plane2_charge_2nd"%string (map fst ds).
Proof.
  destruct ex_full_charge_run as (log & ds & E).
  exists (mk_run true (Some ds)), ds.
  assert (Er : snd (process ex_no_group ex_full_charge_tru 1 1)
               = Ok (mk_run true (Some ds))) by (now rewrite E).
  split; [exact Er|]. split; [reflexivity|].
  apply (process_written_names ex_no_group ex_full_charge_tru 1 1
           (mk_run true (Some ds)) ds Er eq_refl).
  exists 7, 2, "charge_2nd"%string.
  split; [lia|]. split; [lia|]. split; [|reflexivity].
  right; right. split; [now right|]. reflexivity.
Defined.

(* ================================================================= *)
(** ** [get_channel_data] *)

Lemma dict_get_set {V} k (v : V) d k' :
  dict_get String.eqb k' (dict_set String.eqb k v d)
  = if String.eqb k' k then Some v else dict_get String.eqb k' d.
Proof.
  induction d as [|[k0 v0] d IH]; simpl.
  - reflexivity.
  - destruct (String.eqb_spec k k0) as [->|Hne]; simpl.
    + now destruct (String.eqb k' k0).
    + rewrite IH. destruct (String.eqb_spec k' k0) as [->|Hne'].
      * destruct (String.eqb_spec k0 k); [congruence | reflexivity].
      * reflexivity.
Qed.

(** The channel index is never negative, so the guard
    [ch_idx < frame_data.shape[0]] keeps the row access inside the first
    axis.  What still raises is a dataset without a first axis, and one
    without a second axis when the row is asked for. *)
Lemma try_keys_ok h5f ch_idx keys :
  0 <= ch_idx ->
  try_keys h5f ch_idx keys
  = if key_readable h5f ch_idx keys
    then Ok (key_outcome h5f ch_idx keys)
    else Raise IndexError.
Proof.
  intros Hidx. unfold key_outcome, key_readable.
  induction keys as [|key rest IH]; cbn [try_keys first_present].
  - reflexivity.
  - unfold dict_mem, h5_lookup.
    destruct (dict_get String.eqb key h5f) as [frame_data|]; [|exact IH].
    cbn [rbind]. unfold shape0, take_row, row_readable.
    destruct (nd_shape frame_data) as [|n0 [|n1 rest']]; cbn [rbind hd tl].
    + reflexivity.
    + destruct (Z.ltb_spec ch_idx (Z.of_nat n0)); reflexivity.
    + destruct (Z.ltb_spec ch_idx (Z.of_nat n0)) as [Hlt|Hge];
        [|reflexivity].
      unfold norm_index. destruct (Z.leb_spec 0 ch_idx); [|lia].
      destruct (Z.ltb_spec ch_idx (Z.of_nat n0)); [|lia].
      reflexivity.
Qed.

Section ChannelLoop.
Variables (h5f : h5root) (anode_id plane_id ch_idx : Z).
Hypothesis Hidx : 0 <= ch_idx.

Lemma channel_loop_ok l :
  (forall frame_type,
      In frame_type l ->
      key_readable h5f ch_idx (possible_keys anode_id plane_id frame_type)
      = true) ->
  forall data warnings,
  exists data',
    for_each l
      (fun (st : list (string * ndarray) * list bounds_warning) frame_type =>
         r <- try_keys h5f ch_idx
                (possible_keys anode_id plane_id frame_type) ;;
         match fst r with
         | Some row =>
             Ok (dict_set String.eqb frame_type row (fst st),
                 List.app (snd st) (snd r))
         | None => Ok (fst st, List.app (snd st) (snd r))
         end)
      (data, warnings)
    = Ok (data',
          warnings
            ++ flat_map
                 (fun frame_type =>
                    snd (key_outcome h5f ch_idx
                           (possible_keys anode_id plane_id frame_type))) l)
    /\
    forall frame_type,
      dict_get String.eqb frame_type data'
      = if in_dec string_dec frame_type l then
          match fst (key_outcome h5f ch_idx
                       (possible_keys anode_id plane_id frame_type)) with
          | Some row => Some row
          | None => dict_get String.eqb frame_type data
          end
        else dict_get String.eqb frame_type data.
Proof.
  induction l as [|x l IH]; intros Hr data warnings;
    cbn [for_each flat_map].
  - exists data. rewrite app_nil_r. split; [reflexivity|].
    intros ft. reflexivity.
  - rewrite try_keys_ok by exact Hidx.
    rewrite (Hr x (or_introl eq_refl)). cbn [rbind fst snd].
    set (o := key_outcome h5f ch_idx (possible_keys anode_id plane_id x)).
    set (data1 := match fst o with
                  | Some row => dict_set String.eqb x row data
                  | None => data
                  end).
    destruct (IH (fun ft H => Hr ft (or_intror H))
                 data1 (warnings ++ snd o)) as (data' & E & Hget).
    exists data'. split.
    + rewrite app_assoc. rewrite <- E. unfold data1.
      destruct (fst o); reflexivity.
    + intros ft. rewrite Hget.
      assert (H1 : dict_get String.eqb ft data1
                   = if String.eqb ft x then
                       match fst o with
                       | Some row => Some row
                       | None => dict_get String.eqb ft data
                       end
                     else dict_get String.eqb ft data).
      { unfold data1. destruct (fst o) as [row|].
        - apply dict_get_set.
        - now destruct (String.eqb ft x). }
      rewrite H1.
      destruct (String.eqb_spec ft x) as [Heq|Hne].
      * rewrite Heq. fold o.
        destruct (in_dec string_dec x (x :: l)) as [_|Hn];
          [|exfalso; apply Hn; now left].
        destruct (in_dec string_dec x l); destruct (fst o); reflexivity.
      * destruct (in_dec string_dec ft l) as [Hl|Hl];
          destruct (in_dec string_dec ft (x :: l)) as [Hx|Hx];
          try reflexivity.
        -- exfalso. apply Hx. now right.
        -- exfalso. destruct Hx as [Hx|Hx]; [congruence | contradiction].
Qed.

(** One dataset that is not readable, first present under a name tried
    for one of the frame types, ends the loop with the exception. *)
Lemma channel_loop_raises l :
  (exists frame_type,
      In frame_type l /\
      key_readable h5f ch_idx (possible_keys anode_id plane_id frame_type)
      = false) ->
  forall st,
    for_each l
      (fun (st : list (string * ndarray) * list bounds_warning) frame_type =>
         r <- try_keys h5f ch_idx
                (possible_keys anode_id plane_id frame_type) ;;
         match fst r with
         | Some row =>
             Ok (dict_set String.eqb frame_type row (fst st),
                 List.app (snd st) (snd r))
         | None => Ok (fst st, List.app (snd st) (snd r))
         end)
      st
    = Raise IndexError.
Proof.
  induction l as [|x l IH]; intros (ft & Hin & Hf) st.
  - destruct Hin.
  - cbn [for_each]. rewrite try_keys_ok by exact Hidx.
    case_eq (key_readable h5f ch_idx (possible_keys anode_id plane_id x));
      intros Hx; cbn [rbind]; [|reflexivity].
    assert (Hl : exists frame_type,
               In frame_type l /\
               key_readable h5f ch_idx
                 (possible_keys anode_id plane_id frame_type) = false).
    { exists ft. split; [|exact Hf].
      destruct Hin as [Heq|Hin]; [|exact Hin].
      rewrite Heq in Hx. congruence. }
    destruct (fst (key_outcome h5f ch_idx
                     (possible_keys anode_id plane_id x)));
      cbn [rbind]; apply (IH Hl).
Qed.
End ChannelLoop.

Lemma determine_anode_plane_idx channel :
  0 <= snd (determine_anode_plane channel).
Proof.
  destruct (determine_anode_plane_cases channel)
    as (lo & hi & cru & plane & _ & Hr & ->).
  cbn [snd]. lia.
Qed.

(** When every dataset that decides a frame type is readable,
    [get_channel_data] returns, and what it returns is told by
    [key_outcome]. *)
Lemma get_channel_data_readable h5f channel anode_id plane_id ch_idx :
  determine_anode_plane channel = (anode_id, plane_id, ch_idx) ->
  (forall frame_type,
      In frame_type frame_types ->
      key_readable h5f ch_idx (possible_keys anode_id plane_id frame_type)
      = true) ->
  exists cd,
    get_channel_data h5f channel = Ok cd /\
    (cd_anode cd, cd_plane cd, cd_idx cd) = (anode_id, plane_id, ch_idx) /\
    (forall frame_type,
        dict_get String.eqb frame_type (cd_data cd)
        = if in_dec string_dec frame_type frame_types
          then fst (key_outcome h5f ch_idx
                      (possible_keys anode_id plane_id frame_type))
          else None) /\
    cd_warnings cd
    = flat_map
        (fun frame_type =>
           snd (key_outcome h5f ch_idx
                  (possible_keys anode_id plane_id frame_type)))
        frame_types.
Proof.
  intros Ed Hr. unfold get_channel_data.
  pose proof (determine_anode_plane_idx channel) as Hidx.
  rewrite Ed in Hidx |- *. cbn [snd] in Hidx.
  destruct (channel_loop_ok h5f anode_id plane_id ch_idx Hidx
                            frame_types Hr [] [])
    as (data' & E & Hget).
  rewrite E. cbn [rbind fst snd app].
  eexists. split; [reflexivity|]. cbn [cd_anode cd_plane cd_idx cd_data
                                        cd_warnings].
  split; [reflexivity|]. split; [|reflexivity].
  intros ft. rewrite Hget. cbn [dict_get].
  destruct (in_dec string_dec ft frame_types); [|reflexivity].
  now destruct (fst (key_outcome h5f ch_idx
                       (possible_keys anode_id plane_id ft))).
Qed.

(** In a file whose datasets all have two axes or more, every dataset is
    readable. *)
Lemma key_readable_rank2 h5f ch_idx keys :
  (forall key frame_data,
      dict_get String.eqb key h5f = Some frame_data ->
      (2 <= length (nd_shape frame_data))%nat) ->
  key_readable h5f ch_idx keys = true.
Proof.
  intros H. unfold key_readable.
  induction keys as [|key rest IH]; cbn [first_present]; [reflexivity|].
  destruct (dict_get String.eqb key h5f) as [d|] eqn:E; [|exact IH].
  apply H in E. unfold row_readable.
  destruct (nd_shape d) as [|n0 [|n1 rest']]; cbn [length] in E;
    [lia | lia | reflexivity].
Qed.

(** [get_channel_data], for any file of integer datasets and any channel
    (negative ones included), with [(anode_id, plane_id, ch_idx)] the
    three results of [determine_anode_plane].  For each of the nine frame
    types the first present of the two names decides.  The call raises
    [IndexError] exactly when one deciding dataset is a scalar, or is
    one-dimensional and longer than [ch_idx] (the row [ch_idx, :] is
    asked of it).  Otherwise it returns the three results, and for each
    frame type: the sub-array [ch_idx] of the deciding dataset is stored
    when its first axis is longer than [ch_idx], a warning naming the
    dataset is printed (and nothing stored) when it is not, and nothing
    happens when neither name is present; no other entry is stored and
    the warnings come in the order of the frame types.  In a file whose
    datasets all have two axes or more nothing raises. *)
Theorem get_channel_data_spec h5f channel anode_id plane_id ch_idx :
  determine_anode_plane channel = (anode_id, plane_id, ch_idx) ->
  ((forall frame_type,
       In frame_type frame_types ->
       key_readable h5f ch_idx (possible_keys anode_id plane_id frame_type)
       = true) ->
   exists cd,
     get_channel_data h5f channel = Ok cd /\
     (cd_anode cd, cd_plane cd, cd_idx cd) = (anode_id, plane_id, ch_idx) /\
     (forall frame_type,
         dict_get String.eqb frame_type (cd_data cd)
         = if in_dec string_dec frame_type frame_types
           then fst (key_outcome h5f ch_idx
                       (possible_keys anode_id plane_id frame_type))
           else None) /\
     cd_warnings cd
     = flat_map
         (fun frame_type =>
            snd (key_outcome h5f ch_idx
                   (possible_keys anode_id plane_id frame_type)))
         frame_types) /\
  ((exists frame_type,
       In frame_type frame_types /\
       key_readable h5f ch_idx (possible_keys anode_id plane_id frame_type)
       = false) ->
   get_channel_data h5f channel = Raise IndexError) /\
  ((forall key frame_data,
       dict_get String.eqb key h5f = Some frame_data ->
       (2 <= length (nd_shape frame_data))%nat) ->
   forall frame_type,
     key_readable h5f ch_idx (possible_keys anode_id plane_id frame_type)
     = true).
Proof.
  intros Ed. split; [|split].
  - now apply get_channel_data_readable.
  - intros Hex. unfold get_channel_data.
    pose proof (determine_anode_plane_idx channel) as Hidx.
    rewrite Ed in Hidx |- *. cbn [snd] in Hidx.
    now rewrite (channel_loop_raises h5f anode_id plane_id ch_idx Hidx
                   frame_types Hex).
  - intros H ft. now apply key_readable_rank2.
Qed.

Lemma get_channel_data_spec_witness :
  determine_anode_plane 1 = (0, 0, 1) /\
  (exists cd,
      get_channel_data ex_rebinned_file 1 = Ok cd /\
      cd_data cd = [("gauss"%string, mk_nd [3%nat] [4; 5; 6])] /\
      cd_warnings cd
      = [mk_warning "anode0_plane0_charge_1st" 1 [1%nat; 2%nat]]) /\
  get_channel_data ex_rebinned_file_1d 1 = Raise IndexError.
Proof.
  split; [reflexivity|].
  pose proof (get_channel_data_spec ex_rebinned_file 1 0 0 1 eq_refl)
    as (H1 & _ & H3).
  pose proof (get_channel_data_spec ex_rebinned_file_1d 1 0 0 1 eq_refl)
    as (_ & H2 & _).
  split.
  - destruct H1 as (cd & E & _).
    + intros ft _. apply H3. intros key d Hk.
      unfold ex_rebinned_file in Hk. cbn [dict_get] in Hk.
      repeat (destruct (String.eqb key _);
              [injection Hk as <-; cbn [nd_shape length]; lia|]).
      discriminate.
    + exists cd. split; [exact E|].
      assert (E' : Ok cd = get_channel_data ex_rebinned_file 1)
        by (now rewrite E).
      vm_compute in E'. injection E' as ->. split; reflexivity.
  - apply H2. exists "charge_2nd"%string. split; [|reflexivity].
    simpl. auto 10.
Defined.

(* ================================================================= *)
(** ** What [get_channel_data] reads from the output of [process] *)

Lemma string_app_inv_head (x y z : string) :
  (x ++ y)%string = (x ++ z)%string -> y = z.
Proof.
  induction x as [|ch x IH]; simpl; intros H; [exact H|].
  injection H as H. auto.
Qed.

Lemma string_app_eqb_head (x y z : string) :
  String.eqb (x ++ y) (x ++ z) = String.eqb y z.
Proof.
  induction x as [|ch x IH]; simpl; [reflexivity|].
  now rewrite Ascii.eqb_refl.
Qed.

(** [str] of a small number is its digit. *)
Lemma str_digit a :
  0 <= a < 8 ->
  str a = String (ascii_of_nat (48 + Z.to_nat a)) EmptyString.
Proof.
  intros H.
  assert (H' : a = 0 \/ a = 1 \/ a = 2 \/ a = 3 \/ a = 4 \/ a = 5 \/
               a = 6 \/ a = 7) by lia.
  repeat (destruct H' as [->|H']; [reflexivity|]). now subst.
Qed.

(** The plane keys of two units differ, whatever follows them. *)
Lemma plane_key_inj a p a' p' s s' :
  0 <= a < 8 -> 0 <= p < 3 -> 0 <= a' < 8 -> 0 <= p' < 3 ->
  (("anode" ++ str a ++ "_plane" ++ str p) ++ s)%string
  = (("anode" ++ str a' ++ "_plane" ++ str p') ++ s')%string ->
  a = a' /\ p = p'.
Proof.
  intros Ha Hp Ha' Hp' H.
  rewrite !str_digit in H by lia. cbn [append] in H.
  injection H as H1 H2.
  apply (f_equal nat_of_ascii) in H1, H2.
  rewrite !nat_ascii_embedding in H1, H2 by lia. lia.
Qed.

Section GaussEntry.
Variables (frames_rec frames_tru : frames) (rt rc : Z).

(** A unit leaves alone every key that does not start with its plane
    key. *)
Lemma aggregate_plane_other chans key kinds rd rd' k :
  aggregate_plane frames_rec frames_tru rt rc chans key kinds rd = Ok rd' ->
  (forall sfx, k <> (key ++ sfx)%string) ->
  dict_get String.eqb k rd' = dict_get String.eqb k rd.
Proof.
  intros E Hk. apply aggregate_plane_inv in E.
  destruct E as (rd1 & rd2 & E1 & E2 & E3).
  apply handle_gauss_inv in E1. apply handle_charge_inv in E3.
  assert (Hset : forall sfx (v : ndarray2) d,
             dict_get String.eqb k
                      (dict_set String.eqb (key ++ sfx)%string v d)
             = dict_get String.eqb k d).
  { intros sfx v d. rewrite dict_get_set.
    destruct (String.eqb_spec k (key ++ sfx)) as [Heq|_];
      [now apply Hk in Heq | reflexivity]. }
  assert (H1 : dict_get String.eqb k rd1 = dict_get String.eqb k rd).
  { destruct (dict_mem String.eqb "frame_gauss"%string frames_rec);
      [|now subst].
    destruct E1 as (v & ->). apply Hset. }
  assert (H2 : dict_get String.eqb k rd2 = dict_get String.eqb k rd).
  { revert E2.
    apply (for_each_invariant_in
             (fun s => dict_get String.eqb k s = dict_get String.eqb k rd));
      [|exact H1].
    intros s kind s' _ Hs E. apply handle_kind_inv in E.
    destruct (dict_mem String.eqb (kind ++ "_1st")%string frames_tru);
      [|now subst].
    destruct E as (v1 & v2 & ->). now rewrite !Hset. }
  destruct (dict_mem String.eqb "charge_1st"%string frames_tru);
    [|now subst].
  destruct E3 as (v1 & v2 & ->). now rewrite !Hset.
Qed.

(** A unit leaves its signal entry as its signal block stored it. *)
Lemma aggregate_plane_gauss chans key rd rd' whole :
  aggregate_plane frames_rec frames_tru rt rc chans key label_kinds rd
  = Ok rd' ->
  dict_get String.eqb "frame_gauss"%string frames_rec = Some whole ->
  exists data rebinned,
    take_rows whole chans = Ok data /\
    rebin_sum data rt rc = Ok rebinned /\
    dict_get String.eqb (key ++ "_gauss")%string rd' = Some rebinned.
Proof.
  intros E Hw. apply aggregate_plane_inv in E.
  destruct E as (rd1 & rd2 & E1 & E2 & E3).
  apply handle_charge_inv in E3.
  assert (Hset : forall sfx (v : ndarray2) d,
             sfx <> "_gauss"%string ->
             dict_get String.eqb (key ++ "_gauss")%string
                      (dict_set String.eqb (key ++ sfx)%string v d)
             = dict_get String.eqb (key ++ "_gauss")%string d).
  { intros sfx v d Hne. rewrite dict_get_set, string_app_eqb_head.
    destruct (String.eqb_spec "_gauss" sfx); [congruence | reflexivity]. }
  revert E1. unfold handle_gauss, dict_mem, frame_lookup. rewrite Hw.
  cbn [rbind].
  destruct (take_rows whole chans) as [data|] eqn:Et; [|discriminate].
  cbn [rbind].
  destruct (rebin_sum data rt rc) as [v|] eqn:Er; [|discriminate].
  cbn [rbind]. intros E1. injection E1 as <-.
  exists data, v. split; [reflexivity|]. split; [exact Er|].
  assert (H2 : dict_get String.eqb (key ++ "_gauss")%string rd2 = Some v).
  { revert E2.
    apply (for_each_invariant_in
             (fun s => dict_get String.eqb (key ++ "_gauss")%string s
                       = Some v)).
    - intros s kind s' Hkind Hs E. apply handle_kind_inv in E.
      destruct (dict_mem String.eqb (kind ++ "_1st")%string frames_tru);
        [|now subst].
      destruct E as (v1 & v2 & ->).
      simpl in Hkind.
      destruct Hkind as [<-|[<-|[<-|[]]]];
        rewrite !Hset by discriminate; exact Hs.
    - rewrite dict_get_set, String.eqb_refl. reflexivity. }
  destruct (dict_mem String.eqb "charge_1st"%string frames_tru);
    [|now subst].
  destruct E3 as (v1 & v2 & ->). rewrite !Hset by discriminate. exact H2.
Qed.

Lemma process_plane_gauss a p rd l rd' whole :
  process_plane rt rc label_kinds frames_rec frames_tru a
                (get_anode_planes a) rd p = (l, Ok rd') ->
  dict_get String.eqb "frame_gauss"%string frames_rec = Some whole ->
  gauss_stored frames_rec rt rc a p rd'.
Proof.
  intros E Hw. apply process_plane_inv in E.
  destruct E as (chans & Ec & E).
  destruct (aggregate_plane_gauss _ _ _ _ whole E Hw)
    as (data & v & Et & Er & Eg).
  exists chans, whole, data, v. auto.
Qed.

Lemma process_plane_gauss_kept a p b q rd l rd' whole :
  0 <= a < 8 -> 0 <= p < 3 -> 0 <= b < 8 -> 0 <= q < 3 ->
  dict_get String.eqb "frame_gauss"%string frames_rec = Some whole ->
  gauss_stored frames_rec rt rc a p rd ->
  process_plane rt rc label_kinds frames_rec frames_tru b
                (get_anode_planes b) rd q = (l, Ok rd') ->
  gauss_stored frames_rec rt rc a p rd'.
Proof.
  intros Ha Hp Hb Hq Hw Hs E.
  destruct (Z.eq_dec a b) as [->|Hab];
    [destruct (Z.eq_dec p q) as [->|Hpq]|].
  - eapply process_plane_gauss; eauto.
  - destruct Hs as (chans & w & data & v & H1 & H2 & H3 & H4 & H5).
    exists chans, w, data, v. repeat (split; [assumption|]).
    apply process_plane_inv in E. destruct E as (chans' & _ & E).
    rewrite (aggregate_plane_other _ _ _ _ _ _ E); [exact H5|].
    intros sfx Heq. apply plane_key_inj in Heq; lia.
  - destruct Hs as (chans & w & data & v & H1 & H2 & H3 & H4 & H5).
    exists chans, w, data, v. repeat (split; [assumption|]).
    apply process_plane_inv in E. destruct E as (chans' & _ & E).
    rewrite (aggregate_plane_other _ _ _ _ _ _ E); [exact H5|].
    intros sfx Heq. apply plane_key_inj in Heq; lia.
Qed.

Lemma process_anodes_gauss l rd whole a p :
  process_anodes rt rc label_kinds frames_rec frames_tru = (l, Ok rd) ->
  dict_get String.eqb "frame_gauss"%string frames_rec = Some whole ->
  0 <= a < 8 -> 0 <= p < 3 ->
  gauss_stored frames_rec rt rc a p rd.
Proof.
  intros E Hw Ha Hp. unfold process_anodes in E.
  refine (io_for_each_covers
            (fun a s =>
               forall p, 0 <= p < 3 -> gauss_stored frames_rec rt rc a p s)
            _ _ _ _ _ _ _ E a _ p Hp); cbv beta;
    [| | apply arange_In; lia].
  - intros s a0 l0 s' Ha0 E0 p0 Hp0. apply arange_In in Ha0.
    refine (io_for_each_covers
              (fun p s => gauss_stored frames_rec rt rc a0 p s)
              _ _ _ _ _ _ _ E0 p0 _); cbv beta;
      [| | apply arange_In; lia].
    + intros s0 p1 l1 s1 _ E1. eapply process_plane_gauss; eauto.
    + intros p1 s0 q l1 s1 Hp1 Hq Hs E1.
      apply arange_In in Hp1. apply arange_In in Hq.
      eapply (process_plane_gauss_kept a0 p1 a0 q); eauto; lia.
  - intros a0 s b l0 s' Ha0 Hb Hq E0 p0 Hp0.
    apply arange_In in Ha0. apply arange_In in Hb.
    revert E0.
    apply (io_for_each_invariant_in
             (fun s => gauss_stored frames_rec rt rc a0 p0 s));
      [|now apply Hq].
    intros s0 q l1 s1 Hq' Hs E1. apply arange_In in Hq'.
    eapply (process_plane_gauss_kept a0 p0 b q); eauto; lia.
Qed.

(** The output file holds, under [frame_] followed by the key, what the
    mapping holds under the key. *)
Lemma dict_get_output (rd : frames) k :
  keys_ok frames_rec frames_tru rd ->
  dict_get String.eqb ("frame_" ++ k)%string
           (map (fun kd : string * ndarray2 =>
                   (if prefix "frame_" (fst kd) then fst kd
                    else ("frame_" ++ fst kd)%string, snd kd)) rd)
  = dict_get String.eqb k rd.
Proof.
  intros Hok. induction rd as [|[k0 v0] rd IH]; [reflexivity|].
  cbn [map fst snd].
  assert (Hp : prefix "frame_" k0 = false).
  { destruct (Hok k0 (or_introl eq_refl))
      as (a & p & ftype & _ & _ & -> & _). reflexivity. }
  rewrite Hp. cbn [dict_get].
  rewrite (string_app_eqb_head "frame_" k k0).
  destruct (String.eqb k k0); [reflexivity|].
  apply IH. intros k' Hin. apply Hok. now right.
Qed.
End GaussEntry.

(** Indexing by rows that are not negative succeeds only when all of them
    are inside the array. *)
Lemma take_rows_inside a rows data :
  (forall r, In r rows -> 0 <= r) ->
  take_rows a rows = Ok data ->
  forall r, In r rows -> r < Z.of_nat (dim0 a).
Proof.
  unfold take_rows. intros Hpos E.
  destruct (for_each rows _ []) as [idx|] eqn:Ei; [|discriminate].
  clear E.
  assert (G : forall acc,
             for_each rows
               (fun acc r =>
                  r' <- norm_index (dim0 a) r ;; Ok (acc ++ [r'])) acc
             = Ok idx ->
             forall r, In r rows -> r < Z.of_nat (dim0 a));
    [|exact (G [] Ei)].
  clear Ei.
  induction rows as [|x rows IH]; intros acc Ei r Hr; [contradiction|].
  simpl in Ei.
  destruct (norm_index (dim0 a) x) as [x'|] eqn:Ex; [|discriminate].
  cbn [rbind] in Ei. destruct Hr as [->|Hr].
  - pose proof (Hpos r (or_introl eq_refl)) as H0.
    unfold norm_index in Ex.
    destruct (Z.ltb_spec r (Z.of_nat (dim0 a))); [assumption|].
    destruct (Z.ltb_spec r 0); [lia|].
    rewrite !andb_false_r in Ex. discriminate.
  - eapply IH; [|exact Ei | exact Hr].
    intros r0 Hr0. apply Hpos. now right.
Qed.

(** The rebinned frame of a plane, cell by cell, in the channels of the
    whole frame. *)
Lemma plane_rebinned_cells whole first last data t c rebinned :
  0 <= first ->
  (0 < t)%nat -> (0 < c)%nat ->
  take_rows whole (arange first last) = Ok data ->
  rebin_sum data (Z.of_nat t) (Z.of_nat c) = Ok rebinned ->
  dim0 rebinned = (Z.to_nat (last - first) / c)%nat /\
  dim1 rebinned = (dim1 whole / t)%nat /\
  forall i j,
    (i < dim0 rebinned)%nat -> (j < dim1 rebinned)%nat ->
    get2 rebinned i j
    = np_sum (map (fun k =>
                     np_sum (map (fun r =>
                                    get2 whole (Z.to_nat first + i * c + r)
                                         (j * t + k))
                                 (seq 0 c)))
                  (seq 0 t)).
Proof.
  intros Hf Ht Hc Et Er.
  assert (Hin : forall r, In r (arange first last) ->
                          0 <= r < Z.of_nat (dim0 whole)).
  { intros r Hr. split.
    - apply arange_In in Hr. lia.
    - eapply take_rows_inside; [|exact Et | exact Hr].
      intros r0 Hr0. apply arange_In in Hr0. lia. }
  rewrite (take_rows_ok whole _ Hin) in Et. injection Et as <-.
  rewrite rebin_sum_pos in Er by assumption. injection Er as <-.
  cbn [dim0 dim1]. rewrite arange_length.
  split; [reflexivity|]. split; [reflexivity|].
  intros i j Hi Hj. rewrite get2_mk2_tabulate by assumption.
  apply np_sum_map_ext_in. intros k Hk. apply in_seq in Hk.
  apply np_sum_map_ext_in. intros r Hr. apply in_seq in Hr.
  destruct (block_index_bound (Z.to_nat (last - first)) c i r)
    as [B1 B2]; [lia | assumption | lia |].
  destruct (block_index_bound (dim1 whole) t j k)
    as [B3 B4]; [lia | assumption | lia |].
  rewrite get2_mk2_tabulate by lia.
  f_equal. change 0%nat with (Z.to_nat 0). rewrite map_nth.
  assert (En : nth (i * c + r) (arange first last) 0
               = first + Z.of_nat (i * c + r)).
  { apply nth_error_nth. apply nth_error_arange. lia. }
  rewrite En. lia.
Qed.

(** A channel of the detector, the unit [determine_anode_plane] sends it
    to, and the plane array of that unit. *)
Lemma channel_plane_array channel :
  0 <= channel < 12288 ->
  exists a p idx first last,
    determine_anode_plane channel = (a, p, idx) /\
    dict_get Z.eqb p (get_anode_planes a) = Some (arange first last) /\
    channel = first + idx /\
    0 <= a < 8 /\ 0 <= p < 3 /\ 0 <= first < last /\ 0 <= idx.
Proof.
  intros Hch.
  destruct (determine_anode_plane_cases channel)
    as (lo & hi & cru & plane & Hin & Hr & E).
  assert (Hq : 0 <= channel / 3072 < 4).
  { split; [apply Z.div_pos; lia|].
    apply Z.div_lt_upper_bound; lia. }
  assert (Hs : 0 <= cru <= 1 /\ 0 <= plane < 3 /\ 0 <= lo /\ lo < hi - cru).
  { simpl in Hin.
    repeat (destruct Hin as [Hin|Hin];
            [injection Hin as <- <- <- <-; lia|]).
    contradiction. }
  destruct (anode_of_crp_cru (channel / 3072) cru) as [Hd Hm]; [lia|].
  pose proof (get_anode_planes_entry (channel / 3072 * 2 + cru)
                lo hi cru plane Hin Hm) as Eg.
  rewrite Hd in Eg.
  eexists _, _, _, _, _. split; [exact E|]. split; [exact Eg|].
  repeat split; lia.
Qed.

Lemma process_frames_written_inv frames_rec frames_tru rt rc log r ds :
  process_frames rt rc label_kinds frames_rec frames_tru = (log, Ok r) ->
  written r = Some ds ->
  exists l rd,
    process_anodes rt rc label_kinds frames_rec frames_tru = (l, Ok rd) /\
    ds = map (fun kd : string * ndarray2 =>
                (if prefix "frame_" (fst kd) then fst kd
                 else ("frame_" ++ fst kd)%string, snd kd)) rd.
Proof.
  intros E Hw.
  destruct (dict_merge String.eqb frames_rec frames_tru)
    as [|[name0 first] rest] eqn:Eall.
  { rewrite (process_frames_empty rt rc label_kinds _ _ Eall) in E.
    discriminate E. }
  destruct (verify_loop_spec (shape2 first) rest)
    as [[_ Hv]|(n & d & _ & _ & Hv)].
  2:{ rewrite (process_frames_mismatch rt rc label_kinds _ _ name0 first rest
                 _ Eall Hv) in E.
      injection E as _ <-. discriminate Hw. }
  rewrite (process_frames_pass rt rc label_kinds _ _ name0 first rest
             Eall Hv) in E.
  destruct (process_anodes rt rc label_kinds frames_rec frames_tru)
    as [l [rd|e]] eqn:Ea; [|discriminate E].
  injection E as _ <-. cbn [written] in Hw. injection Hw as <-.
  exists l, rd. split; reflexivity.
Qed.

Lemma ex_full_gauss_loaded :
  loaded_frames ex_full_gauss_rec
  = [("frame_gauss"%string, ex_column (Z.to_nat 12288) 1)].
Proof. reflexivity. Qed.

Lemma ex_full_gauss_run :
  exists log ds,
    process ex_full_gauss_rec ex_no_group 1 4
    = (log, Ok (mk_run true (Some ds))).
Proof.
  unfold process. rewrite process_kinds_eq.
  destruct (process_frames_succeeds (loaded_frames ex_full_gauss_rec)
              (loaded_frames ex_no_group) 1 4 (Z.to_nat 12288) 1)
    as (log & ds & E); try lia.
  - rewrite ex_full_gauss_loaded. discriminate.
  - rewrite ex_full_gauss_loaded. intros k a [H|[]].
    injection H as _ <-. reflexivity.
  - discriminate.
  - intros kind _. discriminate.
  - rewrite E. eexists _, _. reflexivity.
Qed.

Lemma dict_get_h5root_of key ds :
  dict_get String.eqb key (h5root_of ds)
  = option_map nd_of2 (dict_get String.eqb key ds).
Proof.
  induction ds as [|[k a] ds IH]; cbn [h5root_of map dict_get fst snd].
  - reflexivity.
  - destruct (String.eqb key k); [reflexivity | exact IH].
Qed.

(** Every dataset [process] creates has two axes. *)
Lemma h5root_of_rank2 ds key frame_data :
  dict_get String.eqb key (h5root_of ds) = Some frame_data ->
  (2 <= length (nd_shape frame_data))%nat.
Proof.
  rewrite dict_get_h5root_of.
  destruct (dict_get String.eqb key ds) as [a|]; [|discriminate].
  intros H. injection H as <-. cbn [nd_of2 nd_shape length]. lia.
Qed.

(** The cells of row [i] of a two-dimensional array are a slice of its
    buffer. *)
Lemma row_slice (a : ndarray2) i :
  wf2 a -> (i < dim0 a)%nat ->
  firstn (nd_size [dim1 a]) (skipn (i * nd_size [dim1 a]) (buf2 a))
  = map (get2 a i) (seq 0 (dim1 a)).
Proof.
  intros Hw Hi. unfold wf2 in Hw. cbn [nd_size fold_right].
  rewrite Nat.mul_1_r.
  assert (Hlen : length (firstn (dim1 a) (skipn (i * dim1 a) (buf2 a)))
                 = dim1 a).
  { rewrite length_firstn, length_skipn. nia. }
  apply (nth_ext _ _ 0 0).
  - now rewrite Hlen, length_map, length_seq.
  - intros n Hn. rewrite Hlen in Hn.
    rewrite nth_firstn.
    destruct (Nat.ltb_spec n (dim1 a)); [|lia].
    rewrite nth_skipn.
    rewrite (nth_indep (map (get2 a i) (seq 0 (dim1 a))) 0
                       (get2 a i 0%nat))
      by (rewrite length_map, length_seq; lia).
    rewrite map_nth, seq_nth by lia. reflexivity.
Qed.

(** The two nested sums of [np.sum] over a block of [int64] values are
    the sum of the block, wrapped around. *)
Lemma np_sum_block (f : nat -> nat -> Z) lk lr :
  (forall k r, in_dtype Int64 (f k r)) ->
  np_sum (map (fun k => np_sum (map (f k) lr)) lk)
  = wrap Int64 (zsum (map (fun k => zsum (map (f k) lr)) lk)).
Proof.
  intros H. rewrite np_sum_int64.
  - apply wrap_zsum_map. intros k _. apply np_sum_wrap.
  - apply Forall_forall. intros x Hx. apply in_map_iff in Hx.
    destruct Hx as (k & <- & _). apply np_sum_in.
    apply Forall_forall. intros y Hy. apply in_map_iff in Hy.
    destruct Hy as (r & <- & _). apply H.
Qed.

Lemma ex_column_frame n v : in_dtype Int8 v -> frame_of Int8 (ex_column n v).
Proof.
  intros H. unfold frame_of, ex_column. cbn [buf2].
  apply Forall_forall. intros x Hx.
  apply repeat_spec in Hx. now subst x.
Qed.

Lemma rebin_sum_wf2 data t c out :
  (0 < t)%nat -> (0 < c)%nat ->
  rebin_sum data (Z.of_nat t) (Z.of_nat c) = Ok out -> wf2 out.
Proof.
  intros Ht Hc E. rewrite rebin_sum_pos in E by assumption.
  injection E as <-. unfold wf2. cbn [dim0 dim1 buf2].
  apply tabulate2_length.
Qed.

(** Reading the output of [process] back with [get_channel_data]: for a
    channel of the detector, sent by [determine_anode_plane] to the unit
    [(anode_id, plane_id)] at index [ch_idx] of its plane array (whose
    first channel is [first], so that the channel is [first + ch_idx]),
    the call returns and the [gauss] entry is row [ch_idx] of the unit's
    rebinned signal frame, for a signal frame of a signed integer dtype.
    Each cell of that row is the sum, wrapped around to [int64], over the
    ticks of its block and over the [rebin_channel] channels from
    [first + ch_idx * rebin_channel] on: the channels of block [ch_idx],
    not those of the block that holds the channel.  When [ch_idx] is not below the plane's number of
    channels divided by [rebin_channel], nothing is stored and the
    out-of-bounds warning is printed. *)
Theorem get_channel_data_of_processed_gauss :
  forall rec_file tru_file rebin_time rebin_channel r ds d whole channel,
    0 < rebin_time -> 0 < rebin_channel ->
    snd (process rec_file tru_file rebin_time rebin_channel) = Ok r ->
    written r = Some ds ->
    dict_get String.eqb "frame_gauss"%string (loaded_frames rec_file)
    = Some whole ->
    frame_of d whole ->
    0 <= channel < 12288 ->
    let rt := Z.to_nat rebin_time in
    let rc := Z.to_nat rebin_channel in
    exists anode_id plane_id ch_idx first last cd,
      determine_anode_plane channel = (anode_id, plane_id, ch_idx) /\
      dict_get Z.eqb plane_id (get_anode_planes anode_id)
      = Some (arange first last) /\
      channel = first + ch_idx /\
      get_channel_data (h5root_of ds) channel = Ok cd /\
      let rows := (Z.to_nat (last - first) / rc)%nat in
      let cols := (dim1 whole / rt)%nat in
      let i := Z.to_nat ch_idx in
      if (i <? rows)%nat then
        dict_get String.eqb "gauss"%string (cd_data cd)
        = Some (mk_nd [cols]
                  (map (fun j =>
                          wrap Int64
                            (zsum (map (fun k =>
                                          zsum (map (fun r =>
                                                       get2 whole
                                                            (Z.to_nat first
                                                             + i * rc + r)
                                                            (j * rt + k))
                                                    (seq 0 rc)))
                                       (seq 0 rt))))
                       (seq 0 cols)))
      else
        dict_get String.eqb "gauss"%string (cd_data cd) = None /\
        In (mk_warning
              ("frame_anode" ++ str anode_id ++ "_plane" ++ str plane_id
                 ++ "_gauss")%string
              ch_idx [rows; cols])
           (cd_warnings cd).
Proof.
  intros rec_file tru_file rebin_time rebin_channel r ds d whole channel
         Ht Hc E Hw Hg Hd Hch rt rc.
  apply frame_of_int64 in Hd.
  assert (Et : rebin_time = Z.of_nat rt) by (unfold rt; lia).
  assert (Ec : rebin_channel = Z.of_nat rc) by (unfold rc; lia).
  assert (Ht' : (0 < rt)%nat) by lia.
  assert (Hc' : (0 < rc)%nat) by lia.
  clearbody rt rc. subst rebin_time rebin_channel.
  unfold process in E. rewrite process_kinds_eq in E. cbn [snd] in E.
  apply io_ok in E.
  destruct (process_frames_written_inv _ _ _ _ _ _ _ E Hw)
    as (l & rd & Ea & Eds).
  pose proof (process_anodes_keys _ _ _ _ _ _ Ea) as Hkeys.
  destruct (channel_plane_array channel Hch)
    as (a & p & idx & first & last & Ed & Eg & Echan & Ha & Hp & Hfl & Hidx).
  destruct (process_anodes_gauss _ _ _ _ _ _ whole a p Ea Hg Ha Hp)
    as (chans & w & data & v & Hc1 & Hc2 & Hc3 & Hc4 & Hc5).
  rewrite Eg in Hc1. injection Hc1 as <-.
  rewrite Hg in Hc2. injection Hc2 as <-.
  pose proof (rebin_sum_wf2 _ _ _ _ Ht' Hc' Hc4) as Hwf.
  destruct (plane_rebinned_cells whole first last data rt rc v)
    as (Hd0 & Hd1 & Hcells); try assumption; try lia.
  destruct (get_channel_data_readable (h5root_of ds) channel a p idx Ed)
    as (cd & Ecd & Eres & Hdata & Hwarn).
  { intros ft _. apply key_readable_rank2. apply h5root_of_rank2. }
  exists a, p, idx, first, last, cd.
  split; [exact Ed|]. split; [exact Eg|]. split; [exact Echan|].
  split; [exact Ecd|]. cbv zeta.
  assert (Ek : key_outcome (h5root_of ds) idx (possible_keys a p "gauss")
               = if (idx <? Z.of_nat (dim0 v))%Z
                 then (Some (mk_nd [dim1 v]
                               (firstn (nd_size [dim1 v])
                                       (skipn (Z.to_nat idx
                                               * nd_size [dim1 v])
                                              (buf2 v)))),
                       [])
                 else (None,
                       [mk_warning
                          ("frame_anode" ++ str a ++ "_plane" ++ str p
                             ++ "_gauss")%string idx [dim0 v; dim1 v]])).
  { unfold key_outcome, possible_keys. cbn [first_present].
    replace ("frame_anode" ++ str a ++ "_plane" ++ str p ++ "_" ++ "gauss")%string
      with ("frame_" ++ (("anode" ++ str a ++ "_plane" ++ str p)
                           ++ "_gauss"))%string
      by apply output_name_of_plane_key.
    rewrite dict_get_h5root_of.
    rewrite Eds, (dict_get_output _ _ rd _ Hkeys), Hc5.
    rewrite output_name_of_plane_key. reflexivity. }
  specialize (Hdata "gauss"%string).
  destruct (in_dec string_dec "gauss"%string frame_types) as [_|Hn];
    [|exfalso; apply Hn; simpl; auto].
  rewrite Ek in Hdata.
  destruct (Nat.ltb_spec (Z.to_nat idx) (Z.to_nat (last - first) / rc))
    as [Hlt|Hge];
    destruct (Z.ltb_spec idx (Z.of_nat (dim0 v))) as [Hlt'|Hge'];
    try lia.
  - rewrite Hdata. cbn [fst]. f_equal.
    rewrite (row_slice v (Z.to_nat idx) Hwf) by lia.
    rewrite Hd1. f_equal.
    apply map_ext_in. intros j Hj. apply in_seq in Hj.
    rewrite Hcells by lia.
    apply (np_sum_block
             (fun k r => get2 whole (Z.to_nat first + Z.to_nat idx * rc + r)
                              (j * rt + k))).
    intros k r0. now apply get2_in_dtype.
  - split; [exact Hdata|].
    rewrite Hwarn. apply in_flat_map. exists "gauss"%string.
    split; [simpl; auto|].
    rewrite Ek.
    destruct (Z.ltb_spec idx (Z.of_nat (dim0 v))) as [Hlt''|_]; [lia|].
    cbn [snd]. left. now rewrite Hd0, Hd1.
Qed.

Lemma get_channel_data_of_processed_gauss_witness :
  exists r ds,
    snd (process ex_full_gauss_rec ex_no_group 1 4) = Ok r /\
    written r = Some ds /\
    frame_of Int8 (ex_column (Z.to_nat 12288) 1) /\
    let rt := Z.to_nat 1 in
    let rc := Z.to_nat 4 in
    exists anode_id plane_id ch_idx first last cd,
      determine_anode_plane 5 = (anode_id, plane_id, ch_idx) /\
      dict_get Z.eqb plane_id (get_anode_planes anode_id)
      = Some (arange first last) /\
      5 = first + ch_idx /\
      get_channel_data (h5root_of ds) 5 = Ok cd /\
      let rows := (Z.to_nat (last - first) / rc)%nat in
      let cols := (dim1 (ex_column (Z.to_nat 12288) 1) / rt)%nat in
      let i := Z.to_nat ch_idx in
      if (i <? rows)%nat then
        dict_get String.eqb "gauss"%string (cd_data cd)
        = Some (mk_nd [cols]
                  (map (fun j =>
                          wrap Int64
                            (zsum (map (fun k =>
                                          zsum (map (fun r =>
                                                       get2 (ex_column
                                                               (Z.to_nat
                                                                  12288)
                                                               1)
                                                            (Z.to_nat first
                                                             + i * rc + r)
                                                            (j * rt + k))
                                                    (seq 0 rc)))
                                       (seq 0 rt))))
                       (seq 0 cols)))
      else
        dict_get String.eqb "gauss"%string (cd_data cd) = None /\
        In (mk_warning
              ("frame_anode" ++ str anode_id ++ "_plane" ++ str plane_id
                 ++ "_gauss")%string
              ch_idx [rows; cols])
           (cd_warnings cd).
Proof.
  destruct ex_full_gauss_run as (log & ds & E).
  exists (mk_run true (Some ds)), ds.
  assert (Er : snd (process ex_full_gauss_rec ex_no_group 1 4)
               = Ok (mk_run true (Some ds))) by (now rewrite E).
  assert (Hf : frame_of Int8 (ex_column (Z.to_nat 12288) 1)).
  { apply ex_column_frame. unfold in_dtype. simpl. lia. }
  assert (Hg : dict_get String.eqb "frame_gauss"%string
                        (loaded_frames ex_full_gauss_rec)
               = Some (ex_column (Z.to_nat 12288) 1)).
  { rewrite ex_full_gauss_loaded. reflexivity. }
  split; [exact Er|]. split; [reflexivity|]. split; [exact Hf|].
  exact (get_channel_data_of_processed_gauss
           ex_full_gauss_rec ex_no_group 1 4 (mk_run true (Some ds)) ds
           Int8 (ex_column (Z.to_nat 12288) 1) 5
           eq_refl eq_refl Er eq_refl Hg Hf
           (conj (proj1 (Z.leb_le 0 5) eq_refl)
                 (proj1 (Z.ltb_lt 5 12288) eq_refl))).
Defined.

(* ================================================================= *)
(** ** The shapes of the datasets written *)

Lemma take_rows_shape a rows data :
  take_rows a rows = Ok data -> shape2 data = (length rows, dim1 a).
Proof.
  unfold take_rows. intros E.
  destruct (for_each rows _ []) as [idx|] eqn:Ei; [|discriminate].
  cbn [rbind] in E. injection E as <-. unfold shape2. cbn [dim0 dim1].
  f_equal.
  assert (G : forall acc idx,
             for_each rows
               (fun acc r =>
                  r' <- norm_index (dim0 a) r ;; Ok (acc ++ [r'])) acc
             = Ok idx ->
             length idx = (length acc + length rows)%nat);
    [|exact (G [] idx Ei)].
  clear. induction rows as [|x rows IH]; intros acc idx E; simpl in E.
  - injection E as <-. simpl. lia.
  - destruct (norm_index (dim0 a) x) as [x'|]; [|discriminate].
    cbn [rbind] in E. apply IH in E. rewrite E, length_app. simpl. lia.
Qed.

Lemma dict_set_Forall {V} (Q : string * V -> Prop) k v d :
  Forall Q d -> Q (k, v) -> Forall Q (dict_set String.eqb k v d).
Proof.
  intros Hd Hq. apply Forall_forall. intros [k' v'] Hin.
  apply dict_set_In in Hin. destruct Hin as [->|Hin]; [exact Hq|].
  rewrite Forall_forall in Hd. now apply Hd.
Qed.

Lemma frame_lookup_In k (d : frames) a :
  frame_lookup k d = Ok a -> In (k, a) d.
Proof.
  unfold frame_lookup.
  destruct (dict_get String.eqb k d) as [a'|] eqn:E; [|discriminate].
  intros H. injection H as <-.
  induction d as [|[k0 v0] d IH]; simpl in E; [discriminate|].
  destruct (String.eqb_spec k k0) as [->|Hne].
  - injection E as <-. now left.
  - right. auto.
Qed.

Section WrittenShapes.
Variables (frames_rec frames_tru : frames) (t c n0 n1 : nat).
Hypothesis Ht : (0 < t)%nat.
Hypothesis Hc : (0 < c)%nat.
Hypothesis Hrec : forall k a, In (k, a) frames_rec -> shape2 a = (n0, n1).
Hypothesis Htru : forall k a, In (k, a) frames_tru -> shape2 a = (n0, n1).

Variables (a p : Z) (chans : list Z).
Hypothesis Ha : 0 <= a < 8.
Hypothesis Hp : 0 <= p < 3.
Hypothesis Hchans : dict_get Z.eqb p (get_anode_planes a) = Some chans.

Lemma plane_rows_shape (fr : frames) k whole data :
  (forall k a, In (k, a) fr -> shape2 a = (n0, n1)) ->
  frame_lookup k fr = Ok whole ->
  take_rows whole chans = Ok data ->
  shape2 data = (length chans, n1).
Proof.
  intros Hfr El Et. apply frame_lookup_In, Hfr in El.
  apply take_rows_shape in Et. rewrite Et. injection El as _ ->.
  reflexivity.
Qed.

Lemma unit_entry_ok ftype v :
  shape2 v = ((length chans / c)%nat, (n1 / t)%nat) ->
  shape_ok t c n1
    ((("anode" ++ str a ++ "_plane" ++ str p) ++ "_" ++ ftype)%string, v).
Proof.
  intros Hs. exists a, p, ftype, chans. auto.
Qed.

Lemma rebinned_plane_shape data v :
  shape2 data = (length chans, n1) ->
  rebin_sum data (Z.of_nat t) (Z.of_nat c) = Ok v ->
  shape2 v = ((length chans / c)%nat, (n1 / t)%nat).
Proof.
  intros Hs E. rewrite rebin_sum_pos in E by assumption.
  injection E as <-. injection Hs as -> ->. reflexivity.
Qed.

Lemma aggregate_plane_shapes rd rd' :
  aggregate_plane frames_rec frames_tru (Z.of_nat t) (Z.of_nat c) chans
                  ("anode" ++ str a ++ "_plane" ++ str p) label_kinds rd
  = Ok rd' ->
  Forall (shape_ok t c n1) rd -> Forall (shape_ok t c n1) rd'.
Proof.
  intros E Hrd. apply aggregate_plane_inv in E.
  destruct E as (rd1 & rd2 & E1 & E2 & E3).
  assert (H1 : Forall (shape_ok t c n1) rd1).
  { revert E1. unfold handle_gauss.
    destruct (dict_mem String.eqb "frame_gauss"%string frames_rec);
      [|intros E; now injection E as <-].
    destruct (frame_lookup _ frames_rec) as [whole|] eqn:El;
      [|discriminate].
    cbn [rbind].
    destruct (take_rows whole chans) as [data|] eqn:Et; [|discriminate].
    cbn [rbind].
    destruct (rebin_sum data _ _) as [v|] eqn:Er; [|discriminate].
    cbn [rbind]. intros E. injection E as <-.
    apply dict_set_Forall; [exact Hrd|].
    apply (unit_entry_ok "gauss").
    eapply rebinned_plane_shape; [|exact Er].
    exact (plane_rows_shape _ _ _ _ Hrec El Et). }
  assert (H2 : Forall (shape_ok t c n1) rd2).
  { revert E2. apply for_each_invariant_in; [|exact H1].
    intros s kind s' _ Hs. unfold handle_kind.
    destruct (dict_mem String.eqb (kind ++ "_1st")%string frames_tru);
      [|intros E; now injection E as <-].
    destruct (frame_lookup "charge_1st" frames_tru) as [w1|] eqn:L1;
      [|discriminate].
    cbn [rbind].
    destruct (take_rows w1 chans) as [c1|] eqn:T1; [|discriminate].
    cbn [rbind].
    destruct (frame_lookup "charge_2nd" frames_tru) as [w2|] eqn:L2;
      [|discriminate].
    cbn [rbind].
    destruct (take_rows w2 chans) as [c2|] eqn:T2; [|discriminate].
    cbn [rbind].
    destruct (frame_lookup (kind ++ "_1st") frames_tru) as [w3|] eqn:L3;
      [|discriminate].
    cbn [rbind].
    destruct (take_rows w3 chans) as [d1|] eqn:T3; [|discriminate].
    cbn [rbind].
    destruct (frame_lookup (kind ++ "_2nd") frames_tru) as [w4|] eqn:L4;
      [|discriminate].
    cbn [rbind].
    destruct (take_rows w4 chans) as [d2|] eqn:T4; [|discriminate].
    cbn [rbind].
    pose proof (plane_rows_shape _ _ _ _ Htru L1 T1) as S1.
    pose proof (plane_rows_shape _ _ _ _ Htru L2 T2) as S2.
    pose proof (plane_rows_shape _ _ _ _ Htru L3 T3) as S3.
    pose proof (plane_rows_shape _ _ _ _ Htru L4 T4) as S4.
    destruct (rebin_track_first_second_pos d1 d2 c1 c2 t c)
      as (o1 & o2 & Eo & So1 & So2 & _);
      try congruence; try assumption.
    rewrite Eo. cbn [rbind fst snd]. intros E. injection E as <-.
    injection S3 as D0 D1. rewrite D0, D1 in So1, So2.
    apply dict_set_Forall; [apply dict_set_Forall; [exact Hs|]|].
    - apply (unit_entry_ok (kind ++ "_1st")). exact So1.
    - apply (unit_entry_ok (kind ++ "_2nd")). exact So2. }
  revert E3. unfold handle_charge.
  destruct (dict_mem String.eqb "charge_1st"%string frames_tru);
    [|intros E; now injection E as <-].
  destruct (frame_lookup "charge_1st" frames_tru) as [w1|] eqn:L1;
    [|discriminate].
  cbn [rbind].
  destruct (take_rows w1 chans) as [c1|] eqn:T1; [|discriminate].
  cbn [rbind].
  destruct (frame_lookup "charge_2nd" frames_tru) as [w2|] eqn:L2;
    [|discriminate].
  cbn [rbind].
  destruct (take_rows w2 chans) as [c2|] eqn:T2; [|discriminate].
  cbn [rbind].
  destruct (rebin_sum c1 _ _) as [v1|] eqn:R1; [|discriminate].
  cbn [rbind].
  destruct (rebin_sum c2 _ _) as [v2|] eqn:R2; [|discriminate].
  cbn [rbind]. intros E. injection E as <-.
  apply dict_set_Forall; [apply dict_set_Forall; [exact H2|]|].
  - apply (unit_entry_ok "charge_1st").
    eapply rebinned_plane_shape; [|exact R1].
    exact (plane_rows_shape _ _ _ _ Htru L1 T1).
  - apply (unit_entry_ok "charge_2nd").
    eapply rebinned_plane_shape; [|exact R2].
    exact (plane_rows_shape _ _ _ _ Htru L2 T2).
Qed.
End WrittenShapes.

Lemma process_anodes_shapes frames_rec frames_tru t c n0 n1 l rd :
  (0 < t)%nat -> (0 < c)%nat ->
  (forall k a, In (k, a) frames_rec -> shape2 a = (n0, n1)) ->
  (forall k a, In (k, a) frames_tru -> shape2 a = (n0, n1)) ->
  process_anodes (Z.of_nat t) (Z.of_nat c) label_kinds frames_rec frames_tru
  = (l, Ok rd) ->
  Forall (shape_ok t c n1) rd.
Proof.
  intros Ht Hc Hrec Htru. unfold process_anodes.
  apply (io_for_each_invariant_in (Forall (shape_ok t c n1)));
    [|constructor].
  intros s a l' s' Ha Hs. apply arange_In in Ha.
  apply (io_for_each_invariant_in (Forall (shape_ok t c n1))); [|exact Hs].
  intros s0 p l0 s0' Hp Hs0 E. apply arange_In in Hp.
  apply process_plane_inv in E. destruct E as (chans & Ec & E).
  eapply (aggregate_plane_shapes frames_rec frames_tru t c n0 n1
            Ht Hc Hrec Htru a p chans); try eassumption; lia.
Qed.

(** When every loaded frame has the shape (n0, n1) and the factors are
    positive, every dataset a returning run writes for the plane [P] of
    the anode [A] has the number of channels of that plane divided by
    [rebin_channel] as its rows and n1 divided by [rebin_time] as its
    columns: the datasets of one unit have one shape, whatever their
    frame type. *)
Theorem process_written_shapes :
  forall rec_file tru_file rebin_time rebin_channel n0 n1 r ds name data,
    0 < rebin_time -> 0 < rebin_channel ->
    (forall k a,
        In (k, a) (loaded_frames rec_file ++ loaded_frames tru_file) ->
        shape2 a = (n0, n1)) ->
    snd (process rec_file tru_file rebin_time rebin_channel) = Ok r ->
    written r = Some ds ->
    In (name, data) ds ->
    exists anode_id plane_id frame_type plane_channels,
      0 <= anode_id < 8 /\ 0 <= plane_id < 3 /\
      hd_error (possible_keys anode_id plane_id frame_type) = Some name /\
      dict_get Z.eqb plane_id (get_anode_planes anode_id)
      = Some plane_channels /\
      Z.of_nat (dim0 data) = Z.of_nat (length plane_channels) / rebin_channel
      /\
      Z.of_nat (dim1 data) = Z.of_nat n1 / rebin_time.
Proof.
  intros rec_file tru_file rebin_time rebin_channel n0 n1 r ds name data
         Ht Hc Hshape E Hw Hin.
  assert (Et : rebin_time = Z.of_nat (Z.to_nat rebin_time)) by lia.
  assert (Ec : rebin_channel = Z.of_nat (Z.to_nat rebin_channel)) by lia.
  rewrite Et, Ec in E |- *.
  unfold process in E. rewrite process_kinds_eq in E. cbn [snd] in E.
  apply io_ok in E.
  destruct (process_frames_written_inv _ _ _ _ _ _ _ E Hw)
    as (l & rd & Ea & ->).
  apply process_anodes_shapes with (n0 := n0) (n1 := n1) in Ea; try lia.
  - apply in_map_iff in Hin. destruct Hin as ([k v] & Hkv & Hin).
    rewrite Forall_forall in Ea.
    destruct (Ea _ Hin) as (a & p & ftype & chans & Ha & Hp & Hk & Hch & Hs).
    cbn [fst snd] in Hk, Hs, Hkv. subst k.
    injection Hkv as <- <-. injection Hs as -> ->.
    exists a, p, ftype, chans.
    split; [exact Ha|]. split; [exact Hp|].
    split; [|split; [exact Hch|]].
    + unfold possible_keys. cbn [hd_error]. f_equal. symmetry.
      apply output_name_of_plane_key.
    + split; apply Nat2Z.inj_div.
  - intros k a Hka. apply (Hshape k). apply in_or_app. now left.
  - intros k a Hka. apply (Hshape k). apply in_or_app. now right.
Qed.

Lemma process_written_shapes_witness :
  exists r ds name data,
    snd (process ex_full_gauss_rec ex_no_group 1 4) = Ok r /\
    written r = Some ds /\
    In (name, data) ds /\
    exists anode_id plane_id frame_type plane_channels,
      0 <= anode_id < 8 /\ 0 <= plane_id < 3 /\
      hd_error (possible_keys anode_id plane_id frame_type) = Some name /\
      dict_get Z.eqb plane_id (get_anode_planes anode_id)
      = Some plane_channels /\
      Z.of_nat (dim0 data) = Z.of_nat (length plane_channels) / 4 /\
      Z.of_nat (dim1 data) = Z.of_nat 1 / 1.
Proof.
  destruct ex_full_gauss_run as (log & ds & E).
  assert (Er : snd (process ex_full_gauss_rec ex_no_group 1 4)
               = Ok (mk_run true (Some ds))) by (now rewrite E).
  assert (Hin : In "frame_anode0_plane0_gauss"%string (map fst ds)).
  { pose proof (process_run_frames _ _ _ _ _ Er) as E'.
    apply (proj2 (process_frames_written
                    (loaded_frames ex_full_gauss_rec)
                    (loaded_frames ex_no_group) 1 4 _
                    (mk_run true (Some ds)) ds
                    "frame_anode0_plane0_gauss"%string E' eq_refl)).
    exists 0, 0, "gauss"%string.
    split; [lia|]. split; [lia|]. split; [|reflexivity].
    left. split; [reflexivity|]. now rewrite ex_full_gauss_loaded. }
  apply in_map_iff in Hin. destruct Hin as ([name data] & _ & Hin).
  exists (mk_run true (Some ds)), ds, name, data.
  split; [exact Er|]. split; [reflexivity|]. split; [exact Hin|].
  assert (Hs : forall k a,
             In (k, a) (loaded_frames ex_full_gauss_rec
                          ++ loaded_frames ex_no_group) ->
             shape2 a = (Z.to_nat 12288, 1%nat)).
  { rewrite ex_full_gauss_loaded. intros k a [H|[]].
    injection H as _ <-. reflexivity. }
  exact (process_written_shapes ex_full_gauss_rec ex_no_group 1 4
           (Z.to_nat 12288) 1 (mk_run true (Some ds)) ds name data
           eq_refl eq_refl Hs Er eq_refl Hin).
Defined.

(* ================================================================= *)
(** ** Label kinds in a run that returns *)

Lemma frame_lookup_get k (d : frames) a :
  frame_lookup k d = Ok a <-> dict_get String.eqb k d = Some a.
Proof.
  unfold frame_lookup. destruct (dict_get String.eqb k d); split;
    intros H; try discriminate; now injection H as <-.
Qed.

Lemma plane_key_suffix a p a' p' s s' :
  0 <= a < 8 -> 0 <= p < 3 -> 0 <= a' < 8 -> 0 <= p' < 3 ->
  (("anode" ++ str a ++ "_plane" ++ str p) ++ s)%string
  = (("anode" ++ str a' ++ "_plane" ++ str p') ++ s')%string ->
  a = a' /\ p = p' /\ s = s'.
Proof.
  intros Ha Hp Ha' Hp' H.
  destruct (plane_key_inj a p a' p' s s' Ha Hp Ha' Hp' H) as [-> ->].
  split; [reflexivity|]. split; [reflexivity|].
  now apply string_app_inv_head in H.
Qed.

Lemma unit_suffix_inj a p a' p' s s' :
  0 <= a < 8 -> 0 <= p < 3 -> 0 <= a' < 8 -> 0 <= p' < 3 ->
  (str a ++ "_plane" ++ str p ++ s)%string
  = (str a' ++ "_plane" ++ str p' ++ s')%string ->
  a = a' /\ p = p' /\ s = s'.
Proof.
  intros Ha Hp Ha' Hp' H.
  rewrite !str_digit in H by lia. cbn [append] in H.
  injection H as H1 H2 H3.
  apply (f_equal nat_of_ascii) in H1, H2.
  rewrite !nat_ascii_embedding in H1, H2 by lia.
  repeat split; [lia | lia | exact H3].
Qed.

(** A stored frame type that is an output of a label kind: the kind's
    [_1st] frame is present. *)
Lemma stored_type_kind frames_rec frames_tru kind sfx :
  In kind label_kinds ->
  sfx = "_1st"%string \/ sfx = "_2nd"%string ->
  stored_type frames_rec frames_tru (kind ++ sfx) ->
  dict_mem String.eqb (kind ++ "_1st")%string frames_tru = true.
Proof.
  intros Hk Hs [[E _]|[(kind' & Hk' & E & Hm)|[E _]]];
    simpl in Hk; destruct Hk as [<-|[<-|[<-|[]]]];
    destruct Hs as [-> | ->];
    try (destruct E as [E|E]); try discriminate E;
    simpl in Hk'; destruct Hk' as [<-|[<-|[<-|[]]]];
    try discriminate E; exact Hm.
Qed.

Lemma string_cons_eqb c (x y : string) :
  String.eqb (String c x) (String c y) = String.eqb x y.
Proof. simpl. now rewrite Ascii.eqb_refl. Qed.

(** Comparing two keys that start alike. *)
Ltac key_eqb :=
  cbn [append];
  repeat (first [rewrite string_app_eqb_head | rewrite string_cons_eqb]).

Section KindEntries.
Variables (frames_rec frames_tru : frames) (rt rc : Z).

Lemma kind_entries_rekey kind chans k1 k2 rd k1' k2' rd' :
  dict_get String.eqb k1' rd' = dict_get String.eqb k1 rd ->
  dict_get String.eqb k2' rd' = dict_get String.eqb k2 rd ->
  kind_entries frames_tru rt rc kind chans k1 k2 rd ->
  kind_entries frames_tru rt rc kind chans k1' k2' rd'.
Proof.
  intros E1 E2 (w1 & w2 & w3 & w4 & c1 & c2 & d1 & d2 & outs & H).
  exists w1, w2, w3, w4, c1, c2, d1, d2, outs.
  rewrite E1, E2. exact H.
Qed.

Lemma kind_entries_ext kind chans k1 k2 rd rd' :
  dict_get String.eqb k1 rd' = dict_get String.eqb k1 rd ->
  dict_get String.eqb k2 rd' = dict_get String.eqb k2 rd ->
  kind_entries frames_tru rt rc kind chans k1 k2 rd ->
  kind_entries frames_tru rt rc kind chans k1 k2 rd'.
Proof. apply kind_entries_rekey. Qed.

(** The block of a kind whose [_1st] frame is present, when it returns. *)
Lemma handle_kind_entries chans key rd kind rd' :
  handle_kind frames_tru rt rc chans key rd kind = Ok rd' ->
  dict_mem String.eqb (kind ++ "_1st")%string frames_tru = true ->
  kind_entries frames_tru rt rc kind chans
    (key ++ "_" ++ kind ++ "_1st") (key ++ "_" ++ kind ++ "_2nd") rd'.
Proof.
  unfold handle_kind. intros E Hm. rewrite Hm in E.
  destruct (frame_lookup "charge_1st" frames_tru) as [w1|] eqn:L1;
    [|discriminate].
  cbn [rbind] in E.
  destruct (take_rows w1 chans) as [c1|] eqn:T1; [|discriminate].
  cbn [rbind] in E.
  destruct (frame_lookup "charge_2nd" frames_tru) as [w2|] eqn:L2;
    [|discriminate].
  cbn [rbind] in E.
  destruct (take_rows w2 chans) as [c2|] eqn:T2; [|discriminate].
  cbn [rbind] in E.
  destruct (frame_lookup (kind ++ "_1st") frames_tru) as [w3|] eqn:L3;
    [|discriminate].
  cbn [rbind] in E.
  destruct (take_rows w3 chans) as [d1|] eqn:T3; [|discriminate].
  cbn [rbind] in E.
  destruct (frame_lookup (kind ++ "_2nd") frames_tru) as [w4|] eqn:L4;
    [|discriminate].
  cbn [rbind] in E.
  destruct (take_rows w4 chans) as [d2|] eqn:T4; [|discriminate].
  cbn [rbind] in E.
  destruct (rebin_track_first_second d1 d2 c1 c2 rt rc) as [outs|] eqn:Eo;
    [|discriminate].
  cbn [rbind] in E. injection E as <-.
  apply frame_lookup_get in L1, L2, L3, L4.
  exists w1, w2, w3, w4, c1, c2, d1, d2, outs.
  repeat (split; [assumption|]).
  rewrite !dict_get_set. key_eqb. split; reflexivity.
Qed.

(** The entries of one kind are not touched by the block of another
    kind. *)
Lemma handle_kind_other chans key rd b rd' kind sfx :
  handle_kind frames_tru rt rc chans key rd b = Ok rd' ->
  In kind label_kinds -> In b label_kinds -> kind <> b ->
  sfx = "_1st"%string \/ sfx = "_2nd"%string ->
  dict_get String.eqb (key ++ "_" ++ kind ++ sfx)%string rd'
  = dict_get String.eqb (key ++ "_" ++ kind ++ sfx)%string rd.
Proof.
  intros E Hk Hb Hne Hs. apply handle_kind_inv in E.
  destruct (dict_mem String.eqb (b ++ "_1st")%string frames_tru);
    [|now subst].
  destruct E as (v1 & v2 & ->).
  rewrite !dict_get_set.
  simpl in Hk, Hb.
  destruct Hk as [<-|[<-|[<-|[]]]]; destruct Hb as [<-|[<-|[<-|[]]]];
    try (exfalso; apply Hne; reflexivity);
    destruct Hs as [-> | ->]; key_eqb; reflexivity.
Qed.

Lemma aggregate_plane_kind chans key rd rd' kind :
  aggregate_plane frames_rec frames_tru rt rc chans key label_kinds rd
  = Ok rd' ->
  In kind label_kinds ->
  dict_mem String.eqb (kind ++ "_1st")%string frames_tru = true ->
  kind_entries frames_tru rt rc kind chans
    (key ++ "_" ++ kind ++ "_1st") (key ++ "_" ++ kind ++ "_2nd") rd'.
Proof.
  intros E Hkind Hm. apply aggregate_plane_inv in E.
  destruct E as (rd1 & rd2 & _ & E2 & E3).
  assert (H2 : kind_entries frames_tru rt rc kind chans
                 (key ++ "_" ++ kind ++ "_1st")
                 (key ++ "_" ++ kind ++ "_2nd") rd2).
  { refine (for_each_covers
              (fun kind s =>
                 dict_mem String.eqb (kind ++ "_1st")%string frames_tru
                 = true ->
                 kind_entries frames_tru rt rc kind chans
                   (key ++ "_" ++ kind ++ "_1st")
                   (key ++ "_" ++ kind ++ "_2nd") s)
              _ _ _ _ _ _ E2 kind Hkind Hm); cbv beta.
    - intros s k s' _ E Hk. exact (handle_kind_entries _ _ _ _ _ E Hk).
    - intros k s b s' Hk Hb Hq E Hmk.
      destruct (string_dec k b) as [->|Hne].
      + exact (handle_kind_entries _ _ _ _ _ E Hmk).
      + apply (kind_entries_ext k chans _ _ s s');
          [ | | now apply Hq];
          eapply handle_kind_other; eauto. }
  apply handle_charge_inv in E3.
  destruct (dict_mem String.eqb "charge_1st"%string frames_tru);
    [|now subst].
  destruct E3 as (v1 & v2 & ->).
  apply (kind_entries_ext kind chans _ _ rd2); [| |exact H2];
    rewrite !dict_get_set;
    simpl in Hkind; destruct Hkind as [<-|[<-|[<-|[]]]];
    key_eqb; reflexivity.
Qed.

Lemma process_plane_kind a p rd l rd' kind :
  process_plane rt rc label_kinds frames_rec frames_tru a
                (get_anode_planes a) rd p = (l, Ok rd') ->
  In kind label_kinds ->
  dict_mem String.eqb (kind ++ "_1st")%string frames_tru = true ->
  exists chans,
    dict_get Z.eqb p (get_anode_planes a) = Some chans /\
    kind_entries frames_tru rt rc kind chans
      (("anode" ++ str a ++ "_plane" ++ str p) ++ "_" ++ kind ++ "_1st")
      (("anode" ++ str a ++ "_plane" ++ str p) ++ "_" ++ kind ++ "_2nd") rd'.
Proof.
  intros E Hk Hm. apply process_plane_inv in E.
  destruct E as (chans & Ec & E). exists chans. split; [exact Ec|].
  now apply (aggregate_plane_kind chans _ rd).
Qed.

Lemma process_plane_kind_kept a p b q rd l rd' kind :
  0 <= a < 8 -> 0 <= p < 3 -> 0 <= b < 8 -> 0 <= q < 3 ->
  In kind label_kinds ->
  dict_mem String.eqb (kind ++ "_1st")%string frames_tru = true ->
  (exists chans,
      dict_get Z.eqb p (get_anode_planes a) = Some chans /\
      kind_entries frames_tru rt rc kind chans
        (("anode" ++ str a ++ "_plane" ++ str p) ++ "_" ++ kind ++ "_1st")
        (("anode" ++ str a ++ "_plane" ++ str p) ++ "_" ++ kind ++ "_2nd")
        rd) ->
  process_plane rt rc label_kinds frames_rec frames_tru b
                (get_anode_planes b) rd q = (l, Ok rd') ->
  exists chans,
    dict_get Z.eqb p (get_anode_planes a) = Some chans /\
    kind_entries frames_tru rt rc kind chans
      (("anode" ++ str a ++ "_plane" ++ str p) ++ "_" ++ kind ++ "_1st")
      (("anode" ++ str a ++ "_plane" ++ str p) ++ "_" ++ kind ++ "_2nd")
      rd'.
Proof.
  intros Ha Hp Hb Hq Hk Hm Hs E.
  assert (Hother : a <> b \/ p <> q ->
            forall sfx,
              dict_get String.eqb
                (("anode" ++ str a ++ "_plane" ++ str p) ++ sfx)%string rd'
              = dict_get String.eqb
                  (("anode" ++ str a ++ "_plane" ++ str p) ++ sfx)%string
                  rd).
  { intros Hne sfx. apply process_plane_inv in E.
    destruct E as (chans' & _ & E).
    apply (aggregate_plane_other _ _ _ _ _ _ _ _ _ _ E).
    intros sfx' Heq. apply plane_key_inj in Heq; lia. }
  destruct (Z.eq_dec a b) as [->|Hab];
    [destruct (Z.eq_dec p q) as [->|Hpq]|].
  - eapply process_plane_kind; eauto.
  - destruct Hs as (chans & Hc & He). exists chans. split; [exact Hc|].
    apply (kind_entries_ext kind chans _ _ rd); [| |exact He];
      apply Hother; now right.
  - destruct Hs as (chans & Hc & He). exists chans. split; [exact Hc|].
    apply (kind_entries_ext kind chans _ _ rd); [| |exact He];
      apply Hother; now left.
Qed.

Lemma process_anodes_kind l rd kind a p :
  process_anodes rt rc label_kinds frames_rec frames_tru = (l, Ok rd) ->
  In kind label_kinds ->
  dict_mem String.eqb (kind ++ "_1st")%string frames_tru = true ->
  0 <= a < 8 -> 0 <= p < 3 ->
  exists chans,
    dict_get Z.eqb p (get_anode_planes a) = Some chans /\
    kind_entries frames_tru rt rc kind chans
      (("anode" ++ str a ++ "_plane" ++ str p) ++ "_" ++ kind ++ "_1st")
      (("anode" ++ str a ++ "_plane" ++ str p) ++ "_" ++ kind ++ "_2nd") rd.
Proof.
  intros E Hk Hm Ha Hp. unfold process_anodes in E.
  refine (io_for_each_covers
            (fun a s =>
               forall p, 0 <= p < 3 ->
                 exists chans,
                   dict_get Z.eqb p (get_anode_planes a) = Some chans /\
                   kind_entries frames_tru rt rc kind chans
                     (("anode" ++ str a ++ "_plane" ++ str p)
                        ++ "_" ++ kind ++ "_1st")
                     (("anode" ++ str a ++ "_plane" ++ str p)
                        ++ "_" ++ kind ++ "_2nd") s)
            _ _ _ _ _ _ _ E a _ p Hp); cbv beta;
    [| | apply arange_In; lia].
  - intros s a0 l0 s' Ha0 E0 p0 Hp0. apply arange_In in Ha0.
    refine (io_for_each_covers
              (fun p s =>
                 exists chans,
                   dict_get Z.eqb p (get_anode_planes a0) = Some chans /\
                   kind_entries frames_tru rt rc kind chans
                     (("anode" ++ str a0 ++ "_plane" ++ str p)
                        ++ "_" ++ kind ++ "_1st")
                     (("anode" ++ str a0 ++ "_plane" ++ str p)
                        ++ "_" ++ kind ++ "_2nd") s)
              _ _ _ _ _ _ _ E0 p0 _); cbv beta;
      [| | apply arange_In; lia].
    + intros s0 p1 l1 s1 _ E1. eapply process_plane_kind; eauto.
    + intros p1 s0 q l1 s1 Hp1 Hq Hs E1.
      apply arange_In in Hp1. apply arange_In in Hq.
      eapply (process_plane_kind_kept a0 p1 a0 q); eauto; lia.
  - intros a0 s b l0 s' Ha0 Hb Hq E0 p0 Hp0.
    apply arange_In in Ha0. apply arange_In in Hb.
    revert E0.
    apply (io_for_each_invariant_in
             (fun s =>
                exists chans,
                  dict_get Z.eqb p0 (get_anode_planes a0) = Some chans /\
                  kind_entries frames_tru rt rc kind chans
                    (("anode" ++ str a0 ++ "_plane" ++ str p0)
                       ++ "_" ++ kind ++ "_1st")
                    (("anode" ++ str a0 ++ "_plane" ++ str p0)
                       ++ "_" ++ kind ++ "_2nd") s));
      [|now apply Hq].
    intros s0 q l1 s1 Hq' Hs E1. apply arange_In in Hq'.
    eapply (process_plane_kind_kept a0 p0 b q); eauto; lia.
Qed.

(** The datasets of a label kind in the output of a run that returns. *)
Lemma process_frames_kind log r ds kind a p :
  process_frames rt rc label_kinds frames_rec frames_tru = (log, Ok r) ->
  written r = Some ds ->
  In kind label_kinds -> 0 <= a < 8 -> 0 <= p < 3 ->
  if dict_mem String.eqb (kind ++ "_1st")%string frames_tru
  then exists chans,
      dict_get Z.eqb p (get_anode_planes a) = Some chans /\
      kind_entries frames_tru rt rc kind chans
        ("frame_anode" ++ str a ++ "_plane" ++ str p
           ++ "_" ++ kind ++ "_1st")
        ("frame_anode" ++ str a ++ "_plane" ++ str p
           ++ "_" ++ kind ++ "_2nd") ds
  else ~ In ("frame_anode" ++ str a ++ "_plane" ++ str p
               ++ "_" ++ kind ++ "_1st")%string (map fst ds) /\
       ~ In ("frame_anode" ++ str a ++ "_plane" ++ str p
               ++ "_" ++ kind ++ "_2nd")%string (map fst ds).
Proof.
  intros E Hw Hk Ha Hp.
  destruct (dict_mem String.eqb (kind ++ "_1st")%string frames_tru) eqn:Hm.
  - destruct (process_frames_written_inv _ _ _ _ _ _ _ E Hw)
      as (l & rd & Ea & ->).
    pose proof (process_anodes_keys _ _ _ _ _ _ Ea) as Hkeys.
    destruct (process_anodes_kind l rd kind a p Ea Hk Hm Ha Hp)
      as (chans & Hc & He).
    exists chans. split; [exact Hc|].
    rewrite <- !output_name_of_plane_key.
    exact (kind_entries_rekey kind chans _ _ rd _ _ _
             (dict_get_output _ _ rd _ Hkeys)
             (dict_get_output _ _ rd _ Hkeys) He).
  - assert (G : forall sfx,
               sfx = "_1st"%string \/ sfx = "_2nd"%string ->
               ~ In ("frame_anode" ++ str a ++ "_plane" ++ str p
                       ++ "_" ++ kind ++ sfx)%string (map fst ds)).
    { intros sfx Hs Hin.
      apply (process_frames_written _ _ _ _ _ _ _ _ E Hw) in Hin.
      destruct Hin as (a' & p' & ftype & Ha' & Hp' & Hst & Hn).
      unfold possible_keys in Hn. cbn [hd_error] in Hn.
      injection Hn as Hn.
      apply unit_suffix_inj in Hn; try assumption.
      destruct Hn as (-> & -> & Hn). injection Hn as ->.
      apply (stored_type_kind _ _ kind sfx Hk Hs) in Hst. congruence. }
    split; apply G; auto.
Qed.
End KindEntries.

Lemma ex_full_quad_loaded :
  loaded_frames ex_full_quad_tru
  = [("charge_1st"%string, ex_column (Z.to_nat 12288) 1);
     ("charge_2nd"%string, ex_column (Z.to_nat 12288) 2);
     ("orig_pid_1st"%string, ex_column (Z.to_nat 12288) 7);
     ("orig_pid_2nd"%string, ex_column (Z.to_nat 12288) 9)].
Proof. reflexivity. Qed.

Lemma ex_full_quad_run :
  exists log ds,
    process ex_no_group ex_full_quad_tru 1 1
    = (log, Ok (mk_run true (Some ds))).
Proof.
  unfold process. rewrite process_kinds_eq.
  destruct (process_frames_succeeds (loaded_frames ex_no_group)
              (loaded_frames ex_full_quad_tru) 1 1 (Z.to_nat 12288) 1)
    as (log & ds & E); try lia.
  - rewrite ex_full_quad_loaded. discriminate.
  - rewrite ex_full_quad_loaded. intros k a [H|[H|[H|[H|[]]]]];
      injection H as _ <-; reflexivity.
  - reflexivity.
  - rewrite ex_full_quad_loaded. intros kind Hk.
    simpl in Hk. destruct Hk as [<-|[<-|[<-|[]]]];
      first [discriminate | intros _; split; reflexivity].
  - rewrite E. eexists _, _. reflexivity.
Qed.

Lemma kind_entries_present frames_tru rt rc kind chans k1 k2 ds :
  kind_entries frames_tru rt rc kind chans k1 k2 ds ->
  Forall (fun k => dict_mem String.eqb k frames_tru = true)
         ["charge_1st"; "charge_2nd"; kind ++ "_1st"; kind ++ "_2nd"]%string.
Proof.
  intros (w1 & w2 & w3 & w4 & c1 & c2 & d1 & d2 & outs
          & G1 & _ & G2 & _ & G3 & _ & G4 & _).
  repeat constructor; unfold dict_mem;
    [now rewrite G1 | now rewrite G2 | now rewrite G3 | now rewrite G4].
Qed.

(** C8 (amended). A label kind whose [<kind>_1st] frame is absent is
    skipped without failing: the run is the run without that kind's block.
    In a run of [process] that returns, for every label kind and every
    anode [A] and plane [P]: when the kind's [_1st] frame was loaded, the
    four frames [charge_1st], [charge_2nd], [<kind>_1st], [<kind>_2nd]
    were all loaded and the two results of [rebin_track_first_second] on
    their rows for the plane's channels are written under
    [frame_anode{A}_plane{P}_{kind}_1st] and [..._2nd]; when it was not
    loaded, neither name is written.  So a kind is aggregated only when
    the full quadruple is present.  The run prints the names of the
    frames found in each file (and no list of expected kinds). *)
Theorem process_label_kinds :
  (forall rec_file tru_file rebin_time rebin_channel kind,
      dict_mem String.eqb (kind ++ "_1st")%string (loaded_frames tru_file)
      = false ->
      process rec_file tru_file rebin_time rebin_channel
      = process_kinds rec_file tru_file rebin_time rebin_channel
          (filter (fun k => negb (String.eqb k kind)) label_kinds)) /\
  (forall rec_file tru_file rebin_time rebin_channel r ds kind
          anode_id plane_id,
      snd (process rec_file tru_file rebin_time rebin_channel) = Ok r ->
      written r = Some ds ->
      In kind label_kinds ->
      0 <= anode_id < 8 -> 0 <= plane_id < 3 ->
      let name_1st :=
        ("frame_anode" ++ str anode_id ++ "_plane" ++ str plane_id
           ++ "_" ++ kind ++ "_1st")%string in
      let name_2nd :=
        ("frame_anode" ++ str anode_id ++ "_plane" ++ str plane_id
           ++ "_" ++ kind ++ "_2nd")%string in
      (dict_mem String.eqb (kind ++ "_1st")%string (loaded_frames tru_file)
       = true ->
       exists plane_channels,
         dict_get Z.eqb plane_id (get_anode_planes anode_id)
         = Some plane_channels /\
         kind_entries (loaded_frames tru_file) rebin_time rebin_channel
                      kind plane_channels name_1st name_2nd ds) /\
      (dict_mem String.eqb (kind ++ "_1st")%string (loaded_frames tru_file)
       = false ->
       ~ In name_1st (map fst ds) /\ ~ In name_2nd (map fst ds)) /\
      (In name_1st (map fst ds) \/ In name_2nd (map fst ds) ->
       Forall (fun k =>
                 dict_mem String.eqb k (loaded_frames tru_file) = true)
              ["charge_1st"; "charge_2nd";
               kind ++ "_1st"; kind ++ "_2nd"]%string)) /\
  (forall rec_file tru_file rebin_time rebin_channel,
      exists l1 l2,
        fst (process rec_file tru_file rebin_time rebin_channel)
        = l1 ++ [MsgLoadedFrames "g4-rec.h5"
                   (map fst (loaded_frames rec_file));
                 MsgLoadedFrames "g4-tru.h5"
                   (map fst (loaded_frames tru_file))] ++ l2).
Proof.
  split; [|split].
  - intros rec_file tru_file rt rc kind H. unfold process.
    now apply process_kinds_skip.
  - intros rec_file tru_file rt rc r ds kind a p Er Hw Hk Ha Hp n1 n2.
    pose proof (process_run_frames _ _ _ _ _ Er) as E.
    pose proof (process_frames_kind _ _ _ _ _ _ _ kind a p E Hw Hk Ha Hp)
      as H.
    fold n1 n2 in H.
    case_eq (dict_mem String.eqb (kind ++ "_1st")%string
                      (loaded_frames tru_file));
      intros Hm; rewrite Hm in H.
    + split; [intros _; exact H|]. split; [discriminate|].
      intros _. destruct H as (chans & _ & He).
      exact (kind_entries_present _ _ _ _ _ _ _ _ He).
    + split; [discriminate|]. split; [intros _; exact H|].
      intros [Hin|Hin]; [now destruct (proj1 H) | now destruct (proj2 H)].
  - intros rec_file tru_file rt rc. unfold process.
    rewrite process_kinds_eq. cbn [fst].
    destruct (process_frames_reports rt rc label_kinds
                (loaded_frames rec_file) (loaded_frames tru_file))
      as [l El].
    rewrite El.
    exists (MsgLoading :: fst (load_frames rec_file)
              ++ fst (load_frames tru_file)), l.
    cbn [app]. now rewrite <- !app_assoc.
Qed.

Lemma process_label_kinds_witness :
  (dict_mem String.eqb ("orig_pid" ++ "_1st")%string
            (loaded_frames ex_full_charge_tru) = false /\
   (exists log ds,
       process ex_no_group ex_full_charge_tru 1 1
       = (log, Ok (mk_run true (Some ds)))) /\
   process ex_no_group ex_full_charge_tru 1 1
   = process_kinds ex_no_group ex_full_charge_tru 1 1
       (filter (fun k => negb (String.eqb k "orig_pid")) label_kinds)) /\
  (exists r ds,
      snd (process ex_no_group ex_full_quad_tru 1 1) = Ok r /\
      written r = Some ds /\
      dict_mem String.eqb ("orig_pid" ++ "_1st")%string
               (loaded_frames ex_full_quad_tru) = true /\
      exists plane_channels,
        dict_get Z.eqb 1 (get_anode_planes 3) = Some plane_channels /\
        kind_entries (loaded_frames ex_full_quad_tru) 1 1
                     "orig_pid" plane_channels
                     "frame_anode3_plane1_orig_pid_1st"
                     "frame_anode3_plane1_orig_pid_2nd" ds).
Proof.
  split; [split; [reflexivity|split; [exact ex_full_charge_run|]]|].
  - exact (proj1 process_label_kinds ex_no_group ex_full_charge_tru 1 1
                 "orig_pid"%string eq_refl).
  - destruct ex_full_quad_run as (log & ds & E).
    assert (Er : snd (process ex_no_group ex_full_quad_tru 1 1)
                 = Ok (mk_run true (Some ds))) by (now rewrite E).
    exists (mk_run true (Some ds)), ds.
    split; [exact Er|]. split; [reflexivity|]. split; [reflexivity|].
    exact (proj1 (proj1 (proj2 process_label_kinds)
                    ex_no_group ex_full_quad_tru 1 1
                    (mk_run true (Some ds)) ds "orig_pid"%string 3 1
                    Er eq_refl (or_intror (or_introl eq_refl))
                    (conj (proj1 (Z.leb_le 0 3) eq_refl)
                          (proj1 (Z.ltb_lt 3 8) eq_refl))
                    (conj (proj1 (Z.leb_le 0 1) eq_refl)
                          (proj1 (Z.ltb_lt 1 3) eq_refl)))
                 eq_refl).
Defined.
